(** * Haramain bus booking: seat ledger, booking lifecycle, promotions

  A shallow embedding of the booking core of the platform:

  - [Schema]   the tables of shared/schema.ts (rows as records);
  - [Store]    the relational store with the constraints the schema
               declares, and a small state-and-exception monad in which a
               thrown exception keeps the writes made before it (the
               storage layer opens no transaction);
  - [Storage]  the methods of [DatabaseStorage] (server/storage.ts);
  - [Routes]   the handlers of server/routes.ts that touch bookings;
  - [SeatSelection] the amounts computed by the seat-selection form;
  - [Integrity] the keys and references of a well-formed store;
  - [SeatMap], [SearchResults] the seat map of the form and the list of
               search results (client);
  - [Queries]  the booking lists and the statistics of [DatabaseStorage].

  Conventions.  Tables are lists of rows in insertion order.  A
  [decimal(10,2)] column is represented by the number of hundredths it
  holds (an integer); a [timestamp] by milliseconds since the epoch.  The
  surrogate row id of [booked_seats] and the [created_at] columns are left
  out of the rows; the methods of [Queries], which order and filter
  bookings by [created_at], take that column as a function of the booking
  id.  An identifier of type [uuid] is the text PostgreSQL prints for it
  (lower-case hexadecimal groups of 8, 4, 4, 4 and 12 digits) and
  identifiers are compared as text, which is the comparison the database
  makes when it is given an identifier in that form; a property that
  depends on it says so.  The inserts and the update refuse text that
  contains U+0000, as PostgreSQL does; the queries are modelled for text
  without it.  The numbers the seat-selection form computes are modelled as
  exact rationals, where JavaScript computes with doubles. *)

From Stdlib Require Import List String Ascii ZArith QArith Qround Qminmax.
From Stdlib Require Import Lia Lqa Bool DecimalString Permutation Sorted.
Import ListNotations.

Local Open Scope string_scope.
Local Open Scope list_scope.
Local Open Scope Z_scope.

(* ------------------------------------------------------------------ *)
(** ** JavaScript string primitives used by the code *)

Module Js.

(** [String(n)] for an integer [n]. *)
Definition String_ (n : Z) : string := NilZero.string_of_int (Z.to_int n).

Fixpoint repeat_char (c : ascii) (n : nat) : string :=
  match n with
  | O => EmptyString
  | S k => String c (repeat_char c k)
  end.

(** [s.padStart(n, '0')]. *)
Definition padStart (n : nat) (c : ascii) (s : string) : string :=
  (repeat_char c (n - String.length s) ++ s)%string.

(** [s.slice(0, n)]. *)
Fixpoint slice0 (n : nat) (s : string) : string :=
  match n, s with
  | S k, String c r => String c (slice0 k r)
  | _, _ => EmptyString
  end.

Definition upper (c : ascii) : ascii :=
  let n := nat_of_ascii c in
  if andb (Nat.leb 97 n) (Nat.leb n 122) then ascii_of_nat (n - 32) else c.

(** [s.toUpperCase()] on ASCII text. *)
Fixpoint toUpperCase (s : string) : string :=
  match s with
  | EmptyString => EmptyString
  | String c r => String (upper c) (toUpperCase r)
  end.

Definition is_digit (c : ascii) : bool :=
  let n := nat_of_ascii c in andb (Nat.leb 48 n) (Nat.leb n 57).

Definition is_lower_hex (c : ascii) : bool :=
  let n := nat_of_ascii c in
  orb (is_digit c) (andb (Nat.leb 97 n) (Nat.leb n 102)).

Definition is_upper_hex (c : ascii) : bool :=
  let n := nat_of_ascii c in
  orb (is_digit c) (andb (Nat.leb 65 n) (Nat.leb n 70)).

Fixpoint all_chars (p : ascii -> bool) (s : string) : bool :=
  match s with
  | EmptyString => true
  | String c r => andb (p c) (all_chars p r)
  end.

End Js.

(* ------------------------------------------------------------------ *)
(** ** shared/schema.ts *)

Module Schema.

Record User := {
  user_id : string;
  email : option string;
  firstName : option string;
  lastName : option string
}.

Record Admin := {
  admin_id : string;
  admin_email : string;
  role : string
}.

Record Bus := {
  bus_id : string;
  busNumber : string;
  model : option string;
  capacity : Z
}.

Record Route := {
  route_id : string;
  originCity : string;
  destinationCity : string;
  estimatedDurationMinutes : option Z;
  route_isActive : option bool
}.

Record Trip := {
  trip_id : string;
  routeId : string;
  busId : string;
  departureTime : Z;
  arrivalTime : Z;
  price : Z;
  trip_status : option string
}.

Record Promotion := {
  promotion_id : string;
  promoCode : string;
  description : option string;
  discountType : string;
  discountValue : Z;
  startDate : Z;
  endDate : Z;
  promotion_isActive : option bool;
  usageLimit : option Z;
  createdByAdminId : string
}.

Record Booking := {
  booking_id : string;
  bookingReference : string;
  booking_userId : string;
  booking_tripId : string;
  totalAmount : Z;
  discountAmount : option Z;
  finalAmount : Z;
  promotionId : option string;
  booking_status : option string;
  paymentGatewayId : option string;
  paymentMethod : option string
}.

Record BookedSeat := {
  seat_bookingId : string;
  seat_tripId : string;
  seatNumber : string;
  passengerName : option string
}.

Record SocialLink := {
  link_id : Z;
  platformName : string;
  profileUrl : string;
  isVisible : option bool
}.

(** [UpsertUser]: what [upsertUser] is handed.  A property can be left
    out ([None]), given as null ([Some None]) or given a value; the callers
    always give the [id]. *)
Record UpsertUserData := {
  up_id : string;
  up_email : option (option string);
  up_firstName : option (option string);
  up_lastName : option (option string)
}.

(** [InsertBooking]: what [insertBookingSchema] yields.  A column with a
    default can be left out ([None]), given as null ([Some None]) or
    given a value. *)
Record InsertBooking := {
  ins_bookingReference : string;
  ins_userId : string;
  ins_tripId : string;
  ins_totalAmount : Z;
  ins_discountAmount : option (option Z);
  ins_finalAmount : Z;
  ins_promotionId : option string;
  ins_status : option (option string);
  ins_paymentGatewayId : option string;
  ins_paymentMethod : option string
}.

(** One element of [selectedSeats] as it arrives in the request body: a
    property of the JSON object may be missing. *)
Record SeatSelection := {
  sel_seatNumber : option string;
  sel_passengerName : option string
}.

(** The run-time value passed as [selectedSeats]: the route hands over
    [req.body.selectedSeats] unvalidated, so it can be [undefined]. *)
Inductive SelectedSeats :=
| SeatsUndefined
| SeatsArray (seats : list SeatSelection).

End Schema.
Import Schema.

(* ------------------------------------------------------------------ *)
(** ** The relational store *)

Module Store.

Record Database := {
  users : list User;
  admins : list Admin;
  buses : list Bus;
  routes : list Route;
  trips : list Trip;
  promotions : list Promotion;
  bookings : list Booking;
  bookedSeats : list BookedSeat;
  socialLinks : list SocialLink
}.

Definition set_users (f : list User -> list User) (db : Database) :=
  {| users := f (users db); admins := admins db; buses := buses db;
     routes := routes db; trips := trips db; promotions := promotions db;
     bookings := bookings db; bookedSeats := bookedSeats db;
     socialLinks := socialLinks db |}.

Definition set_buses (f : list Bus -> list Bus) (db : Database) :=
  {| users := users db; admins := admins db; buses := f (buses db);
     routes := routes db; trips := trips db; promotions := promotions db;
     bookings := bookings db; bookedSeats := bookedSeats db;
     socialLinks := socialLinks db |}.

Definition set_routes (f : list Route -> list Route) (db : Database) :=
  {| users := users db; admins := admins db; buses := buses db;
     routes := f (routes db); trips := trips db; promotions := promotions db;
     bookings := bookings db; bookedSeats := bookedSeats db;
     socialLinks := socialLinks db |}.

Definition set_trips (f : list Trip -> list Trip) (db : Database) :=
  {| users := users db; admins := admins db; buses := buses db;
     routes := routes db; trips := f (trips db); promotions := promotions db;
     bookings := bookings db; bookedSeats := bookedSeats db;
     socialLinks := socialLinks db |}.

Definition set_promotions (f : list Promotion -> list Promotion) (db : Database) :=
  {| users := users db; admins := admins db; buses := buses db;
     routes := routes db; trips := trips db; promotions := f (promotions db);
     bookings := bookings db; bookedSeats := bookedSeats db;
     socialLinks := socialLinks db |}.

Definition set_bookings (f : list Booking -> list Booking) (db : Database) :=
  {| users := users db; admins := admins db; buses := buses db;
     routes := routes db; trips := trips db; promotions := promotions db;
     bookings := f (bookings db); bookedSeats := bookedSeats db;
     socialLinks := socialLinks db |}.

Definition set_bookedSeats (f : list BookedSeat -> list BookedSeat) (db : Database) :=
  {| users := users db; admins := admins db; buses := buses db;
     routes := routes db; trips := trips db; promotions := promotions db;
     bookings := bookings db; bookedSeats := f (bookedSeats db);
     socialLinks := socialLinks db |}.

(** What a statement or a JavaScript expression can throw. *)
Inductive Exception :=
| UniqueViolation (constraint : string)
| ForeignKeyViolation (constraint : string)
| NotNullViolation (column : string)
| NumericOverflow (column : string)
| CharacterNotInRepertoire (column : string)
| TypeError (message : string)
| Error (message : string).

Inductive Completion (A : Type) :=
| Returns (a : A)
| Throws (e : Exception).
Arguments Returns {A} a.
Arguments Throws {A} e.

(** An [async] method body: it runs against the store and either returns
    or throws.  Every statement is committed on its own, so the store
    handed on after a throw holds the writes of the statements that
    completed before it. *)
Definition Exec (A : Type) : Type := Database -> Database * Completion A.

Definition ret {A} (a : A) : Exec A := fun db => (db, Returns a).

Definition throw {A} (e : Exception) : Exec A := fun db => (db, Throws e).

Definition bind {A B} (m : Exec A) (k : A -> Exec B) : Exec B :=
  fun db =>
    match m db with
    | (db', Returns a) => k a db'
    | (db', Throws e) => (db', Throws e)
    end.

Definition select {A} (q : Database -> A) : Exec A :=
  fun db => (db, Returns (q db)).

Definition has_key (k : string) (keys : list string) : bool :=
  existsb (String.eqb k) keys.

Definition opt_has_key (k : option string) (keys : list string) : bool :=
  match k with
  | None => true
  | Some k => has_key k keys
  end.

(** A value fits [decimal(10,2)] when it has at most eight integer digits. *)
Definition fits_decimal_10_2 (v : Z) : bool := Z.abs v <? 10000000000.

Definition opt_fits_decimal (v : option Z) : bool :=
  match v with
  | None => true
  | Some v => fits_decimal_10_2 v
  end.

(** Text that contains the character U+0000, which PostgreSQL refuses as
    the value of a parameter. *)
Fixpoint has_nul (s : string) : bool :=
  match s with
  | EmptyString => false
  | String c r => orb (Ascii.eqb c Ascii.zero) (has_nul r)
  end.

Definition opt_has_nul (s : option string) : bool :=
  match s with
  | None => false
  | Some s => has_nul s
  end.

Definition fits_int4 (v : Z) : bool :=
  andb (-2147483648 <=? v) (v <=? 2147483647).

Definition opt_fits_int4 (v : option Z) : bool :=
  match v with
  | None => true
  | Some v => fits_int4 v
  end.

Definition or_default {A} (d : option A) (v : option (option A)) : option A :=
  match v with
  | None => d
  | Some x => x
  end.

Definition eqb_opt (a : option string) (b : string) : bool :=
  match a with
  | Some a => String.eqb a b
  | None => false
  end.

(** The order in which a statement is refused.  The values of its
    parameters are read first (text containing U+0000 and numbers out of
    range are refused there), then the row is formed and its [NOT NULL]
    columns are checked, then the unique indexes are updated, and the
    foreign keys are checked when the statement ends.

    Identifiers of type [uuid] are kept as the text PostgreSQL prints for
    them, and are compared as text: this is the comparison PostgreSQL makes
    for an identifier given in that form. *)

(** [INSERT INTO bookings ... RETURNING *] of one row whose id the
    database draws as [id]. *)
Definition insert_booking (id : string) (v : InsertBooking) : Exec Booking :=
  fun db =>
    if has_nul (ins_bookingReference v) then
      (db, Throws (CharacterNotInRepertoire "booking_reference"))
    else if has_nul (ins_userId v) then
      (db, Throws (CharacterNotInRepertoire "user_id"))
    else if opt_has_nul (or_default (Some "pending") (ins_status v)) then
      (db, Throws (CharacterNotInRepertoire "status"))
    else if opt_has_nul (ins_paymentGatewayId v) then
      (db, Throws (CharacterNotInRepertoire "payment_gateway_id"))
    else if opt_has_nul (ins_paymentMethod v) then
      (db, Throws (CharacterNotInRepertoire "payment_method"))
    else if negb (fits_decimal_10_2 (ins_totalAmount v)) then
      (db, Throws (NumericOverflow "total_amount"))
    else if negb (opt_fits_decimal (or_default (Some 0) (ins_discountAmount v))) then
      (db, Throws (NumericOverflow "discount_amount"))
    else if negb (fits_decimal_10_2 (ins_finalAmount v)) then
      (db, Throws (NumericOverflow "final_amount"))
    else if has_key id (map booking_id (bookings db)) then
      (db, Throws (UniqueViolation "bookings_pkey"))
    else if has_key (ins_bookingReference v) (map bookingReference (bookings db)) then
      (db, Throws (UniqueViolation "bookings_booking_reference_unique"))
    else if negb (has_key (ins_userId v) (map user_id (users db))) then
      (db, Throws (ForeignKeyViolation "bookings_user_id_users_id_fk"))
    else if negb (has_key (ins_tripId v) (map trip_id (trips db))) then
      (db, Throws (ForeignKeyViolation "bookings_trip_id_trips_id_fk"))
    else if negb (opt_has_key (ins_promotionId v) (map promotion_id (promotions db))) then
      (db, Throws (ForeignKeyViolation "bookings_promotion_id_promotions_id_fk"))
    else
      let row :=
        {| booking_id := id;
           bookingReference := ins_bookingReference v;
           booking_userId := ins_userId v;
           booking_tripId := ins_tripId v;
           totalAmount := ins_totalAmount v;
           discountAmount := or_default (Some 0) (ins_discountAmount v);
           finalAmount := ins_finalAmount v;
           promotionId := ins_promotionId v;
           booking_status := or_default (Some "pending") (ins_status v);
           paymentGatewayId := ins_paymentGatewayId v;
           paymentMethod := ins_paymentMethod v |} in
      (set_bookings (fun t => t ++ [row]) db, Returns row).

(** The values of one [booked_seats] row before the insert. *)
Record BookedSeatValues := {
  val_bookingId : string;
  val_tripId : string;
  val_seatNumber : option string;
  val_passengerName : option string
}.

(** What can refuse one row of [booked_seats]: its text when the
    parameters are read, its missing seat number when the row is formed, its
    references when the statement ends. *)
Definition seat_text_error (v : BookedSeatValues) : option Exception :=
  if opt_has_nul (val_seatNumber v) then
    Some (CharacterNotInRepertoire "seat_number")
  else if opt_has_nul (val_passengerName v) then
    Some (CharacterNotInRepertoire "passenger_name")
  else None.

Definition seat_null_error (v : BookedSeatValues) : option Exception :=
  match val_seatNumber v with
  | None => Some (NotNullViolation "seat_number")
  | Some _ => None
  end.

Definition seat_reference_error (db : Database) (v : BookedSeatValues)
  : option Exception :=
  if negb (has_key (val_bookingId v) (map booking_id (bookings db))) then
    Some (ForeignKeyViolation "booked_seats_booking_id_bookings_id_fk")
  else if negb (has_key (val_tripId v) (map trip_id (trips db))) then
    Some (ForeignKeyViolation "booked_seats_trip_id_trips_id_fk")
  else None.

Fixpoint first_of {A} (check : A -> option Exception) (l : list A) : option Exception :=
  match l with
  | [] => None
  | a :: r =>
      match check a with
      | Some e => Some e
      | None => first_of check r
      end
  end.

(** The exception that refuses the rows [vs], if any. *)
Definition first_error (db : Database) (vs : list BookedSeatValues) : option Exception :=
  match first_of seat_text_error vs with
  | Some e => Some e
  | None =>
      match first_of seat_null_error vs with
      | Some e => Some e
      | None => first_of (seat_reference_error db) vs
      end
  end.

Definition seat_row (v : BookedSeatValues) : list BookedSeat :=
  match val_seatNumber v with
  | Some n =>
      [ {| seat_bookingId := val_bookingId v; seat_tripId := val_tripId v;
           seatNumber := n; passengerName := val_passengerName v |} ]
  | None => []
  end.

(** [INSERT INTO booked_seats ... VALUES (...), (...), ...]: one
    statement, so either every row is stored or none is. *)
Definition insert_bookedSeats (vs : list BookedSeatValues) : Exec unit :=
  fun db =>
    match first_error db vs with
    | Some e => (db, Throws e)
    | None => (set_bookedSeats (fun t => t ++ flat_map seat_row vs) db, Returns tt)
    end.


(** The remaining inserts.  Each draws the new row's id from the
    database ([id]) and is refused when a declared constraint fails. *)

Record InsertRoute := {
  ir_originCity : string;
  ir_destinationCity : string;
  ir_estimatedDurationMinutes : option Z;
  ir_isActive : option (option bool)
}.

Definition insert_route (id : string) (v : InsertRoute) : Exec Route :=
  fun db =>
    if has_nul (ir_originCity v) then
      (db, Throws (CharacterNotInRepertoire "origin_city"))
    else if has_nul (ir_destinationCity v) then
      (db, Throws (CharacterNotInRepertoire "destination_city"))
    else if negb (opt_fits_int4 (ir_estimatedDurationMinutes v)) then
      (db, Throws (NumericOverflow "estimated_duration_minutes"))
    else if has_key id (map route_id (routes db)) then
      (db, Throws (UniqueViolation "routes_pkey"))
    else
      let row :=
        {| route_id := id; originCity := ir_originCity v;
           destinationCity := ir_destinationCity v;
           estimatedDurationMinutes := ir_estimatedDurationMinutes v;
           route_isActive := or_default (Some true) (ir_isActive v) |} in
      (set_routes (fun t => t ++ [row]) db, Returns row).

Record InsertBus := {
  ib_busNumber : string;
  ib_model : option string;
  ib_capacity : Z
}.

Definition insert_bus (id : string) (v : InsertBus) : Exec Bus :=
  fun db =>
    if has_nul (ib_busNumber v) then
      (db, Throws (CharacterNotInRepertoire "bus_number"))
    else if opt_has_nul (ib_model v) then
      (db, Throws (CharacterNotInRepertoire "model"))
    else if negb (fits_int4 (ib_capacity v)) then
      (db, Throws (NumericOverflow "capacity"))
    else if has_key id (map bus_id (buses db)) then
      (db, Throws (UniqueViolation "buses_pkey"))
    else if has_key (ib_busNumber v) (map busNumber (buses db)) then
      (db, Throws (UniqueViolation "buses_bus_number_unique"))
    else
      let row :=
        {| bus_id := id; busNumber := ib_busNumber v; model := ib_model v;
           capacity := ib_capacity v |} in
      (set_buses (fun t => t ++ [row]) db, Returns row).

Record InsertTrip := {
  it_routeId : string;
  it_busId : string;
  it_departureTime : Z;
  it_arrivalTime : Z;
  it_price : Z;
  it_status : option (option string)
}.

Definition insert_trip (id : string) (v : InsertTrip) : Exec Trip :=
  fun db =>
    if opt_has_nul (or_default (Some "scheduled") (it_status v)) then
      (db, Throws (CharacterNotInRepertoire "status"))
    else if negb (fits_decimal_10_2 (it_price v)) then
      (db, Throws (NumericOverflow "price"))
    else if has_key id (map trip_id (trips db)) then
      (db, Throws (UniqueViolation "trips_pkey"))
    else if negb (has_key (it_routeId v) (map route_id (routes db))) then
      (db, Throws (ForeignKeyViolation "trips_route_id_routes_id_fk"))
    else if negb (has_key (it_busId v) (map bus_id (buses db))) then
      (db, Throws (ForeignKeyViolation "trips_bus_id_buses_id_fk"))
    else
      let row :=
        {| trip_id := id; routeId := it_routeId v; busId := it_busId v;
           departureTime := it_departureTime v;
           arrivalTime := it_arrivalTime v; price := it_price v;
           trip_status := or_default (Some "scheduled") (it_status v) |} in
      (set_trips (fun t => t ++ [row]) db, Returns row).

Record InsertPromotion := {
  ip_promoCode : string;
  ip_description : option string;
  ip_discountType : string;
  ip_discountValue : Z;
  ip_startDate : Z;
  ip_endDate : Z;
  ip_isActive : option (option bool);
  ip_usageLimit : option Z;
  ip_createdByAdminId : string
}.

Definition insert_promotion (id : string) (v : InsertPromotion) : Exec Promotion :=
  fun db =>
    if has_nul (ip_promoCode v) then
      (db, Throws (CharacterNotInRepertoire "promo_code"))
    else if opt_has_nul (ip_description v) then
      (db, Throws (CharacterNotInRepertoire "description"))
    else if has_nul (ip_discountType v) then
      (db, Throws (CharacterNotInRepertoire "discount_type"))
    else if negb (opt_fits_int4 (ip_usageLimit v)) then
      (db, Throws (NumericOverflow "usage_limit"))
    else if negb (fits_decimal_10_2 (ip_discountValue v)) then
      (db, Throws (NumericOverflow "discount_value"))
    else if has_key id (map promotion_id (promotions db)) then
      (db, Throws (UniqueViolation "promotions_pkey"))
    else if has_key (ip_promoCode v) (map promoCode (promotions db)) then
      (db, Throws (UniqueViolation "promotions_promo_code_unique"))
    else if negb (has_key (ip_createdByAdminId v) (map admin_id (admins db))) then
      (db, Throws (ForeignKeyViolation "promotions_created_by_admin_id_admins_id_fk"))
    else
      let row :=
        {| promotion_id := id; promoCode := ip_promoCode v;
           description := ip_description v;
           discountType := ip_discountType v;
           discountValue := ip_discountValue v;
           startDate := ip_startDate v; endDate := ip_endDate v;
           promotion_isActive := or_default (Some true) (ip_isActive v);
           usageLimit := ip_usageLimit v;
           createdByAdminId := ip_createdByAdminId v |} in
      (set_promotions (fun t => t ++ [row]) db, Returns row).

Definition email_taken (id : string) (e : option string) (db : Database) : bool :=
  match e with
  | None => false
  | Some e =>
      existsb (fun u => andb (negb (String.eqb (user_id u) id)) (eqb_opt (email u) e))
              (users db)
  end.

(** [INSERT INTO users ... VALUES (userData) ON CONFLICT (id) DO UPDATE SET
    { ...userData }]: the row inserted has NULL for a property left out or
    given as null; the update writes every property that is given, a null
    included, and keeps the stored value of a property left out. *)
Definition upsert_user (v : UpsertUserData) : Exec User :=
  fun db =>
    if has_nul (up_id v) then
      (db, Throws (CharacterNotInRepertoire "id"))
    else if opt_has_nul (or_default None (up_email v)) then
      (db, Throws (CharacterNotInRepertoire "email"))
    else if opt_has_nul (or_default None (up_firstName v)) then
      (db, Throws (CharacterNotInRepertoire "first_name"))
    else if opt_has_nul (or_default None (up_lastName v)) then
      (db, Throws (CharacterNotInRepertoire "last_name"))
    else if has_key (up_id v) (map user_id (users db)) then
      let merge u :=
        if String.eqb (user_id u) (up_id v) then
          {| user_id := user_id u;
             email := or_default (email u) (up_email v);
             firstName := or_default (firstName u) (up_firstName v);
             lastName := or_default (lastName u) (up_lastName v) |}
        else u in
      if email_taken (up_id v) (or_default None (up_email v)) db then
        (db, Throws (UniqueViolation "users_email_unique"))
      else
        match filter (fun u => String.eqb (user_id u) (up_id v)) (map merge (users db)) with
        | u :: _ => (set_users (map merge) db, Returns u)
        | [] => (db, Throws (Error "no row returned"))
        end
    else if email_taken (up_id v) (or_default None (up_email v)) db then
      (db, Throws (UniqueViolation "users_email_unique"))
    else
      let row :=
        {| user_id := up_id v;
           email := or_default None (up_email v);
           firstName := or_default None (up_firstName v);
           lastName := or_default None (up_lastName v) |} in
      (set_users (fun t => t ++ [row]) db, Returns row).

End Store.
Import Store.

Declare Scope exec_scope.
Delimit Scope exec_scope with exec.
Notation "x <- m ;; k" := (bind m (fun x => k))
(at level 61, m at next level, right associativity) : exec_scope.
Notation "m ;;; k" := (bind m (fun _ => k))
(at level 61, right associativity) : exec_scope.

(* ------------------------------------------------------------------ *)
(** ** server/storage.ts: [DatabaseStorage] *)

Module Storage.

Local Open Scope exec_scope.

(** What [createBooking] draws from its surroundings: the three clock
    readings [new Date().getFullYear()], [new Date().getMonth()],
    [new Date().getDate()], the value of [randomUUID()], and the id the
    database generates for the new [bookings] row. *)
Record Ambient := {
  fullYear : Z;
  month : Z;
  date : Z;
  randomUUID : string;
  generatedId : string
}.

Definition getUser (id : string) (db : Database) : option User :=
  find (fun u => String.eqb (user_id u) id) (users db).

Definition upsertUser (userData : UpsertUserData) : Exec User := upsert_user userData.

Definition getRoutes (db : Database) : list Route :=
  filter (fun r => match route_isActive r with Some true => true | _ => false end)
         (routes db).

Definition createRoute (id : string) (routeData : InsertRoute) : Exec Route :=
  insert_route id routeData.

Definition getBuses (db : Database) : list Bus := buses db.

Definition createBus (id : string) (busData : InsertBus) : Exec Bus :=
  insert_bus id busData.

Record TripSummary := {
  summary_trip : Trip;
  summary_route : Route;
  summary_bus : Bus;
  availableSeats : Z
}.

(** [count()] of the [booked_seats] rows of a trip. *)
Definition bookedCount (db : Database) (tripId : string) : Z :=
  Z.of_nat (List.length (filter (fun s => String.eqb (seat_tripId s) tripId) (bookedSeats db))).

(** The parameters of [searchTrips], with [param_nextDay]: the instant that
    [setDate(getDate() + 1)] makes of [params.date] in the time zone of the
    server, that is the same local time on the next calendar day.  It is
    24 hours later on most days, and an hour less or more than that across
    a change of the clock. *)
Record SearchParams := {
  param_originCity : string;
  param_destinationCity : string;
  param_date : Z;
  param_nextDay : Z
}.

(** The three-way inner join of [searchTrips] with its [where] clause. *)
Definition tripsWithDetails (params : SearchParams) (db : Database)
  : list (Trip * Route * Bus) :=
  let startDate := param_date params in
  let endDate := param_nextDay params in
  flat_map (fun t =>
    flat_map (fun r =>
      flat_map (fun b =>
        if (String.eqb (routeId t) (route_id r)
            && String.eqb (busId t) (bus_id b)
            && String.eqb (originCity r) (param_originCity params)
            && String.eqb (destinationCity r) (param_destinationCity params)
            && (startDate <=? departureTime t)
            && (departureTime t <=? endDate)
            && eqb_opt (trip_status t) "scheduled")%bool
        then [(t, r, b)] else [])
        (buses db))
      (routes db))
    (trips db).

Definition searchTrips (params : SearchParams) (db : Database) : list TripSummary :=
  map (fun '(t, r, b) =>
         let bookedCount := bookedCount db (trip_id t) in
         let availableSeats := capacity b - bookedCount in
         {| summary_trip := t; summary_route := r; summary_bus := b;
            availableSeats := availableSeats |})
      (tripsWithDetails params db).

Definition getTripSeats (tripId : string) (db : Database) : list BookedSeat :=
  filter (fun s => String.eqb (seat_tripId s) tripId) (bookedSeats db).

Definition createTrip (id : string) (tripData : InsertTrip) : Exec Trip :=
  insert_trip id tripData.

(** The template literal that builds the booking reference. *)
Definition bookingReferenceOf (env : Ambient) : string :=
  ("HRM-" ++ Js.String_ (fullYear env)
     ++ Js.padStart 2 "0" (Js.String_ (month env + 1))
     ++ Js.padStart 2 "0" (Js.String_ (date env))
     ++ "-" ++ Js.toUpperCase (Js.slice0 6 (randomUUID env)))%string.

(** [{ ...bookingData, bookingReference, status: 'confirmed' }]. *)
Definition bookingValues (bookingData : InsertBooking) (bookingReference : string)
  : InsertBooking :=
  {| ins_bookingReference := bookingReference;
     ins_userId := ins_userId bookingData;
     ins_tripId := ins_tripId bookingData;
     ins_totalAmount := ins_totalAmount bookingData;
     ins_discountAmount := ins_discountAmount bookingData;
     ins_finalAmount := ins_finalAmount bookingData;
     ins_promotionId := ins_promotionId bookingData;
     ins_status := Some (Some "confirmed");
     ins_paymentGatewayId := ins_paymentGatewayId bookingData;
     ins_paymentMethod := ins_paymentMethod bookingData |}.

Definition seatValues (booking : Booking) (bookingData : InsertBooking)
           (seat : SeatSelection) : BookedSeatValues :=
  {| val_bookingId := booking_id booking;
     val_tripId := ins_tripId bookingData;
     val_seatNumber := sel_seatNumber seat;
     val_passengerName := sel_passengerName seat |}.

Definition createBooking (env : Ambient) (bookingData : InsertBooking)
           (selectedSeats : SelectedSeats) : Exec Booking :=
  let bookingReference := bookingReferenceOf env in
  booking <- insert_booking (generatedId env) (bookingValues bookingData bookingReference) ;;
  match selectedSeats with
  | SeatsUndefined =>
      throw (TypeError "Cannot read properties of undefined (reading 'length')")
  | SeatsArray seats =>
      if (0 <? List.length seats)%nat then
        insert_bookedSeats (map (seatValues booking bookingData) seats) ;;;
        ret booking
      else ret booking
  end.

Record BookingDetails := {
  details_booking : Booking;
  details_trip : Trip;
  details_route : Route;
  details_bus : Bus;
  details_bookedSeats : list BookedSeat
}.

Definition bookingResult (bookingId userId : string) (db : Database)
  : list (Booking * Trip * Route * Bus) :=
  flat_map (fun bk =>
    flat_map (fun t =>
      flat_map (fun r =>
        flat_map (fun b =>
          if (String.eqb (booking_tripId bk) (trip_id t)
              && String.eqb (routeId t) (route_id r)
              && String.eqb (busId t) (bus_id b)
              && String.eqb (booking_id bk) bookingId
              && String.eqb (booking_userId bk) userId)%bool
          then [(bk, t, r, b)] else [])
          (buses db))
        (routes db))
      (trips db))
    (bookings db).

Definition getBookingById (bookingId userId : string) (db : Database)
  : option BookingDetails :=
  match bookingResult bookingId userId db with
  | [] => None
  | (bk, t, r, b) :: _ =>
      let seats := filter (fun s => String.eqb (seat_bookingId s) bookingId)
                          (bookedSeats db) in
      Some {| details_booking := bk; details_trip := t; details_route := r;
              details_bus := b; details_bookedSeats := seats |}
  end.

Definition validatePromoCode (promoCode_ : string) (now : Z) (db : Database)
  : option Promotion :=
  match filter (fun p =>
                  (String.eqb (promoCode p) promoCode_
                   && match promotion_isActive p with Some true => true | _ => false end
                   && (startDate p <=? now)
                   && (now <=? endDate p))%bool)
               (promotions db) with
  | promotion :: _ => Some promotion
  | [] => None
  end.

Definition createPromotion (id : string) (promotionData : InsertPromotion)
  : Exec Promotion :=
  insert_promotion id promotionData.

Definition getSocialLinks (db : Database) : list SocialLink :=
  filter (fun l => match isVisible l with Some true => true | _ => false end)
         (socialLinks db).

Definition owned_by (bookingId userId : string) (b : Booking) : bool :=
  (String.eqb (booking_id b) bookingId && String.eqb (booking_userId b) userId)%bool.

Definition markPaid (paymentGatewayId_ : string) (b : Booking) : Booking :=
  {| booking_id := booking_id b;
     bookingReference := bookingReference b;
     booking_userId := booking_userId b;
     booking_tripId := booking_tripId b;
     totalAmount := totalAmount b;
     discountAmount := discountAmount b;
     finalAmount := finalAmount b;
     promotionId := promotionId b;
     booking_status := Some "confirmed";
     paymentGatewayId := Some paymentGatewayId_;
     paymentMethod := Some "stripe" |}.

(** [UPDATE bookings SET ... WHERE id = ? AND user_id = ? RETURNING *]. *)
Definition update_payment (bookingId userId paymentGatewayId_ : string)
  : Exec (list Booking) :=
  fun db =>
    let hit := owned_by bookingId userId in
    if has_nul paymentGatewayId_ then
      (db, Throws (CharacterNotInRepertoire "payment_gateway_id"))
    else if has_nul userId then
      (db, Throws (CharacterNotInRepertoire "user_id"))
    else
      (set_bookings (map (fun b => if hit b then markPaid paymentGatewayId_ b else b)) db,
       Returns (map (markPaid paymentGatewayId_) (filter hit (bookings db)))).

Definition confirmBookingPayment (bookingId userId paymentGatewayId_ : string)
  : Exec (option BookingDetails) :=
  updated <- update_payment bookingId userId paymentGatewayId_ ;;
  match updated with
  | [] => throw (Error "Booking not found or access denied")
  | updatedBooking :: _ =>
      bookingDetails <- select (getBookingById bookingId userId) ;;
      ret bookingDetails
  end.

(** One call of a method of [IStorage].  The queries [getUserBookings],
    [getAllBookings] and [getAdminStats] are listed for their effect on
    the store only (they issue [SELECT]s and nothing else). *)
Inductive Call :=
| GetUser (id : string)
| UpsertUser (userData : UpsertUserData)
| GetRoutes
| CreateRoute (id : string) (routeData : InsertRoute)
| GetBuses
| CreateBus (id : string) (busData : InsertBus)
| SearchTrips (params : SearchParams)
| GetTripSeats (tripId : string)
| CreateTrip (id : string) (tripData : InsertTrip)
| GetUserBookings (userId : string)
| CreateBooking (env : Ambient) (bookingData : InsertBooking) (selectedSeats : SelectedSeats)
| GetBookingById (bookingId userId : string)
| GetAllBookings
| ConfirmBookingPayment (bookingId userId paymentGatewayId_ : string)
| ValidatePromoCode (promoCode_ : string) (now : Z)
| CreatePromotion (id : string) (promotionData : InsertPromotion)
| GetSocialLinks
| GetAdminStats.

(** The store after a call, whether it returned or threw. *)
Definition exec (c : Call) (db : Database) : Database :=
  match c with
  | UpsertUser userData => fst (upsertUser userData db)
  | CreateRoute id routeData => fst (createRoute id routeData db)
  | CreateBus id busData => fst (createBus id busData db)
  | CreateTrip id tripData => fst (createTrip id tripData db)
  | CreateBooking env bookingData selectedSeats =>
      fst (createBooking env bookingData selectedSeats db)
  | ConfirmBookingPayment bookingId userId pg =>
      fst (confirmBookingPayment bookingId userId pg db)
  | CreatePromotion id promotionData => fst (createPromotion id promotionData db)
  | GetUser _ | GetRoutes | GetBuses | SearchTrips _ | GetTripSeats _
  | GetUserBookings _ | GetBookingById _ _ | GetAllBookings
  | ValidatePromoCode _ _ | GetSocialLinks | GetAdminStats => db
  end.

Fixpoint run (calls : list Call) (db : Database) : Database :=
  match calls with
  | [] => db
  | c :: rest => run rest (exec c db)
  end.

End Storage.
Import Storage.

(* ------------------------------------------------------------------ *)
(** ** server/routes.ts: the handlers around bookings *)

Module Routes.

(** The JSON body of [POST /api/bookings].  A property is [None] when it
    is missing; an amount that is present is decimal text, represented by
    the hundredths it denotes. *)
Record BookingBody := {
  body_bookingReference : option string;
  body_tripId : option string;
  body_totalAmount : option Z;
  body_discountAmount : option (option Z);
  body_finalAmount : option Z;
  body_promotionId : option string;
  body_status : option (option string);
  body_paymentGatewayId : option string;
  body_paymentMethod : option string;
  body_selectedSeats : SelectedSeats
}.

Definition is_hex (c : ascii) : bool := orb (Js.is_lower_hex c) (Js.is_upper_hex c).

Definition is_hyphen (c : ascii) : bool := Ascii.eqb c "-".

(** [regex.test(s)] for a pattern that is a sequence of character classes
    anchored at both ends. *)
Fixpoint test (pattern : list (ascii -> bool)) (s : string) : bool :=
  match pattern, s with
  | [], EmptyString => true
  | p :: ps, String c r => andb (p c) (test ps r)
  | _, _ => false
  end.

(** The pattern of [z.string().uuid()], the check the schema makes of a
    [uuid] column: hexadecimal groups of 8, 4, 4, 4 and 12 digits, in
    either case. *)
Definition uuidRegex : list (ascii -> bool) :=
  repeat is_hex 8 ++ [is_hyphen] ++ repeat is_hex 4 ++ [is_hyphen]
  ++ repeat is_hex 4 ++ [is_hyphen] ++ repeat is_hex 4 ++ [is_hyphen]
  ++ repeat is_hex 12.

Definition opt_test (pattern : list (ascii -> bool)) (s : option string) : bool :=
  match s with
  | None => true
  | Some s => test pattern s
  end.

(** [insertBookingSchema.parse({ ...req.body, userId })]: the columns that
    are [notNull] and have no default are required, and the two columns of
    type [uuid] must have the form of one; [None] stands for the
    [ZodError]. *)
Definition insertBookingSchema_parse (body : BookingBody) (userId : string)
  : option InsertBooking :=
  match body_bookingReference body, body_tripId body,
        body_totalAmount body, body_finalAmount body with
  | Some reference, Some tripId, Some total, Some final =>
      if (test uuidRegex tripId && opt_test uuidRegex (body_promotionId body))%bool then
        Some {| ins_bookingReference := reference;
                ins_userId := userId;
                ins_tripId := tripId;
                ins_totalAmount := total;
                ins_discountAmount := body_discountAmount body;
                ins_finalAmount := final;
                ins_promotionId := body_promotionId body;
                ins_status := body_status body;
                ins_paymentGatewayId := body_paymentGatewayId body;
                ins_paymentMethod := body_paymentMethod body |}
      else None
  | _, _, _, _ => None
  end.

Inductive Response (A : Type) :=
| Json (a : A)
| Status (code : Z) (message : string).
Arguments Json {A} a.
Arguments Status {A} code message.

(** [app.post('/api/bookings', isAuthenticated, ...)] for the
    authenticated principal [userId]. *)
Definition post_api_bookings (env : Ambient) (userId : string) (body : BookingBody)
           (db : Database) : Database * Response Booking :=
  match insertBookingSchema_parse body userId with
  | None => (db, Status 400 "Invalid booking data")
  | Some bookingData =>
      match createBooking env bookingData (body_selectedSeats body) db with
      | (db', Returns booking) => (db', Json booking)
      | (db', Throws _) => (db', Status 500 "Failed to create booking")
      end
  end.

(** [app.get('/api/trips/:tripId/seats', ...)]. *)
Definition get_api_trip_seats (tripId : string) (db : Database)
  : Response (list BookedSeat) :=
  Json (getTripSeats tripId db).


(** [app.post("/api/confirm-payment", ...)]; [paymentIntentStatus] is the
    status Stripe reports for the payment intent.  The message of the 500
    answer is given up to the [error.message] that the code appends. *)
Definition post_api_confirm_payment (userId bookingId paymentIntentId : string)
           (paymentIntentStatus : string) (db : Database)
  : Database * Response (option BookingDetails) :=
  if String.eqb paymentIntentStatus "succeeded" then
    match confirmBookingPayment bookingId userId paymentIntentId db with
    | (db', Returns booking) => (db', Json booking)
    | (db', Throws _) => (db', Status 500 "Error confirming payment")
    end
  else (db, Status 400 "Payment not successful").

End Routes.

(* ------------------------------------------------------------------ *)
(** ** client: the seat-selection form *)

Module SeatSelection.

Local Open Scope Q_scope.

(** [parseFloat] of the text of a decimal column. *)
Definition parseFloat (hundredths : Z) : Q := inject_Z hundredths / 100.

(** [x.toFixed(2)], as the hundredths of the text it prints: the nearest
    hundredth of the magnitude, the larger one on a tie. *)
Definition toFixed2 (x : Q) : Z :=
  if Qle_bool 0 x then Qfloor (x * 100 + (1 # 2))
  else (- Qfloor (- x * 100 + (1 # 2)))%Z.

(** The component's state hooks; [occupied] is the [bookedSeats] hook, the
    seat numbers fetched from [/api/trips/:tripId/seats]. *)
Record State := {
  selectedSeats : list string;
  occupied : list string;
  discount : Q
}.

Definition initial (occupied_ : list string) : State :=
  {| selectedSeats := []; occupied := occupied_; discount := 0 |}.

Definition includes (l : list string) (s : string) : bool :=
  existsb (String.eqb s) l.

Definition handleSeatClick (seatNumber_ : string) (st : State) : State :=
  if includes (occupied st) seatNumber_ then st
  else if includes (selectedSeats st) seatNumber_ then
    {| selectedSeats :=
         filter (fun s => negb (String.eqb s seatNumber_)) (selectedSeats st);
       occupied := occupied st; discount := discount st |}
  else
    {| selectedSeats := [seatNumber_];
       occupied := occupied st; discount := discount st |}.

(** The amount computed in [validatePromoMutation.onSuccess]. *)
Definition discountAmountOf (trip : Trip) (promotion : Promotion) : Q :=
  let tripPrice := parseFloat (price trip) in
  if String.eqb (discountType promotion) "percentage"
  then (tripPrice * parseFloat (discountValue promotion)) / 100
  else parseFloat (discountValue promotion).

(** [setDiscount(Math.min(discountAmount, tripPrice))]. *)
Definition onPromoSuccess (trip : Trip) (promotion : Promotion) (st : State) : State :=
  let tripPrice := parseFloat (price trip) in
  {| selectedSeats := selectedSeats st; occupied := occupied st;
     discount := Qmin (discountAmountOf trip promotion) tripPrice |}.

Definition serviceFee : Q := 10.

(** The locals [totalAmount] and [finalAmount] of [handleBooking]. *)
Definition totalAmountOf (trip : Trip) : Q :=
  let ticketPrice := parseFloat (price trip) in
  ticketPrice + serviceFee.

Definition finalAmountOf (trip : Trip) (st : State) : Q :=
  totalAmountOf trip - discount st.

Record BookingData := {
  data_tripId : string;
  data_totalAmount : Z;
  data_discountAmount : Z;
  data_finalAmount : Z;
  data_selectedSeats : list SeatSelection
}.

Definition handleBooking (trip : Trip) (st : State) : option BookingData :=
  if (List.length (selectedSeats st) =? 0)%nat then None
  else
    Some {| data_tripId := trip_id trip;
            data_totalAmount := toFixed2 (totalAmountOf trip);
            data_discountAmount := toFixed2 (discount st);
            data_finalAmount := toFixed2 (finalAmountOf trip st);
            data_selectedSeats :=
              map (fun seat => {| sel_seatNumber := Some seat;
                                  sel_passengerName := Some "Passenger"%string |})
                  (selectedSeats st) |}.

(** The total shown in the booking summary. *)
Definition summaryTotal (trip : Trip) (st : State) : Q :=
  (parseFloat (price trip) + serviceFee)
  * inject_Z (Z.of_nat (List.length (selectedSeats st))).

(** The final amount shown under it. *)
Definition summaryFinal (trip : Trip) (st : State) : Q :=
  summaryTotal trip st - discount st.

(** What the user can do to the form. *)
Inductive Event :=
| SeatClick (seatNumber_ : string)
| PromoApplied (promotion : Promotion).

Definition react (trip : Trip) (e : Event) (st : State) : State :=
  match e with
  | SeatClick s => handleSeatClick s st
  | PromoApplied p => onPromoSuccess trip p st
  end.

Fixpoint after (trip : Trip) (es : list Event) (st : State) : State :=
  match es with
  | [] => st
  | e :: r => after trip r (react trip e st)
  end.

End SeatSelection.

(* ------------------------------------------------------------------ *)
(** ** The vocabulary of the properties *)

Module Ledger.

(** A booking counts towards occupancy while it is pending or confirmed. *)
Definition active (b : Booking) : bool :=
  (eqb_opt (booking_status b) "pending" || eqb_opt (booking_status b) "confirmed")%bool.

Definition commits (tripId seat : string) (b : Booking) (s : BookedSeat) : bool :=
  (String.eqb (seat_bookingId s) (booking_id b)
   && String.eqb (seat_tripId s) tripId
   && String.eqb (seatNumber s) seat)%bool.

(** The active bookings a seat of a trip is committed to. *)
Definition committed_to (db : Database) (tripId seat : string) : list Booking :=
  filter (fun b => (active b && existsb (commits tripId seat b) (bookedSeats db))%bool)
         (bookings db).

Definition no_double_booking (db : Database) : Prop :=
  forall tripId seat, (List.length (committed_to db tripId seat) <= 1)%nat.

(** Some seat row exists for the seat of the trip. *)
Definition occupied (db : Database) (tripId seat : string) : bool :=
existsb (fun s => (String.eqb (seat_tripId s) tripId && String.eqb (seatNumber s) seat)%bool)
        (bookedSeats db).



(** Every element of the array carries a seat number. *)
Definition numbered (seats : list SeatSelection) : bool :=
forallb (fun s => match sel_seatNumber s with Some _ => true | None => false end) seats.

(** No seat number and no passenger name contains the character U+0000. *)
Definition clean (seats : list SeatSelection) : bool :=
forallb (fun s => (negb (opt_has_nul (sel_seatNumber s))
                   && negb (opt_has_nul (sel_passengerName s)))%bool)
        seats.

End Ledger.

Module PromotionSpec.





End PromotionSpec.

Module Reference.

(** [PREFIX-YYYYMMDD-XXXXXX] with the prefix [HRM], eight decimal digits
    and six upper-case hexadecimal digits. *)
Definition is_booking_reference (s : string) : bool :=
  ((String.length s =? 19)%nat
   && String.eqb (substring 0 4 s) "HRM-"
   && Js.all_chars Js.is_digit (substring 4 8 s)
   && String.eqb (substring 12 1 s) "-"
   && Js.all_chars Js.is_upper_hex (substring 13 6 s))%bool.

(** The references of the stored bookings, in insertion order. *)
Definition references (db : Database) : list string :=
map bookingReference (bookings db).

(** [n] characters, each satisfying [p]. *)
Definition has_shape (n : nat) (p : ascii -> bool) (s : string) : bool :=
((String.length s =? n)%nat && Js.all_chars p s)%bool.

Fixpoint matches (pattern : list (ascii -> bool)) (s : string) : bool :=
  match pattern, s with
  | [], EmptyString => true
  | p :: ps, String c r => andb (p c) (matches ps r)
  | _, _ => false
  end.

Definition is_dash (c : ascii) : bool := Ascii.eqb c "-".

(** The shape of the text [randomUUID()] returns: lower-case hexadecimal
    groups of 8, 4, 4, 4 and 12 digits. *)
Definition uuid_pattern : list (ascii -> bool) :=
  repeat Js.is_lower_hex 8 ++ [is_dash] ++ repeat Js.is_lower_hex 4 ++ [is_dash]
  ++ repeat Js.is_lower_hex 4 ++ [is_dash] ++ repeat Js.is_lower_hex 4 ++ [is_dash]
  ++ repeat Js.is_lower_hex 12.

Definition is_uuid (s : string) : bool := matches uuid_pattern s.

(** The shape of a random UUID, which is what [gen_random_uuid()] and
    [randomUUID()] produce: the version digit is 4 and the variant digit is
    8, 9, a or b. *)
Definition is_four (c : ascii) : bool := Ascii.eqb c "4".

Definition is_variant (c : ascii) : bool :=
  (Ascii.eqb c "8" || Ascii.eqb c "9" || Ascii.eqb c "a" || Ascii.eqb c "b")%bool.

Definition random_uuid_pattern : list (ascii -> bool) :=
  repeat Js.is_lower_hex 8 ++ [is_dash] ++ repeat Js.is_lower_hex 4 ++ [is_dash]
  ++ [is_four] ++ repeat Js.is_lower_hex 3 ++ [is_dash]
  ++ [is_variant] ++ repeat Js.is_lower_hex 3 ++ [is_dash]
  ++ repeat Js.is_lower_hex 12.

Definition is_random_uuid (s : string) : bool := matches random_uuid_pattern s.

Definition opt_is_random_uuid (s : option string) : bool :=
  match s with
  | None => true
  | Some s => is_random_uuid s
  end.

(** The number that a string of decimal digits denotes. *)
Fixpoint number_from (acc : Z) (s : string) : option Z :=
  match s with
  | EmptyString => Some acc
  | String c r =>
      if Js.is_digit c
      then number_from (10 * acc + Z.of_nat (nat_of_ascii c - 48)) r
      else None
  end.

Definition number_of (s : string) : option Z :=
  match s with
  | EmptyString => None
  | _ => number_from 0 s
  end.

(** The calendar date that a reference carries: the year, the month from 1
    to 12 and the day of the month, read from its eight digits. *)
Definition date_of (reference : string) : option (Z * Z * Z) :=
  match number_of (substring 4 4 reference),
        number_of (substring 8 2 reference),
        number_of (substring 10 2 reference) with
  | Some y, Some m, Some d => Some (y, m, d)
  | _, _, _ => None
  end.

Definition lower (c : ascii) : ascii :=
  let n := nat_of_ascii c in
  if andb (Nat.leb 65 n) (Nat.leb n 90) then ascii_of_nat (n + 32) else c.

Fixpoint toLowerCase (s : string) : string :=
  match s with
  | EmptyString => EmptyString
  | String c r => String (lower c) (toLowerCase r)
  end.

(** The six characters that end a reference, in lower case. *)
Definition suffix_of (reference : string) : string :=
  toLowerCase (substring 13 6 reference).

(** A clock reading of a four-digit year, and a well-formed UUID. *)
Definition ambient_ok (env : Ambient) : bool :=
  ((1000 <=? fullYear env) && (fullYear env <=? 9999)
   && (0 <=? month env) && (month env <=? 11)
   && (1 <=? date env) && (date env <=? 31)
   && is_uuid (randomUUID env))%bool.

Definition call_ok (c : Call) : bool :=
  match c with
  | CreateBooking env _ _ => ambient_ok env
  | _ => true
  end.

End Reference.

(** Sample data: one route, one single-seat bus, one trip at 100.00, two
  customers, three promotions. *)
Module Sample.

(** Identifiers as the database generates them. *)
Definition trip1 : string := "7c9e6679-7425-40de-944b-e07fc1f90ae7".
Definition bus1 : string := "0b1f0a52-3c1d-4e5f-8a6b-7c8d9e0f1a2b".
Definition route1 : string := "5d2c8f1e-9a3b-4c7d-8e6f-1a2b3c4d5e6f".
Definition admin1 : string := "a1b2c3d4-e5f6-4a7b-8c9d-0e1f2a3b4c5d".
Definition promotion1 : string := "11111111-2222-4333-8444-555555555555".
Definition promotion2 : string := "22222222-3333-4444-8555-666666666666".
Definition promotion3 : string := "33333333-4444-4555-8666-777777777777".
Definition promotion9 : string := "99999999-4444-4555-8666-777777777777".
Definition bookingId1 : string := "d290f1ee-6c54-4b01-90e6-d701748f0851".
Definition bookingId2 : string := "e3a1b2c3-7d65-4c12-a1f7-e812859f1962".
Definition bookingId9 : string := "f4b2c3d4-8e76-4d23-b2a8-f923960a2a73".

Definition alice : User :=
  {| user_id := "u-alice"; email := Some "alice@example.com";
     firstName := Some "Alice"; lastName := None |}.

Definition badr : User :=
  {| user_id := "u-badr"; email := Some "badr@example.com";
     firstName := Some "Badr"; lastName := None |}.

Definition root : Admin :=
  {| admin_id := admin1; admin_email := "root@example.com"; role := "super_admin" |}.

Definition minibus : Bus :=
  {| bus_id := bus1; busNumber := "HR-001"; model := None; capacity := 1 |}.

Definition riyadh_jeddah : Route :=
  {| route_id := route1; originCity := "riyadh"; destinationCity := "jeddah";
     estimatedDurationMinutes := Some 480; route_isActive := Some true |}.

Definition morning : Trip :=
  {| trip_id := trip1; routeId := route1; busId := bus1;
     departureTime := 1755936000000; arrivalTime := 1755964800000;
     price := 10000; trip_status := Some "scheduled" |}.

Definition save20 : Promotion :=
  {| promotion_id := promotion1; promoCode := "SAVE20"; description := None;
     discountType := "percentage"; discountValue := 2000;
     startDate := 1750000000000; endDate := 1760000000000;
     promotion_isActive := Some true; usageLimit := Some 1000;
     createdByAdminId := admin1 |}.

Definition spring : Promotion :=
  {| promotion_id := promotion2; promoCode := "SPRING"; description := None;
     discountType := "fixed_amount"; discountValue := 1500;
     startDate := 1740000000000; endDate := 1745000000000;
     promotion_isActive := Some true; usageLimit := None;
     createdByAdminId := admin1 |}.

Definition surcharge : Promotion :=
  {| promotion_id := promotion3; promoCode := "MINUS5"; description := None;
     discountType := "fixed_amount"; discountValue := -500;
     startDate := 1750000000000; endDate := 1760000000000;
     promotion_isActive := Some true; usageLimit := None;
     createdByAdminId := admin1 |}.

Definition db0 : Database :=
  {| users := [alice; badr]; admins := [root]; buses := [minibus];
     routes := [riyadh_jeddah]; trips := [morning];
     promotions := [save20; spring; surcharge];
     bookings := []; bookedSeats := []; socialLinks := [] |}.

Definition now : Z := 1755900000000.

Definition env1 : Ambient :=
  {| fullYear := 2025; month := 7; date := 23;
     randomUUID := "3f2a9c1e-7b44-4d1a-9e0f-5a6b7c8d9e0f";
     generatedId := bookingId1 |}.

Definition env2 : Ambient :=
  {| fullYear := 2025; month := 7; date := 23;
     randomUUID := "c0ffee12-0d5e-4a7b-8c9d-0e1f2a3b4c5d";
     generatedId := bookingId2 |}.

Definition bookingFor (userId : string) (total : Z) : InsertBooking :=
  {| ins_bookingReference := "";
     ins_userId := userId;
     ins_tripId := trip1;
     ins_totalAmount := total;
     ins_discountAmount := Some (Some 0);
     ins_finalAmount := total;
     ins_promotionId := None;
     ins_status := None;
     ins_paymentGatewayId := None;
     ins_paymentMethod := None |}.

Definition seatA1 : SeatSelection :=
  {| sel_seatNumber := Some "A1"; sel_passengerName := Some "Passenger" |}.

(** Two customers book seat A1 of the same trip, one after the other. *)
Definition twoBookings : list Call :=
  [ CreateBooking env1 (bookingFor "u-alice" 11000) (SeatsArray [seatA1]);
    CreateBooking env2 (bookingFor "u-badr" 11000) (SeatsArray [seatA1]) ].

(** A request body that carries every booking column and no
    [selectedSeats]. *)
Definition bodyWithoutSeats : Routes.BookingBody :=
  {| Routes.body_bookingReference := Some "";
     Routes.body_tripId := Some trip1;
     Routes.body_totalAmount := Some 11000;
     Routes.body_discountAmount := None;
     Routes.body_finalAmount := Some 11000;
     Routes.body_promotionId := None;
     Routes.body_status := None;
     Routes.body_paymentGatewayId := None;
     Routes.body_paymentMethod := None;
     Routes.body_selectedSeats := SeatsUndefined |}.

Definition searchMorning : SearchParams :=
  {| param_originCity := "riyadh"; param_destinationCity := "jeddah";
     param_date := 1755907200000; param_nextDay := 1755993600000 |}.

(** A request body whose one seat has no [seatNumber]. *)
Definition bodyWithUnnumberedSeat : Routes.BookingBody :=
{| Routes.body_bookingReference := Some "";
   Routes.body_tripId := Some trip1;
   Routes.body_totalAmount := Some 11000;
   Routes.body_discountAmount := None;
   Routes.body_finalAmount := Some 11000;
   Routes.body_promotionId := None;
   Routes.body_status := None;
   Routes.body_paymentGatewayId := None;
   Routes.body_paymentMethod := None;
   Routes.body_selectedSeats :=
     SeatsArray [ {| sel_seatNumber := None; sel_passengerName := Some "Passenger" |} ] |}.

(** What an administrator posts to create a fixed-amount promotion of
    minus five. *)
Definition surchargeData : InsertPromotion :=
{| ip_promoCode := "MINUS9"; ip_description := None;
   ip_discountType := "fixed_amount"; ip_discountValue := -500;
   ip_startDate := 1750000000000; ip_endDate := 1760000000000;
   ip_isActive := None; ip_usageLimit := None;
   ip_createdByAdminId := admin1 |}.

(** A request body for seat A1 of the trip. *)
Definition bodyA1 : Routes.BookingBody :=
{| Routes.body_bookingReference := Some "";
   Routes.body_tripId := Some trip1;
   Routes.body_totalAmount := Some 11000;
   Routes.body_discountAmount := Some (Some 0);
   Routes.body_finalAmount := Some 11000;
   Routes.body_promotionId := None;
   Routes.body_status := None;
   Routes.body_paymentGatewayId := None;
   Routes.body_paymentMethod := None;
   Routes.body_selectedSeats := SeatsArray [seatA1] |}.

(** The row the first booking stores, and the store after it. *)
Definition booking1 : Booking :=
{| booking_id := bookingId1;
   bookingReference := "HRM-20250823-3F2A9C";
   booking_userId := "u-alice";
   booking_tripId := trip1;
   totalAmount := 11000;
   discountAmount := Some 0;
   finalAmount := 11000;
   promotionId := None;
   booking_status := Some "confirmed";
   paymentGatewayId := None;
   paymentMethod := None |}.

Definition db1 : Database :=
fst (createBooking env1 (bookingFor "u-alice" 11000) (SeatsArray [seatA1]) db0).

(** The row the second booking stores. *)
Definition booking2 : Booking :=
{| booking_id := bookingId2;
   bookingReference := "HRM-20250823-C0FFEE";
   booking_userId := "u-badr";
   booking_tripId := trip1;
   totalAmount := 11000;
   discountAmount := Some 0;
   finalAmount := 11000;
   promotionId := None;
   booking_status := Some "confirmed";
   paymentGatewayId := None;
   paymentMethod := None |}.

End Sample.

(* ------------------------------------------------------------------ *)
(** ** Well-formed stores *)

Module Integrity.

Fixpoint distinct (keys : list string) : bool :=
  match keys with
  | [] => true
  | k :: rest => (negb (has_key k rest) && distinct rest)%bool
  end.

(** The primary keys and the [unique()] columns of the schema. *)
Definition keys_unique (db : Database) : bool :=
  (distinct (map user_id (users db))
   && distinct (map admin_id (admins db))
   && distinct (map bus_id (buses db))
   && distinct (map busNumber (buses db))
   && distinct (map route_id (routes db))
   && distinct (map trip_id (trips db))
   && distinct (map promotion_id (promotions db))
   && distinct (map promoCode (promotions db))
   && distinct (map booking_id (bookings db))
   && distinct (map bookingReference (bookings db)))%bool.

(** The [references(...)] clauses of the schema. *)
Definition references_hold (db : Database) : bool :=
  (forallb (fun t => (has_key (routeId t) (map route_id (routes db))
                      && has_key (busId t) (map bus_id (buses db)))%bool)
           (trips db)
   && forallb (fun p => has_key (createdByAdminId p) (map admin_id (admins db)))
              (promotions db)
   && forallb (fun b => (has_key (booking_userId b) (map user_id (users db))
                         && has_key (booking_tripId b) (map trip_id (trips db))
                         && opt_has_key (promotionId b) (map promotion_id (promotions db)))%bool)
              (bookings db)
   && forallb (fun s => (has_key (seat_bookingId s) (map booking_id (bookings db))
                         && has_key (seat_tripId s) (map trip_id (trips db)))%bool)
              (bookedSeats db))%bool.

(** A store as the database keeps it: keys unique, references resolved. *)
Definition consistent (db : Database) : bool :=
  (keys_unique db && references_hold db)%bool.

End Integrity.

(* ------------------------------------------------------------------ *)
(** ** client: the seat map of the seat-selection form *)

Module SeatMap.

(** [String.fromCharCode(n)], for code units below 256. *)
Definition fromCharCode (n : nat) : ascii := ascii_of_nat n.

(** [Math.ceil(capacity / 4)] for an integer capacity. *)
Definition ceil_quarter (capacity : Z) : Z := - ((- capacity) / 4).

(** [seats.slice(0, end)]: a negative [end] counts from the end of the
    array. *)
Definition slice0 {A} (end_ : Z) (l : list A) : list A :=
  if end_ <? 0 then firstn (Z.to_nat (Z.max (Z.of_nat (List.length l) + end_) 0)) l
  else firstn (Z.to_nat end_) l.

(** The body of the loop for one [row]. *)
Definition rowSeats (row : nat) : list string :=
  let rowLetter := String (fromCharCode (64 + row)) EmptyString in
  [ (rowLetter ++ "1")%string; (rowLetter ++ "2")%string;
    (rowLetter ++ "3")%string; (rowLetter ++ "4")%string ].

(** [for (let row = first; ...; row++)], [count] iterations. *)
Fixpoint rowsFrom (first count : nat) : list string :=
  match count with
  | O => []
  | S k => rowSeats first ++ rowsFrom (S first) k
  end.

Definition generateSeatLayout (capacity : Z) : list string :=
  let rows := ceil_quarter capacity in
  let seats := rowsFrom 1 (Z.to_nat rows) in
  slice0 capacity seats.

Definition getSeatStatus (st : SeatSelection.State) (seatNumber_ : string) : string :=
  if SeatSelection.includes (SeatSelection.occupied st) seatNumber_ then "occupied"
  else if SeatSelection.includes (SeatSelection.selectedSeats st) seatNumber_ then "selected"
  else "available".

(** The effect of [fetchBookedSeats]: the seat numbers of the rows that
    [/api/trips/:tripId/seats] answers with; on an error the hook keeps its
    initial value. *)
Definition fetchBookedSeats (tripId : string) (db : Database) : list string :=
  match Routes.get_api_trip_seats tripId db with
  | Routes.Json rows => map seatNumber rows
  | Routes.Status _ _ => []
  end.

(** The form once the seats of [trip] have been fetched from [db]. *)
Definition loaded (trip : Trip) (db : Database) : SeatSelection.State :=
  SeatSelection.initial (fetchBookedSeats (trip_id trip) db).

(** The label of the seat at index [i], counting from 0: row letter from A,
    then the place in the row from 1 to 4. *)
Definition seatAt (i : nat) : string :=
  String (ascii_of_nat (65 + i / 4))
         (String (ascii_of_nat (49 + i mod 4)) EmptyString).

(** A row letter from A to Z followed by a digit from 1 to 4. *)
Definition is_seat_label (s : string) : bool :=
  match s with
  | String letter (String digit EmptyString) =>
      let l := nat_of_ascii letter in
      let d := nat_of_ascii digit in
      (Nat.leb 65 l && Nat.leb l 90 && Nat.leb 49 d && Nat.leb d 52)%bool
  | _ => false
  end.

Definition well_laid (capacity : Z) : bool :=
  let seats := generateSeatLayout capacity in
  ((if list_eq_dec string_dec seats (map seatAt (seq 0 (Z.to_nat capacity)))
    then true else false)
   && Integrity.distinct seats
   && forallb is_seat_label seats)%bool.

End SeatMap.

(* ------------------------------------------------------------------ *)
(** ** client: the search results list *)

Module SearchResults.

(** [disabled={trip.availableSeats === 0}], with the label "Sold Out". *)
Definition soldOut (trip : TripSummary) : bool := availableSeats trip =? 0.

(** The colour class of the seat count. *)
Definition seatsClass (trip : TripSummary) : string :=
  if 10 <? availableSeats trip then "text-green-600"
  else if 5 <? availableSeats trip then "text-orange-600"
  else "text-red-600".

End SearchResults.

(* ------------------------------------------------------------------ *)
(** ** server/storage.ts: the booking lists and the statistics *)

Module Queries.

(** The [created_at] column of [bookings], which the row records leave out:
    the queries that read it take it as a function of the booking id. *)
Definition CreatedAt : Type := string -> Z.

Fixpoint insertDesc {A} (key : A -> Z) (x : A) (l : list A) : list A :=
  match l with
  | [] => [x]
  | y :: r => if key y <=? key x then x :: l else y :: insertDesc key x r
  end.

(** [.orderBy(desc(column))]; rows with equal keys, whose order PostgreSQL
    leaves open, come in the order of the table. *)
Definition orderByDesc {A} (key : A -> Z) (l : list A) : list A :=
  fold_right (insertDesc key) [] l.

(** A row of the query of [getUserBookings]; [row_seats] is [null] when the
    left join finds no seat row. *)
Record UserBookingRow := {
  row_booking : Booking;
  row_trip : Trip;
  row_route : Route;
  row_bus : Bus;
  row_seats : option BookedSeat
}.

(** The left join with [booked_seats] for one row of the inner joins. *)
Definition leftJoinSeats (db : Database) (bk : Booking) (t : Trip) (r : Route) (b : Bus)
  : list UserBookingRow :=
  match filter (fun s => String.eqb (booking_id bk) (seat_bookingId s)) (bookedSeats db) with
  | [] => [ {| row_booking := bk; row_trip := t; row_route := r; row_bus := b;
               row_seats := None |} ]
  | seats =>
      map (fun s => {| row_booking := bk; row_trip := t; row_route := r; row_bus := b;
                       row_seats := Some s |})
          seats
  end.

(** The joins and the [where] clause of [getUserBookings]: the rows that
    one booking contributes, and the rows of the query. *)
Definition joinedRows (userId : string) (db : Database) (bk : Booking)
  : list UserBookingRow :=
  flat_map (fun t =>
    flat_map (fun r =>
      flat_map (fun b =>
        if (String.eqb (booking_tripId bk) (trip_id t)
            && String.eqb (routeId t) (route_id r)
            && String.eqb (busId t) (bus_id b)
            && String.eqb (booking_userId bk) userId)%bool
        then leftJoinSeats db bk t r b else [])
        (buses db))
      (routes db))
    (trips db).

Definition userBookingRows (userId : string) (db : Database) : list UserBookingRow :=
  flat_map (joinedRows userId db) (bookings db).

(** [bookingsMap]: a [Map] from booking ids, in insertion order. *)
Definition BookingsMap : Type := list (string * BookingDetails).

Definition Map_has (m : BookingsMap) (key : string) : bool :=
  has_key key (map fst m).

(** [bookingsMap.set(key, value)] for a key the map does not have. *)
Definition Map_set (m : BookingsMap) (key : string) (value : BookingDetails) : BookingsMap :=
  m ++ [(key, value)].

(** [bookingsMap.get(key).bookedSeats.push(seat)]. *)
Definition pushSeat (m : BookingsMap) (key : string) (seat : BookedSeat) : BookingsMap :=
  map (fun entry =>
         if String.eqb (fst entry) key
         then (fst entry,
               {| details_booking := details_booking (snd entry);
                  details_trip := details_trip (snd entry);
                  details_route := details_route (snd entry);
                  details_bus := details_bus (snd entry);
                  details_bookedSeats := details_bookedSeats (snd entry) ++ [seat] |})
         else entry)
      m.

(** The body of [userBookings.forEach]. *)
Definition groupRow (bookingsMap : BookingsMap) (row : UserBookingRow) : BookingsMap :=
  let bookingId := booking_id (row_booking row) in
  let bookingsMap1 :=
    if negb (Map_has bookingsMap bookingId)
    then Map_set bookingsMap bookingId
                 {| details_booking := row_booking row;
                    details_trip := row_trip row;
                    details_route := row_route row;
                    details_bus := row_bus row;
                    details_bookedSeats := [] |}
    else bookingsMap in
  match row_seats row with
  | Some seat => pushSeat bookingsMap1 bookingId seat
  | None => bookingsMap1
  end.

(** The seats that the rows of a query result carry for one booking. *)
Definition rowsSeats (bookingId : string) (rows : list UserBookingRow) : list BookedSeat :=
  flat_map (fun row =>
              if String.eqb (booking_id (row_booking row)) bookingId
              then match row_seats row with Some seat => [seat] | None => [] end
              else [])
           rows.

Definition getUserBookings (createdAt : CreatedAt) (userId : string) (db : Database)
  : list BookingDetails :=
  let userBookings :=
    orderByDesc (fun row => createdAt (booking_id (row_booking row)))
                (userBookingRows userId db) in
  let bookingsMap := fold_left groupRow userBookings [] in
  map snd bookingsMap.

(** A row of the query of [getAllBookings]. *)
Definition allBookingRows (db : Database) : list (Booking * Trip * Route * User) :=
  flat_map (fun bk =>
    flat_map (fun t =>
      flat_map (fun r =>
        flat_map (fun u =>
          if (String.eqb (booking_tripId bk) (trip_id t)
              && String.eqb (routeId t) (route_id r)
              && String.eqb (booking_userId bk) (user_id u))%bool
          then [(bk, t, r, u)] else [])
          (users db))
        (routes db))
      (trips db))
    (bookings db).

Record BookingLine := {
  line_id : string;
  line_bookingReference : string;
  line_originCity : string;
  line_destinationCity : string;
  line_passengerName : option string;
  line_amount : Z;
  line_status : option string
}.

(** A string that is neither [null] nor empty. *)
Definition truthy (s : option string) : bool :=
  match s with
  | Some text => negb (String.eqb text "")
  | None => false
  end.

Definition passengerNameOf (u : User) : option string :=
  match firstName u, lastName u with
  | Some first, Some last =>
      if (truthy (firstName u) && truthy (lastName u))%bool
      then Some (first ++ " " ++ last)%string
      else email u
  | _, _ => email u
  end.

Definition bookingLine (row : Booking * Trip * Route * User) : BookingLine :=
  let '(bk, t, r, u) := row in
  {| line_id := booking_id bk;
     line_bookingReference := bookingReference bk;
     line_originCity := originCity r;
     line_destinationCity := destinationCity r;
     line_passengerName := passengerNameOf u;
     line_amount := finalAmount bk;
     line_status := booking_status bk |}.

Definition allBookings (createdAt : CreatedAt) (db : Database)
  : list (Booking * Trip * Route * User) :=
  firstn 50 (orderByDesc (fun row => createdAt (booking_id (fst (fst (fst row)))))
                         (allBookingRows db)).

Definition getAllBookings (createdAt : CreatedAt) (db : Database) : list BookingLine :=
  map bookingLine (allBookings createdAt db).

Record AdminStats := {
  totalBookings : Z;
  revenueToday : Z;
  activeRoutes : Z;
  fleetSize : Z
}.

(** The bookings that count towards the revenue of the day that runs from
    [today] to [tomorrow], both local midnights. *)
Definition countsToday (createdAt : CreatedAt) (today tomorrow : Z) (bk : Booking) : bool :=
  ((today <=? createdAt (booking_id bk))
   && (createdAt (booking_id bk) <=? tomorrow)
   && eqb_opt (booking_status bk) "confirmed")%bool.

(** [COALESCE(SUM(CAST(final_amount as DECIMAL)), 0)], in hundredths. *)
Definition sumFinalAmount (rows : list Booking) : Z :=
  fold_right (fun bk total => finalAmount bk + total) 0 rows.

Definition getAdminStats (createdAt : CreatedAt) (today tomorrow : Z) (db : Database)
  : AdminStats :=
  {| totalBookings := Z.of_nat (List.length (bookings db));
     revenueToday :=
       sumFinalAmount (filter (countsToday createdAt today tomorrow) (bookings db));
     activeRoutes :=
       Z.of_nat (List.length
                   (filter (fun r => match route_isActive r with
                                     | Some true => true
                                     | _ => false
                                     end)
                           (routes db)));
     fleetSize := Z.of_nat (List.length (buses db)) |}.

End Queries.

(* ================================================================== *)
(** * Properties *)

(** ** The store: what one statement can do *)

Ltac break_if :=
  match goal with
  | H : context [if ?c then _ else _] |- _ => destruct c eqn:?
  | |- context [if ?c then _ else _] => destruct c eqn:?
  end.

Ltac pair_eq H := inversion H; subst; clear H.

Lemma has_key_In (k : string) (keys : list string) :
  has_key k keys = true <-> In k keys.
Proof.
  unfold has_key. rewrite existsb_exists. split.
  - intros [x [Hin Heq]]. apply String.eqb_eq in Heq. now subst.
  - intros Hin. exists k. split; [assumption | apply String.eqb_refl].
Qed.

Lemma has_key_false (k : string) (keys : list string) :
  has_key k keys = false <-> ~ In k keys.
Proof.
  rewrite <- has_key_In. destruct (has_key k keys); split; intros; easy.
Qed.

Lemma insert_booking_inv id v db db' r :
  insert_booking id v db = (db', r) ->
  (db' = db /\ exists e, r = Throws e)
  \/ (exists row,
        r = Returns row
        /\ db' = set_bookings (fun t => t ++ [row]) db
        /\ booking_id row = id
        /\ bookingReference row = ins_bookingReference v
        /\ totalAmount row = ins_totalAmount v
        /\ booking_status row = or_default (Some "pending") (ins_status v)
        /\ has_key id (map booking_id (bookings db)) = false
        /\ has_key (ins_bookingReference v) (map bookingReference (bookings db)) = false).
Proof.
  unfold insert_booking. intros H.
  repeat break_if; pair_eq H; try (left; split; [reflexivity | eexists; reflexivity]).
  right. eexists. repeat split; reflexivity.
Qed.

Lemma insert_bookedSeats_inv vs db db' r :
  insert_bookedSeats vs db = (db', r) ->
  (db' = db /\ exists e, r = Throws e)
  \/ (r = Returns tt /\ db' = set_bookedSeats (fun t => t ++ flat_map seat_row vs) db).
Proof.
  unfold insert_bookedSeats. intros H.
  destruct (first_error db vs); pair_eq H.
  - left. split; [reflexivity | eexists; reflexivity].
  - right. split; reflexivity.
Qed.

(** [createBooking] either stops at the first insert and leaves the store as
    it was, or stores the booking row and then returns it, with or without
    seat rows, or throws with the booking row already stored. *)
Lemma createBooking_inv env data seats db db' r :
  createBooking env data seats db = (db', r) ->
  (db' = db /\ exists e, r = Throws e)
  \/ (exists row,
        insert_booking (generatedId env) (bookingValues data (bookingReferenceOf env)) db
          = (set_bookings (fun t => t ++ [row]) db, Returns row)
        /\ ((db' = set_bookings (fun t => t ++ [row]) db
             /\ ((exists e, r = Throws e) \/ (r = Returns row /\ seats = SeatsArray [])))
            \/ (exists l,
                  seats = SeatsArray l
                  /\ r = Returns row
                  /\ db' = set_bookedSeats
                             (fun t => t ++ flat_map seat_row (map (seatValues row data) l))
                             (set_bookings (fun t => t ++ [row]) db)))).
Proof.
  unfold createBooking, bind. intros H.
  destruct (insert_booking _ _ db) as [db1 r1] eqn:Hins.
  destruct (insert_booking_inv _ _ _ _ _ Hins) as [[-> [e ->]] | [row [-> [-> _]]]].
  - pair_eq H. left. split; [reflexivity | eexists; reflexivity].
  - right. exists row. split; [reflexivity |].
    destruct seats as [| l].
    + unfold throw in H. pair_eq H. left. split; [reflexivity |]. left. eexists; reflexivity.
    + destruct l as [| s l'].
      * simpl in H. unfold ret in H. pair_eq H. left. split; [reflexivity |]. right. split; reflexivity.
      * cbn [List.length Nat.ltb Nat.leb] in H.
        destruct (insert_bookedSeats _ _) as [db2 r2] eqn:Hseats.
        destruct (insert_bookedSeats_inv _ _ _ _ Hseats) as [[-> [e ->]] | [-> ->]].
        -- pair_eq H. left. split; [reflexivity |]. left. eexists; reflexivity.
        -- unfold ret in H. pair_eq H. right. exists (s :: l'). repeat split; reflexivity.
Qed.

(** ** The booking reference *)

Lemma range_check (P : Z -> bool) (lo hi : Z) :
  forallb (fun k => P (lo + Z.of_nat k)) (seq 0 (Z.to_nat (hi - lo + 1))) = true ->
  forall z, lo <= z <= hi -> P z = true.
Proof.
  intros Hall z Hz. rewrite forallb_forall in Hall.
  specialize (Hall (Z.to_nat (z - lo))).
  replace (lo + Z.of_nat (Z.to_nat (z - lo))) with z in Hall by lia.
  apply Hall. apply in_seq. lia.
Qed.

Lemma year_shape (y : Z) :
  1000 <= y <= 9999 -> Reference.has_shape 4 Js.is_digit (Js.String_ y) = true.
Proof.
  apply (range_check (fun z => Reference.has_shape 4 Js.is_digit (Js.String_ z))).
  vm_compute. reflexivity.
Qed.

Lemma month_shape (m : Z) :
  0 <= m <= 11 ->
  Reference.has_shape 2 Js.is_digit (Js.padStart 2 "0" (Js.String_ (m + 1))) = true.
Proof.
  apply (range_check
           (fun z => Reference.has_shape 2 Js.is_digit (Js.padStart 2 "0" (Js.String_ (z + 1))))).
  vm_compute. reflexivity.
Qed.

Lemma date_shape (d : Z) :
  1 <= d <= 31 ->
  Reference.has_shape 2 Js.is_digit (Js.padStart 2 "0" (Js.String_ d)) = true.
Proof.
  apply (range_check
           (fun z => Reference.has_shape 2 Js.is_digit (Js.padStart 2 "0" (Js.String_ z)))).
  vm_compute. reflexivity.
Qed.

Lemma upper_hex (c : ascii) :
  Js.is_lower_hex c = true -> Js.is_upper_hex (Js.upper c) = true.
Proof.
  destruct c as [[] [] [] [] [] [] [] []]; vm_compute; intros H; (reflexivity || discriminate H).
Qed.

Lemma uuid_prefix_shape (u : string) :
  Reference.is_uuid u = true ->
  Reference.has_shape 6 Js.is_upper_hex (Js.toUpperCase (Js.slice0 6 u)) = true.
Proof.
  unfold Reference.is_uuid, Reference.uuid_pattern. cbn [repeat app].
  intros H.
  do 6 (destruct u as [| ? u]; [discriminate H |];
        cbn [Reference.matches] in H; apply andb_true_iff in H; destruct H as [? H]).
  unfold Reference.has_shape. cbn [Js.slice0 Js.toUpperCase String.length Js.all_chars Nat.eqb].
  rewrite !upper_hex by assumption. reflexivity.
Qed.

Ltac explode_shape H s :=
  let Hlen := fresh "Hlen" in
  let Hall := fresh "Hall" in
  unfold Reference.has_shape in H;
  apply andb_true_iff in H; destruct H as [Hlen Hall];
  repeat (destruct s as [| ? s];
          [try discriminate Hlen
          | cbn [String.length Nat.eqb] in Hlen; try discriminate Hlen]);
  clear Hlen;
  cbn [Js.all_chars] in Hall;
  repeat (apply andb_true_iff in Hall; destruct Hall as [? Hall]);
  clear Hall.

Lemma assemble_reference (y m d x : string) :
  Reference.has_shape 4 Js.is_digit y = true ->
  Reference.has_shape 2 Js.is_digit m = true ->
  Reference.has_shape 2 Js.is_digit d = true ->
  Reference.has_shape 6 Js.is_upper_hex x = true ->
  Reference.is_booking_reference ("HRM-" ++ y ++ m ++ d ++ "-" ++ x)%string = true.
Proof.
  intros Hy Hm Hd Hx.
  explode_shape Hy y. explode_shape Hm m. explode_shape Hd d. explode_shape Hx x.
  unfold Reference.is_booking_reference.
  cbn [String.append String.length substring Nat.eqb Js.all_chars].
  repeat match goal with H : _ = true |- _ => rewrite H; clear H end.
  reflexivity.
Qed.

Lemma bookingReferenceOf_format (env : Ambient) :
  Reference.ambient_ok env = true ->
  Reference.is_booking_reference (bookingReferenceOf env) = true.
Proof.
  unfold Reference.ambient_ok. intros H.
  repeat (apply andb_true_iff in H; destruct H as [H ?]).
  unfold bookingReferenceOf.
  apply assemble_reference.
  - apply year_shape. lia.
  - apply month_shape. lia.
  - apply date_shape. lia.
  - now apply uuid_prefix_shape.
Qed.

(** The reference carries the clock readings and the start of the UUID. *)

Lemma year_number (y : Z) :
  1000 <= y <= 9999 -> Reference.number_of (Js.String_ y) = Some y.
Proof.
  intros Hy.
  assert (H : (fun z => match Reference.number_of (Js.String_ z) with
                        | Some v => v =? z
                        | None => false
                        end) y = true).
  { revert y Hy. apply range_check. vm_compute. reflexivity. }
  cbn beta in H. destruct (Reference.number_of (Js.String_ y)); [| discriminate H].
  apply Z.eqb_eq in H. now subst.
Qed.

Lemma month_number (m : Z) :
  0 <= m <= 11 ->
  Reference.number_of (Js.padStart 2 "0" (Js.String_ (m + 1))) = Some (m + 1).
Proof.
  intros Hm.
  assert (H : (fun z => match Reference.number_of
                                (Js.padStart 2 "0" (Js.String_ (z + 1))) with
                        | Some v => v =? z + 1
                        | None => false
                        end) m = true).
  { revert m Hm. apply range_check. vm_compute. reflexivity. }
  cbn beta in H.
  destruct (Reference.number_of (Js.padStart 2 "0" (Js.String_ (m + 1))));
    [| discriminate H].
  apply Z.eqb_eq in H. now subst.
Qed.

Lemma date_number (d : Z) :
  1 <= d <= 31 ->
  Reference.number_of (Js.padStart 2 "0" (Js.String_ d)) = Some d.
Proof.
  intros Hd.
  assert (H : (fun z => match Reference.number_of (Js.padStart 2 "0" (Js.String_ z)) with
                        | Some v => v =? z
                        | None => false
                        end) d = true).
  { revert d Hd. apply range_check. vm_compute. reflexivity. }
  cbn beta in H.
  destruct (Reference.number_of (Js.padStart 2 "0" (Js.String_ d))); [| discriminate H].
  apply Z.eqb_eq in H. now subst.
Qed.

Lemma lower_upper_hex (c : ascii) :
  Js.is_lower_hex c = true -> Reference.lower (Js.upper c) = c.
Proof.
  destruct c as [[] [] [] [] [] [] [] []]; vm_compute; intros H; (reflexivity || discriminate H).
Qed.

Lemma uuid_prefix_lower (u : string) :
  Reference.is_uuid u = true ->
  Reference.toLowerCase (Js.toUpperCase (Js.slice0 6 u)) = substring 0 6 u.
Proof.
  unfold Reference.is_uuid, Reference.uuid_pattern. cbn [repeat app].
  intros H.
  do 6 (destruct u as [| ? u]; [discriminate H |];
        cbn [Reference.matches] in H; apply andb_true_iff in H; destruct H as [? H]).
  cbn [Js.slice0 Js.toUpperCase Reference.toLowerCase substring].
  rewrite !lower_upper_hex by assumption.
  destruct u; reflexivity.
Qed.

Lemma read_reference (y m d x : string) :
  Reference.has_shape 4 Js.is_digit y = true ->
  Reference.has_shape 2 Js.is_digit m = true ->
  Reference.has_shape 2 Js.is_digit d = true ->
  Reference.has_shape 6 Js.is_upper_hex x = true ->
  Reference.date_of ("HRM-" ++ y ++ m ++ d ++ "-" ++ x)%string
  = match Reference.number_of y, Reference.number_of m, Reference.number_of d with
    | Some a, Some b, Some c => Some (a, b, c)
    | _, _, _ => None
    end
  /\ Reference.suffix_of ("HRM-" ++ y ++ m ++ d ++ "-" ++ x)%string
     = Reference.toLowerCase x.
Proof.
  intros Hy Hm Hd Hx.
  explode_shape Hy y. explode_shape Hm m. explode_shape Hd d. explode_shape Hx x.
  split; reflexivity.
Qed.

(** The reference that [createBooking] builds reads back as the three clock
    readings, the month counted from 1, and the first six characters of the
    UUID. *)
Lemma bookingReferenceOf_reads (env : Ambient) :
  Reference.ambient_ok env = true ->
  Reference.date_of (bookingReferenceOf env)
  = Some (fullYear env, month env + 1, date env)
  /\ Reference.suffix_of (bookingReferenceOf env) = substring 0 6 (randomUUID env).
Proof.
  unfold Reference.ambient_ok. intros H.
  repeat (apply andb_true_iff in H; destruct H as [H ?]).
  unfold bookingReferenceOf.
  destruct (read_reference (Js.String_ (fullYear env))
              (Js.padStart 2 "0" (Js.String_ (month env + 1)))
              (Js.padStart 2 "0" (Js.String_ (date env)))
              (Js.toUpperCase (Js.slice0 6 (randomUUID env)))) as [Hdate Hsuffix].
  - apply year_shape. lia.
  - apply month_shape. lia.
  - apply date_shape. lia.
  - now apply uuid_prefix_shape.
  - rewrite Hdate, Hsuffix, year_number, month_number, date_number by lia.
    split; [reflexivity | now apply uuid_prefix_lower].
Qed.

(** ** The effect of one storage call on bookings and seat rows *)

Lemma insert_booking_returns id v db db1 row :
  insert_booking id v db = (db1, Returns row) ->
  db1 = set_bookings (fun t => t ++ [row]) db
  /\ booking_id row = id
  /\ bookingReference row = ins_bookingReference v
  /\ totalAmount row = ins_totalAmount v
  /\ booking_status row = or_default (Some "pending") (ins_status v)
  /\ ~ In id (map booking_id (bookings db))
  /\ ~ In (ins_bookingReference v) (map bookingReference (bookings db)).
Proof.
  intros H. destruct (insert_booking_inv _ _ _ _ _ H) as [[_ [e He]] | [row' Hrow]].
  - discriminate He.
  - destruct Hrow as (Hr & Hdb & Hid & Href & Htot & Hst & Hk1 & Hk2).
    injection Hr as <-. rewrite has_key_false in Hk1, Hk2. tauto.
Qed.

(** After [createBooking], whatever its completion, the seat rows are the
    old ones followed by the new ones, and the bookings are the old ones
    followed by at most one new row. *)
Lemma createBooking_effect env data seats db :
  let db' := fst (createBooking env data seats db) in
  (exists added, bookedSeats db' = bookedSeats db ++ added)
  /\ (bookings db' = bookings db
      \/ exists row, bookings db' = bookings db ++ [row]
                     /\ bookingReference row = bookingReferenceOf env
                     /\ ~ In (bookingReferenceOf env) (Reference.references db)).
Proof.
  destruct (createBooking env data seats db) as [db' r] eqn:H. cbn [fst].
  destruct (createBooking_inv _ _ _ _ _ _ H) as [[-> _] | [row [Hins Hrest]]].
  - split; [exists []; now rewrite app_nil_r | now left].
  - apply insert_booking_returns in Hins.
    destruct Hins as (_ & _ & Href & _ & _ & _ & Hfresh). cbn in Href, Hfresh.
    destruct Hrest as [[-> _] | [l (_ & _ & ->)]].
    + split; [exists []; now rewrite app_nil_r |].
      right. exists row. repeat split; assumption.
    + split; [eexists; reflexivity |].
      right. exists row. repeat split; assumption.
Qed.

Lemma update_payment_effect bookingId userId pg db :
  let db' := fst (update_payment bookingId userId pg db) in
  bookedSeats db' = bookedSeats db
  /\ Reference.references db' = Reference.references db
  /\ map booking_id (bookings db') = map booking_id (bookings db).
Proof.
  unfold update_payment.
  destruct (has_nul pg); [cbn; repeat split |].
  destruct (has_nul userId); [cbn; repeat split |].
  cbn. unfold Reference.references. cbn. rewrite !map_map.
  repeat split; apply map_ext; intros b; destruct (owned_by bookingId userId b); reflexivity.
Qed.

Lemma confirmBookingPayment_store bookingId userId pg db :
  fst (confirmBookingPayment bookingId userId pg db)
  = fst (update_payment bookingId userId pg db).
Proof.
  unfold confirmBookingPayment, bind, update_payment, select, ret, throw.
  destruct (has_nul pg); [reflexivity |].
  destruct (has_nul userId); [reflexivity |].
  cbn. destruct (filter _ _); reflexivity.
Qed.

(** The store after [update_payment], when it writes. *)
Lemma update_payment_store bookingId userId pg db :
  fst (update_payment bookingId userId pg db) = db
  \/ (has_nul pg = false /\ has_nul userId = false
      /\ fst (update_payment bookingId userId pg db)
         = set_bookings (map (fun b => if owned_by bookingId userId b
                                       then markPaid pg b else b)) db).
Proof.
  unfold update_payment.
  destruct (has_nul pg); [now left |].
  destruct (has_nul userId); [now left |].
  right. repeat split.
Qed.

(** Every call other than [createBooking] leaves the seat rows alone, and
    every call other than [createBooking] keeps the list of references. *)
Lemma exec_other c db :
  match c with
  | CreateBooking _ _ _ => True
  | _ => bookedSeats (exec c db) = bookedSeats db
         /\ Reference.references (exec c db) = Reference.references db
  end.
Proof.
  destruct c; cbn [exec]; try exact I; try (split; reflexivity).
  - unfold upsertUser, upsert_user. repeat break_if; cbn; try (split; reflexivity).
    destruct (filter _ _); split; reflexivity.
  - unfold createRoute, insert_route. repeat break_if; split; reflexivity.
  - unfold createBus, insert_bus. repeat break_if; split; reflexivity.
  - unfold createTrip, insert_trip. repeat break_if; split; reflexivity.
  - rewrite confirmBookingPayment_store.
    destruct (update_payment_effect bookingId userId paymentGatewayId_ db) as (H1 & H2 & _).
    split; assumption.
  - unfold createPromotion, insert_promotion. repeat break_if; split; reflexivity.
Qed.

Lemma exec_bookedSeats c db :
  exists added, bookedSeats (exec c db) = bookedSeats db ++ added.
Proof.
  pose proof (exec_other c db) as H.
  destruct c;
    try (cbn [exec]; apply createBooking_effect);
    destruct H as [H _]; rewrite H; exists []; now rewrite app_nil_r.
Qed.

Lemma exec_references c db :
  Reference.call_ok c = true ->
  Reference.references (exec c db) = Reference.references db
  \/ exists r, Reference.references (exec c db) = Reference.references db ++ [r]
               /\ Reference.is_booking_reference r = true
               /\ ~ In r (Reference.references db).
Proof.
  intros Hok. pose proof (exec_other c db) as H.
  destruct c; try (left; apply H).
  cbn [exec]. cbn in Hok.
  destruct (createBooking_effect env bookingData selectedSeats db) as [_ [Hsame | [row (Hb & Href & Hfresh)]]].
  - left. unfold Reference.references. now rewrite Hsame.
  - right. exists (bookingReferenceOf env). unfold Reference.references at 1.
    rewrite Hb, map_app. cbn. rewrite Href.
    repeat split; [now apply bookingReferenceOf_format | assumption].
Qed.

(** ** Seat occupancy only grows *)

Lemma run_bookedSeats calls :
  forall db, exists added, bookedSeats (run calls db) = bookedSeats db ++ added.
Proof.
  induction calls as [| c rest IH]; intros db; cbn [run].
  - exists []. now rewrite app_nil_r.
  - destruct (IH (exec c db)) as [more Hmore].
    destruct (exec_bookedSeats c db) as [added Hadded].
    exists (added ++ more). now rewrite Hmore, Hadded, <- app_assoc.
Qed.

(** C10.  No method of the storage layer deletes or releases a seat row:
    a call other than [createBooking] leaves the [booked_seats] table exactly
    as it was, [createBooking] only appends to it, and so, across any
    sequence of storage calls, what [getTripSeats] returned for a trip is
    still returned afterwards, followed by the rows added since. *)
Theorem bookedSeats_never_released :
  (forall c db,
      (forall env bookingData selectedSeats, c <> CreateBooking env bookingData selectedSeats) ->
      bookedSeats (exec c db) = bookedSeats db)
  /\ (forall env bookingData selectedSeats db,
         exists added,
           bookedSeats (exec (CreateBooking env bookingData selectedSeats) db)
           = bookedSeats db ++ added)
  /\ (forall calls db tripId,
         exists added,
           getTripSeats tripId (run calls db) = getTripSeats tripId db ++ added).
Proof.
  split; [| split].
  - intros c db Hc. pose proof (exec_other c db) as H.
    destruct c; try apply H. exfalso. eapply Hc. reflexivity.
  - intros. apply exec_bookedSeats.
  - intros calls db tripId. destruct (run_bookedSeats calls db) as [added H].
    unfold getTripSeats. rewrite H, filter_app. eexists. reflexivity.
Qed.

(** ** Booking references: format and uniqueness *)

Lemma run_references calls :
  forall db,
    forallb Reference.call_ok calls = true ->
    NoDup (Reference.references db) ->
    NoDup (Reference.references (run calls db))
    /\ exists issued,
         Reference.references (run calls db) = Reference.references db ++ issued
         /\ forallb Reference.is_booking_reference issued = true.
Proof.
  induction calls as [| c rest IH]; intros db Hok Hnd; cbn [run].
  - split; [assumption |]. exists []. now rewrite app_nil_r.
  - cbn in Hok. apply andb_true_iff in Hok. destruct Hok as [Hc Hrest].
    destruct (exec_references c db Hc) as [Hsame | [r (Hr & Hfmt & Hfresh)]].
    + destruct (IH (exec c db) Hrest) as [Hnd' [issued [Hi Hf]]].
      { now rewrite Hsame. }
      split; [assumption |]. exists issued. now rewrite Hi, Hsame.
    + destruct (IH (exec c db) Hrest) as [Hnd' [issued [Hi Hf]]].
      { rewrite Hr. apply NoDup_app; [assumption | repeat constructor; easy |].
        intros x Hx [<- | []]. contradiction. }
      split; [assumption |]. exists (r :: issued). split.
      * rewrite Hi, Hr, <- app_assoc. reflexivity.
      * cbn. now rewrite Hfmt, Hf.
Qed.

Lemma exec_issued c db :
  Reference.call_ok c = true ->
  Reference.references (exec c db) = Reference.references db
  \/ exists env data seats,
       c = CreateBooking env data seats
       /\ Reference.ambient_ok env = true
       /\ Reference.references (exec c db)
          = Reference.references db ++ [bookingReferenceOf env]
       /\ ~ In (bookingReferenceOf env) (Reference.references db).
Proof.
  intros Hok. pose proof (exec_other c db) as H.
  destruct c; try (left; apply H).
  cbn [exec]. cbn in Hok.
  destruct (createBooking_effect env bookingData selectedSeats db)
    as [_ [Hsame | [row (Hb & Href & Hfresh)]]].
  - left. unfold Reference.references. now rewrite Hsame.
  - right. exists env, bookingData, selectedSeats.
    split; [reflexivity | split; [exact Hok | split; [| exact Hfresh]]].
    unfold Reference.references at 1. rewrite Hb, map_app. cbn. now rewrite Href.
Qed.

Lemma run_issued calls :
  forall db,
    forallb Reference.call_ok calls = true ->
    exists issued,
      Reference.references (run calls db) = Reference.references db ++ issued
      /\ forall r, In r issued ->
                   exists env data seats,
                     In (CreateBooking env data seats) calls
                     /\ Reference.ambient_ok env = true
                     /\ r = bookingReferenceOf env.
Proof.
  induction calls as [| c rest IH]; intros db Hok; cbn [run].
  - exists []. split; [now rewrite app_nil_r | intros r []].
  - cbn in Hok. apply andb_true_iff in Hok. destruct Hok as [Hc Hrest].
    destruct (IH (exec c db) Hrest) as [issued [Hi Hall]].
    destruct (exec_issued c db Hc) as [Hsame | (env & data & seats & -> & Henv & Hr & _)].
    + exists issued. split; [now rewrite Hi, Hsame |].
      intros r Hr. destruct (Hall r Hr) as (env & data & seats & Hin & Henv & ->).
      exists env, data, seats. split; [now right | now split].
    + exists (bookingReferenceOf env :: issued). split.
      * rewrite Hi, Hr, <- app_assoc. reflexivity.
      * intros r [<- | Hin].
        -- exists env, data, seats. split; [now left | now split].
        -- destruct (Hall r Hin) as (env' & data' & seats' & Hin' & Henv' & ->).
           exists env', data', seats'. split; [now right | now split].
Qed.

(** C9.  Starting from a store whose booking references are pairwise
    distinct, after any sequence of storage calls (the clock showing a
    four-digit year and [randomUUID()] returning a UUID): the references of
    the stored bookings are still pairwise distinct; they are the earlier
    ones, in place, followed by newly issued ones of the form
    [HRM-YYYYMMDD-XXXXXX], each of which reads back as the date that the
    clock showed to the [createBooking] call that issued it (year, month
    from 1 to 12, day) followed by the first six characters of that call's
    UUID; and a further [createBooking] that returns a booking stores it
    under a reference of that form, carrying the date of the call, that no
    stored booking carries. *)
Theorem bookingReference_format_and_uniqueness (calls : list Call) (db : Database) :
  forallb Reference.call_ok calls = true ->
  NoDup (Reference.references db) ->
  NoDup (Reference.references (run calls db))
  /\ (exists issued,
         Reference.references (run calls db) = Reference.references db ++ issued
         /\ forallb Reference.is_booking_reference issued = true
         /\ forall r,
              In r issued ->
              exists env bookingData selectedSeats,
                In (CreateBooking env bookingData selectedSeats) calls
                /\ Reference.date_of r = Some (fullYear env, month env + 1, date env)
                /\ Reference.suffix_of r = substring 0 6 (randomUUID env))
  /\ (forall env bookingData selectedSeats db' booking,
         Reference.ambient_ok env = true ->
         createBooking env bookingData selectedSeats (run calls db) = (db', Returns booking) ->
         Reference.is_booking_reference (bookingReference booking) = true
         /\ Reference.date_of (bookingReference booking)
            = Some (fullYear env, month env + 1, date env)
         /\ Reference.suffix_of (bookingReference booking)
            = substring 0 6 (randomUUID env)
         /\ ~ In (bookingReference booking) (Reference.references (run calls db))
         /\ In booking (bookings db')).
Proof.
  intros Hok Hnd.
  destruct (run_references calls db Hok Hnd) as [H1 [issued [Hi Hshape]]].
  split; [assumption | split].
  - exists issued. split; [exact Hi | split; [exact Hshape |]].
    destruct (run_issued calls db Hok) as [issued' [Hi' Hall]].
    assert (issued' = issued) by (rewrite Hi in Hi'; now apply app_inv_head in Hi').
    subst issued'. intros r Hr.
    destruct (Hall r Hr) as (env & data & seats & Hin & Henv & ->).
    exists env, data, seats. split; [exact Hin |].
    now apply bookingReferenceOf_reads.
  - intros env data seats db' booking Henv Hcall.
    destruct (createBooking_inv _ _ _ _ _ _ Hcall) as [[_ [e He]] | [row [Hins Hrest]]];
      [discriminate He |].
    apply insert_booking_returns in Hins.
    destruct Hins as (_ & _ & Href & _ & _ & _ & Hfresh). cbn in Href, Hfresh.
    assert (Hrow : booking = row /\ In row (bookings db')).
    { destruct Hrest as [[-> [[e He] | [Hr _]]] | [l (_ & Hr & ->)]].
      - discriminate He.
      - injection Hr as ->. split; [reflexivity |]. cbn. apply in_or_app. right. now left.
      - injection Hr as ->. split; [reflexivity |]. cbn. apply in_or_app. right. now left. }
    destruct Hrow as [-> Hin]. rewrite Href.
    destruct (bookingReferenceOf_reads env Henv) as [Hdate Hsuffix].
    repeat split; try assumption. now apply bookingReferenceOf_format.
Qed.

Lemma bookingReference_format_and_uniqueness_witness :
  forallb Reference.call_ok Sample.twoBookings = true
  /\ NoDup (Reference.references Sample.db0)
  /\ NoDup (Reference.references (run Sample.twoBookings Sample.db0))
  /\ Reference.references (run Sample.twoBookings Sample.db0)
     = ["HRM-20250823-3F2A9C"; "HRM-20250823-C0FFEE"]
  /\ map Reference.date_of (Reference.references (run Sample.twoBookings Sample.db0))
     = [Some (2025, 8, 23); Some (2025, 8, 23)].
Proof.
  assert (Hok : forallb Reference.call_ok Sample.twoBookings = true) by reflexivity.
  assert (Hnd : NoDup (Reference.references Sample.db0)) by constructor.
  split; [exact Hok | split; [exact Hnd | split; [| split]]].
  - exact (proj1 (bookingReference_format_and_uniqueness Sample.twoBookings Sample.db0 Hok Hnd)).
  - reflexivity.
  - reflexivity.
Defined.

(** ** Seat reservation as the code performs it *)

Lemma insert_booking_frame id v db f :
  insert_booking id v (set_bookedSeats f db)
  = (set_bookedSeats f (fst (insert_booking id v db)), snd (insert_booking id v db)).
Proof.
  unfold insert_booking, set_bookedSeats, set_bookings.
  cbn [users admins buses routes trips promotions bookings bookedSeats socialLinks].
  repeat break_if; reflexivity.
Qed.

Lemma first_error_frame db f vs :
  first_error (set_bookedSeats f db) vs = first_error db vs.
Proof. reflexivity. Qed.

(** [createBooking] never reads the [booked_seats] table: whatever seat rows
    the store holds, the call completes the same way. *)
Lemma createBooking_ignores_occupancy env data seats db rows :
  snd (createBooking env data seats (set_bookedSeats (fun _ => rows) db))
  = snd (createBooking env data seats db).
Proof.
  unfold createBooking, bind. rewrite insert_booking_frame.
  destruct (insert_booking _ _ db) as [d [row | e]]; cbn [fst snd]; [| reflexivity].
  destruct seats as [| l]; [reflexivity |].
  destruct (0 <? List.length l)%nat; [| reflexivity].
  unfold insert_bookedSeats. rewrite first_error_frame.
  destruct (first_error d _); reflexivity.
Qed.






(** The store after [POST /api/bookings] is the store after the
    [createBooking] call it makes. *)
Lemma post_api_bookings_exec env userId body db bookingData :
  Routes.insertBookingSchema_parse body userId = Some bookingData ->
  fst (Routes.post_api_bookings env userId body db)
  = exec (CreateBooking env bookingData (Routes.body_selectedSeats body)) db.
Proof.
  intros Hparse. unfold Routes.post_api_bookings. rewrite Hparse. cbn [exec].
  destruct (createBooking _ _ _ db) as [db' [b | e]]; reflexivity.
Qed.

(** C1 (the code falls short of it).  From a store without bookings, two
    customers post a booking for seat A1 of the same trip, one after the
    other: both are answered with a booking, and the seat ends up committed
    to two confirmed bookings. *)
Theorem no_double_booking_violated :
  Ledger.no_double_booking Sample.db0
  /\ snd (Routes.post_api_bookings Sample.env1 "u-alice" Sample.bodyA1 Sample.db0)
     = Routes.Json Sample.booking1
  /\ snd (Routes.post_api_bookings Sample.env2 "u-badr" Sample.bodyA1 Sample.db1)
     = Routes.Json Sample.booking2
  /\ fst (Routes.post_api_bookings Sample.env2 "u-badr" Sample.bodyA1
            (fst (Routes.post_api_bookings Sample.env1 "u-alice" Sample.bodyA1 Sample.db0)))
     = run Sample.twoBookings Sample.db0
  /\ ~ Ledger.no_double_booking (run Sample.twoBookings Sample.db0)
  /\ Ledger.committed_to (run Sample.twoBookings Sample.db0) Sample.trip1 "A1"
     = [Sample.booking1; Sample.booking2]
  /\ map booking_status
         (Ledger.committed_to (run Sample.twoBookings Sample.db0) Sample.trip1 "A1")
     = [Some "confirmed"; Some "confirmed"].
Proof.
  split; [| split; [| split; [| split; [| split; [| split]]]]].
  - intros tripId seat. cbn. lia.
  - reflexivity.
  - reflexivity.
  - reflexivity.
  - intros H. specialize (H Sample.trip1 "A1"). vm_compute in H. lia.
  - reflexivity.
  - reflexivity.
Qed.

(** C2 (the code falls short of it).  A request that carries every booking
    column and no [selectedSeats], or a seat without a number, is answered
    500 "Failed to create booking", and yet the booking row of the attempt
    is in the store afterwards, with no seat row. *)
Theorem failed_createBooking_leaves_booking :
  bookings Sample.db0 = []
  /\ snd (Routes.post_api_bookings Sample.env1 "u-alice" Sample.bodyWithoutSeats Sample.db0)
     = Routes.Status 500 "Failed to create booking"
  /\ bookings (fst (Routes.post_api_bookings Sample.env1 "u-alice"
                      Sample.bodyWithoutSeats Sample.db0))
     = [Sample.booking1]
  /\ snd (Routes.post_api_bookings Sample.env1 "u-alice" Sample.bodyWithUnnumberedSeat Sample.db0)
     = Routes.Status 500 "Failed to create booking"
  /\ bookings (fst (Routes.post_api_bookings Sample.env1 "u-alice"
                      Sample.bodyWithUnnumberedSeat Sample.db0))
     = [Sample.booking1]
  /\ bookedSeats (fst (Routes.post_api_bookings Sample.env1 "u-alice"
                         Sample.bodyWithUnnumberedSeat Sample.db0))
     = [].
Proof.
  repeat split; reflexivity.
Qed.

Lemma insert_booking_trip id v db db1 row :
  insert_booking id v db = (db1, Returns row) ->
  has_key (ins_tripId v) (map trip_id (trips db)) = true.
Proof.
  unfold insert_booking. intros H.
  repeat break_if; try discriminate H;
    match goal with
    | Hk : negb (has_key (ins_tripId v) _) = false |- _ =>
        now apply negb_false_iff in Hk
    end.
Qed.

Lemma first_of_none {A} (check : A -> option Exception) (l : list A) :
  first_of check l = None <-> forall a, In a l -> check a = None.
Proof.
  induction l as [| x l IH]; cbn.
  - split; [intros _ a [] | reflexivity].
  - destruct (check x) eqn:Hx.
    + split; [discriminate |]. intros H. rewrite (H x) in Hx by now left. discriminate Hx.
    + rewrite IH. split.
      * intros H a [<- | Ha]; [exact Hx | now apply H].
      * intros H a Ha. apply H. now right.
Qed.

(** The seat rows are stored exactly when each of them passes the three
    checks. *)
Lemma first_error_none db vs :
  first_error db vs = None
  <-> forall v, In v vs ->
                seat_text_error v = None /\ seat_null_error v = None
                /\ seat_reference_error db v = None.
Proof.
  unfold first_error. split.
  - intros H.
    destruct (first_of seat_text_error vs) eqn:H1; [discriminate H |].
    destruct (first_of seat_null_error vs) eqn:H2; [discriminate H |].
    rewrite first_of_none in H1, H2, H. intros v Hv. auto.
  - intros H.
    assert (H1 : first_of seat_text_error vs = None)
      by (apply first_of_none; intros v Hv; now apply H).
    assert (H2 : first_of seat_null_error vs = None)
      by (apply first_of_none; intros v Hv; now apply H).
    rewrite H1, H2. apply first_of_none. intros v Hv. now apply H.
Qed.

Lemma first_error_numbered db row data seats :
  Ledger.numbered seats = true ->
  Ledger.clean seats = true ->
  has_key (booking_id row) (map booking_id (bookings db)) = true ->
  has_key (ins_tripId data) (map trip_id (trips db)) = true ->
  first_error db (map (seatValues row data) seats) = None.
Proof.
  intros Hnum Hclean Hb Ht. apply first_error_none. intros v Hv.
  apply in_map_iff in Hv. destruct Hv as [s [<- Hs]].
  unfold Ledger.numbered, Ledger.clean in *. rewrite forallb_forall in Hnum, Hclean.
  specialize (Hnum s Hs). specialize (Hclean s Hs).
  apply andb_true_iff in Hclean. destruct Hclean as [Hc1 Hc2].
  apply negb_true_iff in Hc1, Hc2.
  unfold seat_text_error, seat_null_error, seat_reference_error, seatValues.
  cbn [val_seatNumber val_passengerName val_bookingId val_tripId].
  rewrite Hc1, Hc2, Hb, Ht. cbn [negb].
  destruct (sel_seatNumber s); [repeat split | discriminate Hnum].
Qed.

(** X2.  What holds of the atomicity claim.  When [selectedSeats] is an
    array whose elements all carry a seat number, no seat number or
    passenger name contains the character U+0000, and the rows are few
    enough for one statement (which takes at most 65535 parameters, four to
    a row), a [createBooking] call that throws has thrown at the booking
    insert, with the exception of that insert, and the store is as it
    was. *)
Theorem createBooking_throw_on_numbered_seats env bookingData seats db db' e :
  Ledger.numbered seats = true ->
  Ledger.clean seats = true ->
  4 * Z.of_nat (List.length seats) <= 65535 ->
  createBooking env bookingData (SeatsArray seats) db = (db', Throws e) ->
  db' = db
  /\ insert_booking (generatedId env) (bookingValues bookingData (bookingReferenceOf env)) db
     = (db, Throws e).
Proof.
  intros Hnum Hclean _. unfold createBooking, bind.
  destruct (insert_booking _ _ db) as [db1 [row | e1]] eqn:Hins.
  - pose proof (insert_booking_trip _ _ _ _ _ Hins) as Htrip.
    apply insert_booking_returns in Hins. destruct Hins as [-> _].
    destruct (0 <? List.length seats)%nat; [| discriminate].
    unfold insert_bookedSeats.
    rewrite (first_error_numbered _ row bookingData seats Hnum Hclean).
    + discriminate.
    + apply has_key_In. cbn [bookings set_bookings]. rewrite map_app.
      apply in_or_app. right. left. reflexivity.
    + exact Htrip.
  - destruct (insert_booking_inv _ _ _ _ _ Hins) as [[-> _] | [r' [Hr _]]];
      [intros H; pair_eq H; split; reflexivity | discriminate Hr].
Qed.

Lemma createBooking_throw_on_numbered_seats_witness :
  Ledger.numbered [Sample.seatA1] = true
  /\ Ledger.clean [Sample.seatA1] = true
  /\ createBooking Sample.env1 (Sample.bookingFor "u-badr" 11000)
       (SeatsArray [Sample.seatA1]) Sample.db1
     = (Sample.db1, Throws (UniqueViolation "bookings_pkey"))
  /\ insert_booking (generatedId Sample.env1)
       (bookingValues (Sample.bookingFor "u-badr" 11000) (bookingReferenceOf Sample.env1))
       Sample.db1
     = (Sample.db1, Throws (UniqueViolation "bookings_pkey")).
Proof.
  assert (Hnum : Ledger.numbered [Sample.seatA1] = true) by reflexivity.
  assert (Hclean : Ledger.clean [Sample.seatA1] = true) by reflexivity.
  assert (Hcall : createBooking Sample.env1 (Sample.bookingFor "u-badr" 11000)
                    (SeatsArray [Sample.seatA1]) Sample.db1
                  = (Sample.db1, Throws (UniqueViolation "bookings_pkey")))
    by reflexivity.
  assert (Hfew : 4 * Z.of_nat (List.length [Sample.seatA1]) <= 65535) by (cbn; lia).
  split; [exact Hnum | split; [exact Hclean | split; [exact Hcall |]]].
  exact (proj2 (createBooking_throw_on_numbered_seats _ _ _ _ _ _ Hnum Hclean Hfew Hcall)).
Defined.

(** C3 (the code falls short of it).  Every [createBooking] call that
    returns hands back, and has stored, a booking whose status is
    ["confirmed"], never ["pending"]. *)
Theorem createBooking_status_confirmed env bookingData selectedSeats db db' booking :
  createBooking env bookingData selectedSeats db = (db', Returns booking) ->
  booking_status booking = Some "confirmed" /\ In booking (bookings db').
Proof.
  intros Hcall.
  destruct (createBooking_inv _ _ _ _ _ _ Hcall) as [[_ [e He]] | [row [Hins Hrest]]];
    [discriminate He |].
  apply insert_booking_returns in Hins.
  destruct Hins as (_ & _ & _ & _ & Hst & _). cbn in Hst.
  destruct Hrest as [[-> [[e He] | [Hr _]]] | [l (_ & Hr & ->)]].
  - discriminate He.
  - injection Hr as ->. split; [assumption |]. cbn. apply in_or_app. right. now left.
  - injection Hr as ->. split; [assumption |]. cbn. apply in_or_app. right. now left.
Qed.

Lemma createBooking_status_confirmed_witness :
  booking_status Sample.booking1 = Some "confirmed"
  /\ In Sample.booking1 (bookings Sample.db1).
Proof.
  apply (createBooking_status_confirmed Sample.env1 (Sample.bookingFor "u-alice" 11000)
           (SeatsArray [Sample.seatA1]) Sample.db0 Sample.db1 Sample.booking1).
  reflexivity.
Defined.

(** ** Payment confirmation *)

Lemma filter_nil_none {A} (f : A -> bool) (l : list A) :
  filter f l = [] -> forall x, In x l -> f x = false.
Proof.
  induction l as [| a l IH]; intros H x Hin; [destruct Hin |].
  cbn in H. destruct (f a) eqn:Hfa; [discriminate H |].
  destruct Hin as [<- | Hin]; [assumption | now apply IH].
Qed.

Lemma set_bookings_same db f :
  (forall b, In b (bookings db) -> f b = b) ->
  set_bookings (map f) db = db.
Proof.
  intros Hf. destruct db as [u a bu r t p bk bs sl]. unfold set_bookings. cbn in *.
  f_equal. rewrite <- (map_id bk) at 2. now apply map_ext_in.
Qed.




(** ** Promotion validation *)






(** ** Availability *)

(** C8 as stated fails on the code: after the two bookings of seat A1 on the
    single-seat bus, the search result reports [-1] available seats. *)
Lemma availableSeats_negative :
  map capacity (buses Sample.db0) = [1]
  /\ map availableSeats
         (searchTrips Sample.searchMorning (run Sample.twoBookings Sample.db0))
     = [-1].
Proof.
  split; reflexivity.
Qed.

(** C8, as the code has it.  For every trip that [searchTrips] returns,
    [availableSeats] is the bus capacity minus the number of [booked_seats]
    rows of the trip (the rows [getTripSeats] returns).  No clamp is applied:
    the value is non-negative exactly when the rows do not outnumber the
    capacity. *)
Theorem searchTrips_availableSeats (params : SearchParams) (db : Database) (s : TripSummary) :
  In s (searchTrips params db) ->
  availableSeats s
  = capacity (summary_bus s)
    - Z.of_nat (List.length (getTripSeats (trip_id (summary_trip s)) db))
  /\ (0 <= availableSeats s
      <-> Z.of_nat (List.length (getTripSeats (trip_id (summary_trip s)) db))
          <= capacity (summary_bus s)).
Proof.
  unfold searchTrips. intros Hin. apply in_map_iff in Hin.
  destruct Hin as [[[t r] b] [<- _]]. cbn. unfold bookedCount, getTripSeats.
  split; [reflexivity | lia].
Qed.

Lemma searchTrips_availableSeats_witness :
  exists s,
    In s (searchTrips Sample.searchMorning Sample.db1)
    /\ availableSeats s = 0
    /\ availableSeats s
       = capacity (summary_bus s)
         - Z.of_nat (List.length (getTripSeats (trip_id (summary_trip s)) Sample.db1)).
Proof.
  exists {| summary_trip := Sample.morning; summary_route := Sample.riyadh_jeddah;
            summary_bus := Sample.minibus; availableSeats := 0 |}.
  assert (Hin : In {| summary_trip := Sample.morning; summary_route := Sample.riyadh_jeddah;
                      summary_bus := Sample.minibus; availableSeats := 0 |}
                   (searchTrips Sample.searchMorning Sample.db1)) by (left; reflexivity).
  split; [exact Hin | split; [reflexivity |]].
  exact (proj1 (searchTrips_availableSeats _ _ _ Hin)).
Defined.

(** ** The amounts of the seat-selection form *)

Section FormAmounts.

Import SeatSelection.
Local Open Scope Q_scope.

Lemma Qfloor_half (k : Z) : Qfloor (inject_Z k + (1 # 2)) = k.
Proof.
  unfold Qfloor, Qplus, inject_Z. cbn.
  replace (k * 2 + 1)%Z with (1 + k * 2)%Z by lia.
  rewrite Z.div_add by lia. reflexivity.
Qed.

(** A number of hundredths prints as itself. *)
Lemma toFixed2_hundredths (x : Q) (k : Z) :
  x == inject_Z k / 100 -> toFixed2 x = k.
Proof.
  intros Hx. unfold toFixed2. destruct (Qle_bool 0 x).
  - assert (H : x * 100 + (1 # 2) == inject_Z k + (1 # 2)) by (rewrite Hx; field).
    rewrite H. apply Qfloor_half.
  - assert (H : - x * 100 + (1 # 2) == inject_Z (- k) + (1 # 2)).
    { rewrite Hx, inject_Z_opp. field. }
    rewrite H, Qfloor_half. lia.
Qed.

Lemma parseFloat_nonneg (c : Z) : (0 <= c)%Z -> 0 <= parseFloat c.
Proof.
  intros H. unfold parseFloat, Qle, Qdiv, Qmult, Qinv, inject_Z. cbn. lia.
Qed.

Lemma totalAmountOf_hundredths (trip : Trip) :
  totalAmountOf trip == inject_Z (price trip + 1000) / 100.
Proof.
  unfold totalAmountOf, parseFloat, serviceFee. rewrite inject_Z_plus. field.
Qed.

Lemma react_selectedSeats trip e st :
  (List.length (selectedSeats st) <= 1)%nat ->
  (List.length (selectedSeats (react trip e st)) <= 1)%nat.
Proof.
  intros H. destruct e as [s | p]; cbn [react]; [| exact H].
  unfold handleSeatClick. repeat break_if; cbn [selectedSeats]; try assumption.
  - etransitivity; [apply filter_length_le | assumption].
  - cbn. lia.
Qed.

Lemma after_selectedSeats trip events :
  forall st,
    (List.length (selectedSeats st) <= 1)%nat ->
    (List.length (selectedSeats (after trip events st)) <= 1)%nat.
Proof.
  induction events as [| e r IH]; intros st H; cbn [after]; [assumption |].
  apply IH. now apply react_selectedSeats.
Qed.

Lemma react_discount trip e st :
  discount st <= parseFloat (price trip) ->
  discount (react trip e st) <= parseFloat (price trip).
Proof.
  intros H. destruct e as [s | p]; cbn [react].
  - unfold handleSeatClick. repeat break_if; cbn [discount]; assumption.
  - cbn. apply Q.le_min_r.
Qed.

Lemma after_discount trip events :
  forall st,
    discount st <= parseFloat (price trip) ->
    discount (after trip events st) <= parseFloat (price trip).
Proof.
  induction events as [| e r IH]; intros st H; cbn [after]; [assumption |].
  apply IH. now apply react_discount.
Qed.

(** C6 as stated fails on the code: for one seat on the trip priced 100.00
    the form submits a total of 110.00, and [createBooking] stores the
    110.00 it is handed. *)
Lemma totalAmount_not_price_times_seats :
  exists bookingData,
    handleBooking Sample.morning (handleSeatClick "A1" (initial [])) = Some bookingData
    /\ data_selectedSeats bookingData = [Sample.seatA1]
    /\ createBooking Sample.env1 (Sample.bookingFor "u-alice" (data_totalAmount bookingData))
         (SeatsArray (data_selectedSeats bookingData)) Sample.db0
       = (Sample.db1, Returns Sample.booking1)
    /\ totalAmount Sample.booking1 = 11000%Z
    /\ (price Sample.morning * Z.of_nat (List.length (data_selectedSeats bookingData)))%Z
       = 10000%Z.
Proof.
  eexists. split; [reflexivity |]. repeat split; reflexivity.
Qed.

(** C6, as the code has it.  [createBooking] computes no price: the booking
    it stores and returns carries the [totalAmount] it was handed.  The
    seat-selection form, which lets the customer hold one seat at a time,
    hands in the trip's list price plus the service fee of 10.00 for that
    one seat. *)
Theorem createBooking_totalAmount :
  (forall env bookingData selectedSeats_ db db' booking,
      createBooking env bookingData selectedSeats_ db = (db', Returns booking) ->
      totalAmount booking = ins_totalAmount bookingData
      /\ In booking (bookings db'))
  /\ (forall trip events occupied_ bookingData,
         handleBooking trip (after trip events (initial occupied_)) = Some bookingData ->
         data_totalAmount bookingData = (price trip + 1000)%Z
         /\ List.length (data_selectedSeats bookingData) = 1%nat).
Proof.
  split.
  - intros env data seats db db' booking Hcall.
    destruct (createBooking_inv _ _ _ _ _ _ Hcall) as [[_ [e He]] | [row [Hins Hrest]]];
      [discriminate He |].
    apply insert_booking_returns in Hins.
    destruct Hins as (_ & _ & _ & Htot & _). cbn in Htot.
    destruct Hrest as [[-> [[e He] | [Hr _]]] | [l (_ & Hr & ->)]].
    + discriminate He.
    + injection Hr as ->. split; [assumption |]. cbn. apply in_or_app. right. now left.
    + injection Hr as ->. split; [assumption |]. cbn. apply in_or_app. right. now left.
  - intros trip events occupied_ bookingData Hb.
    pose proof (after_selectedSeats trip events (initial occupied_)) as Hlen.
    unfold handleBooking in Hb.
    destruct (List.length (selectedSeats (after trip events (initial occupied_)))) as [| n] eqn:Hn;
      [discriminate Hb |].
    cbn [Nat.eqb] in Hb. injection Hb as <-. cbn [data_totalAmount data_selectedSeats].
    split.
    + apply toFixed2_hundredths, totalAmountOf_hundredths.
    + rewrite length_map, Hn. specialize (Hlen (Nat.le_0_l 1)). lia.
Qed.

Lemma createBooking_totalAmount_witness :
  totalAmount Sample.booking1 = 11000%Z
  /\ exists bookingData,
       handleBooking Sample.morning (after Sample.morning [SeatClick "A1"] (initial []))
       = Some bookingData
       /\ data_totalAmount bookingData = (price Sample.morning + 1000)%Z.
Proof.
  split.
  - exact (proj1 (proj1 createBooking_totalAmount Sample.env1
                    (Sample.bookingFor "u-alice" 11000) (SeatsArray [Sample.seatA1])
                    Sample.db0 Sample.db1 Sample.booking1 eq_refl)).
  - eexists. split; [reflexivity |].
    exact (proj1 (proj2 createBooking_totalAmount Sample.morning [SeatClick "A1"] []
                    _ eq_refl)).
Defined.

Lemma toFixed2_nonneg (x : Q) : 0 <= x -> (0 <= toFixed2 x)%Z.
Proof.
  intros Hx. unfold toFixed2.
  assert (Hb : Qle_bool 0 x = true) by now apply Qle_bool_iff.
  rewrite Hb. change 0%Z with (Qfloor 0). apply Qfloor_resp_le. lra.
Qed.

Lemma toFixed2_nonpos (x : Q) : Qle_bool 0 x = false -> (toFixed2 x <= 0)%Z.
Proof.
  intros Hb. unfold toFixed2. rewrite Hb.
  assert (Hx : ~ 0 <= x) by (intros H; apply Qle_bool_iff in H; congruence).
  assert (H : (Qfloor 0 <= Qfloor (- x * 100 + (1 # 2)))%Z)
    by (apply Qfloor_resp_le; lra).
  change (Qfloor 0) with 0%Z in H. lia.
Qed.

(** Rounding to two decimals keeps the order of two amounts. *)
Lemma toFixed2_mono (x y : Q) : x <= y -> (toFixed2 x <= toFixed2 y)%Z.
Proof.
  intros Hxy.
  destruct (Qle_bool 0 x) eqn:Hx, (Qle_bool 0 y) eqn:Hy.
  - unfold toFixed2. rewrite Hx, Hy. apply Qfloor_resp_le. lra.
  - apply Qle_bool_iff in Hx.
    assert (~ 0 <= y) by (intros H; apply Qle_bool_iff in H; congruence). lra.
  - pose proof (toFixed2_nonpos x Hx). apply Qle_bool_iff in Hy.
    pose proof (toFixed2_nonneg y Hy). lia.
  - unfold toFixed2. rewrite Hx, Hy.
    assert (H : (Qfloor (- y * 100 + (1 # 2)) <= Qfloor (- x * 100 + (1 # 2)))%Z)
      by (apply Qfloor_resp_le; lra).
    lia.
Qed.

(** [createBooking] stores the three amounts it is handed. *)
Lemma createBooking_amounts env data seats db db' booking :
  createBooking env data seats db = (db', Returns booking) ->
  totalAmount booking = ins_totalAmount data
  /\ discountAmount booking = or_default (Some 0%Z) (ins_discountAmount data)
  /\ finalAmount booking = ins_finalAmount data.
Proof.
  intros Hcall.
  destruct (createBooking_inv _ _ _ _ _ _ Hcall) as [[_ [e He]] | [row [Hins Hrest]]];
    [discriminate He |].
  assert (Hrow : booking = row).
  { destruct Hrest as [[_ [[e He] | [Hr _]]] | [l (_ & Hr & _)]].
    - discriminate He.
    - now injection Hr.
    - now injection Hr. }
  subst booking. unfold insert_booking in Hins.
  repeat break_if; try discriminate Hins. pair_eq Hins. repeat split.
Qed.

(** C7 as stated fails on the code, in three ways.  Nothing stops an
    administrator from storing a fixed-amount promotion of minus five,
    [validatePromoCode] returns such a promotion, and the form then holds a
    discount of -5.  With the 20 percent promotion applied and no seat
    selected, the form shows a final amount of -20.  And [createBooking]
    stores a booking with total 110.00, discount -5.00 and final amount
    -7.00 as it is handed them. *)
Lemma discount_negative :
  (exists promotion,
      snd (createPromotion Sample.promotion9 Sample.surchargeData Sample.db0) = Returns promotion
      /\ discountValue promotion = (-500)%Z)
  /\ validatePromoCode "MINUS5" Sample.now Sample.db0 = Some Sample.surcharge
  /\ discount (onPromoSuccess Sample.morning Sample.surcharge (initial [])) == - (5)
  /\ discount (onPromoSuccess Sample.morning Sample.surcharge (initial [])) < 0
  /\ summaryFinal Sample.morning
       (after Sample.morning [PromoApplied Sample.save20] (initial []))
     == - (20)
  /\ (exists booking,
         snd (createBooking Sample.env1
                {| ins_bookingReference := ""; ins_userId := "u-alice";
                   ins_tripId := Sample.trip1; ins_totalAmount := 11000;
                   ins_discountAmount := Some (Some (-500)%Z);
                   ins_finalAmount := (-700)%Z; ins_promotionId := None;
                   ins_status := None; ins_paymentGatewayId := None;
                   ins_paymentMethod := None |}
                (SeatsArray [Sample.seatA1]) Sample.db0)
         = Returns booking
         /\ totalAmount booking = 11000%Z
         /\ discountAmount booking = Some (-500)%Z
         /\ finalAmount booking = (-700)%Z).
Proof.
  split; [eexists; split; reflexivity |].
  split; [reflexivity |]. split; [reflexivity |]. split; [reflexivity |].
  split; [reflexivity |].
  eexists. repeat split; reflexivity.
Qed.

(** C7, as the code has it.  For a trip with a non-negative list price, in
    every state of the form.  When [handleBooking] sends a booking (a seat
    is selected), the final amount it computes is the total minus the
    discount, which equals [max(0, total - discount)] and is never negative,
    the discount never exceeds the total, and the same holds of the three
    amounts as [toFixed(2)] prints them.  The final amount that the form
    shows is the summary total, [(price + 10)] times the number of selected
    seats, minus the discount: it is the amount sent when a seat is
    selected, and minus the discount when none is.  Applying a promotion
    sets the discount to [min(value, tripPrice)] for a fixed amount and to
    [min(tripPrice * value / 100, tripPrice)] for a percentage; it never
    exceeds the trip price, and it is non-negative whenever the promotion's
    value is.  The server applies none of this: [createBooking] stores the
    total, the discount and the final amount it is handed. *)
Theorem form_amounts (trip : Trip) (events : list Event) (occupied_ : list string) :
  (0 <= price trip)%Z ->
  let st := after trip events (initial occupied_) in
  let tripPrice := parseFloat (price trip) in
  (forall bd,
      handleBooking trip st = Some bd ->
      finalAmountOf trip st == Qmax 0 (totalAmountOf trip - discount st)
      /\ 0 <= finalAmountOf trip st
      /\ discount st <= totalAmountOf trip
      /\ data_totalAmount bd = toFixed2 (totalAmountOf trip)
      /\ data_discountAmount bd = toFixed2 (discount st)
      /\ data_finalAmount bd = toFixed2 (finalAmountOf trip st)
      /\ (0 <= data_finalAmount bd)%Z
      /\ (data_discountAmount bd <= data_totalAmount bd)%Z)
  /\ (summaryFinal trip st == summaryTotal trip st - discount st
      /\ (selectedSeats st = [] -> summaryFinal trip st == - discount st)
      /\ (selectedSeats st <> [] -> summaryFinal trip st == finalAmountOf trip st))
  /\ (forall promotion,
         (discountType promotion <> "percentage"%string ->
          discount (onPromoSuccess trip promotion st)
          == Qmin (parseFloat (discountValue promotion)) tripPrice)
         /\ (discountType promotion = "percentage"%string ->
             discount (onPromoSuccess trip promotion st)
             == Qmin (tripPrice * parseFloat (discountValue promotion) / 100) tripPrice)
         /\ discount (onPromoSuccess trip promotion st) <= tripPrice
         /\ ((0 <= discountValue promotion)%Z ->
             0 <= discount (onPromoSuccess trip promotion st)))
  /\ (forall env bookingData selectedSeats_ db db' booking,
         createBooking env bookingData selectedSeats_ db = (db', Returns booking) ->
         totalAmount booking = ins_totalAmount bookingData
         /\ discountAmount booking = or_default (Some 0%Z) (ins_discountAmount bookingData)
         /\ finalAmount booking = ins_finalAmount bookingData).
Proof.
  intros Hprice st tripPrice.
  assert (Htp : 0 <= tripPrice) by now apply parseFloat_nonneg.
  assert (Hd : discount st <= tripPrice).
  { apply after_discount. exact Htp. }
  assert (Hfinal : 0 <= totalAmountOf trip - discount st).
  { unfold totalAmountOf, serviceFee. fold tripPrice. lra. }
  assert (Htotal : discount st <= totalAmountOf trip).
  { unfold totalAmountOf, serviceFee. fold tripPrice. lra. }
  assert (Hlen : (List.length (selectedSeats st) <= 1)%nat).
  { apply after_selectedSeats. cbn. lia. }
  split; [| split; [| split]].
  - intros bd Hbd. unfold handleBooking in Hbd.
    destruct (List.length (selectedSeats st) =? 0)%nat; [discriminate Hbd |].
    injection Hbd as <-.
    cbn [data_totalAmount data_discountAmount data_finalAmount].
    split; [unfold finalAmountOf; symmetry; now apply Q.max_r |].
    split; [exact Hfinal |]. split; [exact Htotal |].
    split; [reflexivity |]. split; [reflexivity |]. split; [reflexivity |].
    split; [now apply toFixed2_nonneg | now apply toFixed2_mono].
  - unfold summaryFinal. split; [reflexivity |]. split.
    + intros Hnone. unfold summaryTotal. rewrite Hnone. cbn [List.length]. cbn. ring.
    + intros Hsome. unfold summaryTotal, finalAmountOf, totalAmountOf.
      destruct (selectedSeats st) as [| s [| s' l]];
        [contradiction | | cbn in Hlen; lia].
      cbn [List.length]. change (inject_Z (Z.of_nat 1)) with 1. ring.
  - intros promotion. cbn [onPromoSuccess discount]. fold tripPrice.
    unfold discountAmountOf. fold tripPrice.
    split; [| split; [| split]].
    + intros Hfixed. apply String.eqb_neq in Hfixed. rewrite Hfixed. reflexivity.
    + intros Hpct. apply String.eqb_eq in Hpct. rewrite Hpct. reflexivity.
    + apply Q.le_min_r.
    + intros Hvalue. apply Q.min_glb; [| exact Htp].
      pose proof (parseFloat_nonneg _ Hvalue) as Hv.
      destruct (String.eqb (discountType promotion) "percentage"); [| exact Hv].
      unfold Qdiv. apply Qmult_le_0_compat; [now apply Qmult_le_0_compat | discriminate].
  - intros env data seats db db' booking. apply createBooking_amounts.
Qed.

Lemma form_amounts_witness :
  (0 <= price Sample.morning)%Z
  /\ option_map (fun bd => (data_totalAmount bd, data_discountAmount bd, data_finalAmount bd))
       (handleBooking Sample.morning
          (after Sample.morning [SeatClick "A1"; PromoApplied Sample.save20] (initial [])))
     = Some (11000, 2000, 9000)%Z
  /\ finalAmountOf Sample.morning
       (after Sample.morning [SeatClick "A1"; PromoApplied Sample.save20] (initial []))
     == Qmax 0 (totalAmountOf Sample.morning
                - discount (after Sample.morning
                              [SeatClick "A1"; PromoApplied Sample.save20] (initial []))).
Proof.
  assert (Hprice : (0 <= price Sample.morning)%Z) by (cbn; lia).
  split; [exact Hprice | split; [reflexivity |]].
  destruct (proj1 (form_amounts Sample.morning [SeatClick "A1"; PromoApplied Sample.save20] []
                     Hprice)
              {| data_tripId := Sample.trip1; data_totalAmount := 11000;
                 data_discountAmount := 2000; data_finalAmount := 9000;
                 data_selectedSeats :=
                   [ {| sel_seatNumber := Some "A1"%string;
                        sel_passengerName := Some "Passenger"%string |} ] |}
              eq_refl) as [H _].
  exact H.
Defined.

End FormAmounts.

(* ================================================================== *)
(** * Further properties of the storage layer, the routes and the form *)

(** ** Well-formed stores stay well-formed *)

Lemma distinct_NoDup (keys : list string) :
  Integrity.distinct keys = true <-> NoDup keys.
Proof.
  induction keys as [| k rest IH]; cbn.
  - split; [constructor | reflexivity].
  - rewrite andb_true_iff, negb_true_iff, has_key_false, IH. split.
    + intros [H1 H2]. now constructor.
    + intros H. inversion H. now split.
Qed.

Lemma distinct_snoc (keys : list string) (k : string) :
  Integrity.distinct keys = true ->
  has_key k keys = false ->
  Integrity.distinct (keys ++ [k]) = true.
Proof.
  rewrite !distinct_NoDup, has_key_false. intros Hnd Hk.
  apply NoDup_app; [assumption | repeat constructor; easy |].
  intros x Hx [<- | []]. contradiction.
Qed.

Lemma has_key_app (k : string) (l1 l2 : list string) :
  has_key k (l1 ++ l2) = (has_key k l1 || has_key k l2)%bool.
Proof. unfold has_key. apply existsb_app. Qed.

Lemma has_key_grow (k : string) (l1 l2 : list string) :
  has_key k l1 = true -> has_key k (l1 ++ l2) = true.
Proof. intros H. now rewrite has_key_app, H. Qed.

Lemma opt_has_key_grow (k : option string) (l1 l2 : list string) :
  opt_has_key k l1 = true -> opt_has_key k (l1 ++ l2) = true.
Proof. destruct k; cbn; [apply has_key_grow | reflexivity]. Qed.

Lemma forallb_weaken {A} (f g : A -> bool) (l : list A) :
  (forall x, f x = true -> g x = true) ->
  forallb f l = true -> forallb g l = true.
Proof.
  intros Hfg. rewrite !forallb_forall. intros H x Hx. apply Hfg. now apply H.
Qed.

Ltac split_andb :=
  repeat match goal with
         | H : (_ && _)%bool = true |- _ =>
             apply andb_true_iff in H; destruct H
         end.

Ltac consistent_parts H :=
  unfold Integrity.consistent, Integrity.keys_unique, Integrity.references_hold in H;
  split_andb.

Ltac consistent_goal :=
  unfold Integrity.consistent, Integrity.keys_unique, Integrity.references_hold;
  cbn [users admins buses routes trips promotions bookings bookedSeats socialLinks
       set_users set_buses set_routes set_trips set_promotions set_bookings
       set_bookedSeats];
  repeat (apply andb_true_iff; split).

(** A reference check survives the growth of the table it points into. *)
Ltac grown_keys :=
  match goal with
  | H : forallb _ ?l = true |- forallb _ ?l = true =>
      revert H; apply forallb_weaken; intros; split_andb;
      rewrite ?map_app;
      repeat (apply andb_true_iff; split);
      first [ assumption | now apply has_key_grow | now apply opt_has_key_grow ]
  end.

Ltac fresh_key :=
  rewrite map_app; apply distinct_snoc; [assumption | cbn [map]; assumption].

Ltac new_row :=
  rewrite forallb_app; apply andb_true_iff; split;
  [ first [ assumption | grown_keys ]
  | cbn [forallb]; rewrite ?map_app;
    repeat match goal with
           | H : has_key _ _ = true |- _ => rewrite (has_key_grow _ _ _ H) || rewrite H
           | H : opt_has_key _ _ = true |- _ => rewrite (opt_has_key_grow _ _ _ H) || rewrite H
           end;
    reflexivity ].

Ltac consistent_auto :=
  consistent_goal; first [ assumption | fresh_key | grown_keys | new_row ].

Lemma consistent_add_route db row :
  Integrity.consistent db = true ->
  has_key (route_id row) (map route_id (routes db)) = false ->
  Integrity.consistent (set_routes (fun t => t ++ [row]) db) = true.
Proof. intros H Hid. consistent_parts H. consistent_auto. Qed.

Lemma consistent_add_bus db row :
  Integrity.consistent db = true ->
  has_key (bus_id row) (map bus_id (buses db)) = false ->
  has_key (busNumber row) (map busNumber (buses db)) = false ->
  Integrity.consistent (set_buses (fun t => t ++ [row]) db) = true.
Proof. intros H Hid Hnum. consistent_parts H. consistent_auto. Qed.

Lemma consistent_add_trip db row :
  Integrity.consistent db = true ->
  has_key (trip_id row) (map trip_id (trips db)) = false ->
  has_key (routeId row) (map route_id (routes db)) = true ->
  has_key (busId row) (map bus_id (buses db)) = true ->
  Integrity.consistent (set_trips (fun t => t ++ [row]) db) = true.
Proof. intros H Hid Hr Hb. consistent_parts H. consistent_auto. Qed.

Lemma consistent_add_promotion db row :
  Integrity.consistent db = true ->
  has_key (promotion_id row) (map promotion_id (promotions db)) = false ->
  has_key (promoCode row) (map promoCode (promotions db)) = false ->
  has_key (createdByAdminId row) (map admin_id (admins db)) = true ->
  Integrity.consistent (set_promotions (fun t => t ++ [row]) db) = true.
Proof. intros H Hid Hcode Hadm. consistent_parts H. consistent_auto. Qed.

Lemma consistent_add_booking db row :
  Integrity.consistent db = true ->
  has_key (booking_id row) (map booking_id (bookings db)) = false ->
  has_key (bookingReference row) (map bookingReference (bookings db)) = false ->
  has_key (booking_userId row) (map user_id (users db)) = true ->
  has_key (booking_tripId row) (map trip_id (trips db)) = true ->
  opt_has_key (promotionId row) (map promotion_id (promotions db)) = true ->
  Integrity.consistent (set_bookings (fun t => t ++ [row]) db) = true.
Proof. intros H Hid Href Hu Ht Hp. consistent_parts H. consistent_auto. Qed.

Lemma consistent_add_seats db rows :
  Integrity.consistent db = true ->
  forallb (fun s => (has_key (seat_bookingId s) (map booking_id (bookings db))
                     && has_key (seat_tripId s) (map trip_id (trips db)))%bool) rows = true ->
  Integrity.consistent (set_bookedSeats (fun t => t ++ rows) db) = true.
Proof.
  intros H Hrows. consistent_parts H. consistent_goal; try assumption.
  rewrite forallb_app. apply andb_true_iff. split; assumption.
Qed.

Lemma consistent_add_user db row :
  Integrity.consistent db = true ->
  has_key (user_id row) (map user_id (users db)) = false ->
  Integrity.consistent (set_users (fun t => t ++ [row]) db) = true.
Proof. intros H Hid. consistent_parts H. consistent_auto. Qed.

Lemma consistent_map_users db f :
  Integrity.consistent db = true ->
  (forall u, user_id (f u) = user_id u) ->
  Integrity.consistent (set_users (map f) db) = true.
Proof.
  intros H Hf.
  assert (Hids : map user_id (map f (users db)) = map user_id (users db)).
  { rewrite map_map. apply map_ext. exact Hf. }
  consistent_parts H. consistent_goal; rewrite ?Hids; assumption.
Qed.

Lemma consistent_map_bookings db f :
  Integrity.consistent db = true ->
  (forall b, booking_id (f b) = booking_id b
             /\ bookingReference (f b) = bookingReference b
             /\ booking_userId (f b) = booking_userId b
             /\ booking_tripId (f b) = booking_tripId b
             /\ promotionId (f b) = promotionId b) ->
  Integrity.consistent (set_bookings (map f) db) = true.
Proof.
  intros H Hf.
  assert (Hids : map booking_id (map f (bookings db)) = map booking_id (bookings db)).
  { rewrite map_map. apply map_ext. intros b. apply Hf. }
  assert (Hrefs : map bookingReference (map f (bookings db))
                  = map bookingReference (bookings db)).
  { rewrite map_map. apply map_ext. intros b. apply Hf. }
  consistent_parts H. consistent_goal; rewrite ?Hids, ?Hrefs; try assumption.
  match goal with
  | Hb : forallb _ (bookings db) = true |- _ =>
      rewrite forallb_forall in Hb; apply forallb_forall;
      intros b' Hin; apply in_map_iff in Hin; destruct Hin as [b [<- Hin]];
      specialize (Hb b Hin)
  end.
  destruct (Hf b) as (_ & _ & -> & -> & ->). assumption.
Qed.
Lemma insert_booking_checks id v db db1 row :
  insert_booking id v db = (db1, Returns row) ->
  has_key (booking_id row) (map booking_id (bookings db)) = false
  /\ has_key (bookingReference row) (map bookingReference (bookings db)) = false
  /\ has_key (booking_userId row) (map user_id (users db)) = true
  /\ has_key (booking_tripId row) (map trip_id (trips db)) = true
  /\ opt_has_key (promotionId row) (map promotion_id (promotions db)) = true
  /\ booking_userId row = ins_userId v
  /\ booking_tripId row = ins_tripId v.
Proof.
  unfold insert_booking. intros H.
  repeat break_if; try discriminate H. pair_eq H. cbn.
  repeat match goal with
         | Hk : negb _ = false |- _ => apply negb_false_iff in Hk
         end.
  repeat split; assumption.
Qed.

Lemma new_seat_rows_resolved db row data seats :
  has_key (booking_id row) (map booking_id (bookings db)) = true ->
  has_key (ins_tripId data) (map trip_id (trips db)) = true ->
  forallb (fun s => (has_key (seat_bookingId s) (map booking_id (bookings db))
                     && has_key (seat_tripId s) (map trip_id (trips db)))%bool)
          (flat_map seat_row (map (seatValues row data) seats)) = true.
Proof.
  intros Hb Ht. induction seats as [| s seats IH]; [reflexivity |].
  cbn [map flat_map]. rewrite forallb_app, IH, andb_true_r.
  unfold seat_row, seatValues. cbn [val_seatNumber val_bookingId val_tripId].
  destruct (sel_seatNumber s); [| reflexivity].
  cbn. now rewrite Hb, Ht.
Qed.

Lemma markPaid_keeps pg bookingId userId b :
  let f := fun b => if owned_by bookingId userId b then markPaid pg b else b in
  booking_id (f b) = booking_id b
  /\ bookingReference (f b) = bookingReference b
  /\ booking_userId (f b) = booking_userId b
  /\ booking_tripId (f b) = booking_tripId b
  /\ promotionId (f b) = promotionId b.
Proof.
  cbn. destruct (owned_by bookingId userId b); repeat split; reflexivity.
Qed.

Lemma createBooking_consistent env data seats db :
  Integrity.consistent db = true ->
  Integrity.consistent (fst (createBooking env data seats db)) = true.
Proof.
  intros H.
  destruct (createBooking env data seats db) as [db' r] eqn:Hcall. cbn [fst].
  destruct (createBooking_inv _ _ _ _ _ _ Hcall) as [[-> _] | [row [Hins Hrest]]];
    [exact H |].
  apply insert_booking_checks in Hins. destruct Hins as (Hid & Href & Hu & Ht & Hp & _ & Htrip).
  pose proof (consistent_add_booking db row H Hid Href Hu Ht Hp) as H1.
  destruct Hrest as [[-> _] | [l (_ & _ & ->)]]; [exact H1 |].
  apply consistent_add_seats; [exact H1 |].
  apply new_seat_rows_resolved.
  - cbn [bookings set_bookings]. rewrite map_app, has_key_app. cbn.
    rewrite String.eqb_refl. now rewrite orb_true_r.
  - cbn [trips set_bookings]. cbn in Htrip. now rewrite <- Htrip.
Qed.

(** Every method of the storage layer keeps a well-formed store
    well-formed, whether it returns or throws. *)
Lemma exec_consistent c db :
  Integrity.consistent db = true -> Integrity.consistent (exec c db) = true.
Proof.
  intros H. destruct c; cbn [exec]; try exact H.
  - unfold upsertUser, upsert_user. repeat break_if; cbn [fst]; try exact H.
    + destruct (filter _ _); cbn [fst]; [exact H |].
      apply consistent_map_users; [exact H |].
      intros x. destruct (String.eqb (user_id x) (up_id userData)); reflexivity.
    + apply consistent_add_user; assumption.
  - unfold createRoute, insert_route. repeat break_if; cbn [fst]; try exact H.
    now apply consistent_add_route.
  - unfold createBus, insert_bus. repeat break_if; cbn [fst]; try exact H.
    now apply consistent_add_bus.
  - unfold createTrip, insert_trip. repeat break_if; cbn [fst]; try exact H.
    repeat match goal with
           | Hk : negb _ = false |- _ => apply negb_false_iff in Hk
           end.
    now apply consistent_add_trip.
  - now apply createBooking_consistent.
  - rewrite confirmBookingPayment_store.
    destruct (update_payment_store bookingId userId paymentGatewayId_ db)
      as [-> | (_ & _ & ->)]; [exact H |].
    apply consistent_map_bookings; [exact H |].
    intros b. apply markPaid_keeps.
  - unfold createPromotion, insert_promotion. repeat break_if; cbn [fst]; try exact H.
    repeat match goal with
           | Hk : negb _ = false |- _ => apply negb_false_iff in Hk
           end.
    now apply consistent_add_promotion.
Qed.

Lemma run_consistent calls :
  forall db, Integrity.consistent db = true -> Integrity.consistent (run calls db) = true.
Proof.
  induction calls as [| c rest IH]; intros db H; cbn [run]; [exact H |].
  apply IH. now apply exec_consistent.
Qed.

(** X4.  Starting from a store whose keys are unique and whose references
    resolve, any sequence of storage calls, returning or throwing, leaves
    such a store: booking ids stay pairwise distinct, every seat row belongs
    to a stored booking, and every booking is on a stored trip. *)
Theorem store_stays_consistent (calls : list Call) (db : Database) :
  Integrity.consistent db = true ->
  Integrity.consistent (run calls db) = true
  /\ NoDup (map booking_id (bookings (run calls db)))
  /\ (forall s, In s (bookedSeats (run calls db)) ->
                exists b, In b (bookings (run calls db))
                          /\ booking_id b = seat_bookingId s)
  /\ (forall b, In b (bookings (run calls db)) ->
                exists t, In t (trips (run calls db))
                          /\ trip_id t = booking_tripId b).
Proof.
  intros H. pose proof (run_consistent calls db H) as H'.
  split; [exact H' |].
  consistent_parts H'.
  split; [| split].
  - now apply distinct_NoDup.
  - intros s Hs.
    match goal with
    | Hseats : forallb _ (bookedSeats _) = true |- _ =>
        rewrite forallb_forall in Hseats; specialize (Hseats s Hs)
    end.
    split_andb.
    match goal with
    | Hk : has_key (seat_bookingId s) _ = true |- _ =>
        apply has_key_In, in_map_iff in Hk; destruct Hk as [b [Hb Hin]]
    end.
    exists b. now split.
  - intros b Hb.
    match goal with
    | Hbk : forallb _ (bookings _) = true |- _ =>
        rewrite forallb_forall in Hbk; specialize (Hbk b Hb)
    end.
    split_andb.
    match goal with
    | Hk : has_key (booking_tripId b) _ = true |- _ =>
        apply has_key_In, in_map_iff in Hk; destruct Hk as [t [Ht Hin]]
    end.
    exists t. now split.
Qed.

Lemma store_stays_consistent_witness :
  Integrity.consistent Sample.db0 = true
  /\ Integrity.consistent (run Sample.twoBookings Sample.db0) = true.
Proof.
  assert (H : Integrity.consistent Sample.db0 = true) by reflexivity.
  split; [exact H |].
  exact (proj1 (store_stays_consistent Sample.twoBookings Sample.db0 H)).
Defined.
(** ** Reading a booking back *)

Lemma bookingResult_In bookingId userId db bk t r b :
  In (bk, t, r, b) (bookingResult bookingId userId db)
  <-> In bk (bookings db) /\ In t (trips db) /\ In r (routes db) /\ In b (buses db)
      /\ booking_tripId bk = trip_id t /\ routeId t = route_id r /\ busId t = bus_id b
      /\ booking_id bk = bookingId /\ booking_userId bk = userId.
Proof.
  unfold bookingResult. rewrite in_flat_map. split.
  - intros [bk' [Hbk H]]. apply in_flat_map in H. destruct H as [t' [Ht H]].
    apply in_flat_map in H. destruct H as [r' [Hr H]].
    apply in_flat_map in H. destruct H as [b' [Hb H]].
    break_if; [| destruct H]. destruct H as [H | []]. pair_eq H.
    split_andb. rewrite !String.eqb_eq in *. tauto.
  - intros (Hbk & Ht & Hr & Hb & E1 & E2 & E3 & E4 & E5).
    exists bk. split; [assumption |]. apply in_flat_map. exists t. split; [assumption |].
    apply in_flat_map. exists r. split; [assumption |].
    apply in_flat_map. exists b. split; [assumption |].
    rewrite E1, E2, E3, E4, E5, !String.eqb_refl. now left.
Qed.

Lemma distinct_same_key {A} (key : A -> string) (l : list A) (x y : A) :
  Integrity.distinct (map key l) = true ->
  In x l -> In y l -> key x = key y -> x = y.
Proof.
  rewrite distinct_NoDup. induction l as [| a l IH]; intros Hnd Hx Hy Hk; [destruct Hx |].
  cbn in Hnd. inversion Hnd as [| ? ? Hnotin Hnd']; subst.
  destruct Hx as [<- | Hx], Hy as [<- | Hy]; try reflexivity.
  - exfalso. apply Hnotin. rewrite Hk. now apply in_map.
  - exfalso. apply Hnotin. rewrite <- Hk. now apply in_map.
  - now apply IH.
Qed.

Lemma getBookingById_sound bookingId userId db d :
  getBookingById bookingId userId db = Some d ->
  In (details_booking d) (bookings db)
  /\ booking_id (details_booking d) = bookingId
  /\ booking_userId (details_booking d) = userId
  /\ trip_id (details_trip d) = booking_tripId (details_booking d)
  /\ details_bookedSeats d
     = filter (fun s => String.eqb (seat_bookingId s) bookingId) (bookedSeats db).
Proof.
  unfold getBookingById. intros Hd.
  destruct (bookingResult bookingId userId db) as [| [[[bk t] r] b] rest] eqn:Hres;
    [discriminate Hd |].
  injection Hd as <-. cbn.
  assert (Hin : In (bk, t, r, b) (bookingResult bookingId userId db))
    by (rewrite Hres; now left).
  apply bookingResult_In in Hin. intuition congruence.
Qed.

Lemma getBookingById_found bookingId userId db bk :
  Integrity.consistent db = true ->
  In bk (bookings db) -> owned_by bookingId userId bk = true ->
  exists d, getBookingById bookingId userId db = Some d /\ details_booking d = bk.
Proof.
  unfold getBookingById. intros Hc Hbk Hown.
  unfold owned_by in Hown. apply andb_true_iff in Hown.
  destruct Hown as [Hid Hu]. apply String.eqb_eq in Hid, Hu.
  pose proof Hc as Hc'. consistent_parts Hc'.
  assert (Htrip : exists t, In t (trips db) /\ trip_id t = booking_tripId bk).
  { match goal with
    | Hb : forallb _ (bookings db) = true |- _ =>
        rewrite forallb_forall in Hb; specialize (Hb bk Hbk)
    end.
    split_andb.
    match goal with
    | Hk : has_key (booking_tripId bk) _ = true |- _ =>
        apply has_key_In, in_map_iff in Hk; destruct Hk as [t [Ht Hin]]
    end.
    exists t. now split. }
  destruct Htrip as [t [Ht Htid]].
  assert (Hrb : exists r b, In r (routes db) /\ In b (buses db)
                            /\ route_id r = routeId t /\ bus_id b = busId t).
  { match goal with
    | Htr : forallb _ (trips db) = true |- _ =>
        rewrite forallb_forall in Htr; specialize (Htr t Ht)
    end.
    split_andb.
    match goal with
    | Hk : has_key (routeId t) _ = true |- _ =>
        apply has_key_In, in_map_iff in Hk; destruct Hk as [r [Hr Hrin]]
    end.
    match goal with
    | Hk : has_key (busId t) _ = true |- _ =>
        apply has_key_In, in_map_iff in Hk; destruct Hk as [b [Hb Hbin]]
    end.
    exists r, b. tauto. }
  destruct Hrb as (r & b & Hr & Hb & Hrid & Hbid).
  assert (Hin : In (bk, t, r, b) (bookingResult bookingId userId db)).
  { apply bookingResult_In. intuition congruence. }
  destruct (bookingResult bookingId userId db) as [| [[[bk' t'] r'] b'] rest] eqn:Hres;
    [destruct Hin |].
  eexists. split; [reflexivity |]. cbn.
  assert (Hin' : In (bk', t', r', b') (bookingResult bookingId userId db))
    by (rewrite Hres; now left).
  apply bookingResult_In in Hin'.
  apply (distinct_same_key booking_id (bookings db)); intuition congruence.
Qed.

Lemma getBookingById_none bookingId userId db :
  (forall bk, In bk (bookings db) -> owned_by bookingId userId bk = false) ->
  getBookingById bookingId userId db = None.
Proof.
  unfold getBookingById. intros Hnone.
  destruct (bookingResult bookingId userId db) as [| [[[bk t] r] b] rest] eqn:Hres;
    [reflexivity |].
  assert (Hin : In (bk, t, r, b) (bookingResult bookingId userId db))
    by (rewrite Hres; now left).
  apply bookingResult_In in Hin.
  destruct Hin as (Hbk & _ & _ & _ & _ & _ & _ & Hid & Hu).
  specialize (Hnone bk Hbk). unfold owned_by in Hnone.
  rewrite Hid, Hu, !String.eqb_refl in Hnone. discriminate Hnone.
Qed.

(** X5.  For a booking id that has the form of a UUID and a user id that
    the database accepts as text (it contains no U+0000): [getBookingById]
    answers with a booking that has the id asked for and belongs to the user
    asking, together with exactly the seat rows of that booking; in a
    well-formed store it answers for every booking the user owns; and it
    answers [null] when the user owns no booking with that id. *)
Theorem getBookingById_access (bookingId userId : string) (db : Database) :
  Reference.is_uuid bookingId = true ->
  has_nul userId = false ->
  (forall d, getBookingById bookingId userId db = Some d ->
             In (details_booking d) (bookings db)
             /\ booking_id (details_booking d) = bookingId
             /\ booking_userId (details_booking d) = userId
             /\ trip_id (details_trip d) = booking_tripId (details_booking d)
             /\ details_bookedSeats d
                = filter (fun s => String.eqb (seat_bookingId s) bookingId) (bookedSeats db))
  /\ (Integrity.consistent db = true ->
      forall bk, In bk (bookings db) -> owned_by bookingId userId bk = true ->
                 exists d, getBookingById bookingId userId db = Some d
                           /\ details_booking d = bk)
  /\ ((forall bk, In bk (bookings db) -> owned_by bookingId userId bk = false) ->
      getBookingById bookingId userId db = None).
Proof.
  intros _ _. split; [| split].
  - intros d. apply getBookingById_sound.
  - intros Hc bk. now apply getBookingById_found.
  - apply getBookingById_none.
Qed.

Lemma getBookingById_access_witness :
  Integrity.consistent Sample.db1 = true
  /\ In Sample.booking1 (bookings Sample.db1)
  /\ (exists d, getBookingById Sample.bookingId1 "u-alice" Sample.db1 = Some d
                /\ details_booking d = Sample.booking1)
  /\ getBookingById Sample.bookingId1 "u-badr" Sample.db1 = None.
Proof.
  assert (Hc : Integrity.consistent Sample.db1 = true) by reflexivity.
  assert (Hin : In Sample.booking1 (bookings Sample.db1)) by (left; reflexivity).
  split; [exact Hc | split; [exact Hin | split]].
  - exact (proj1 (proj2 (getBookingById_access Sample.bookingId1 "u-alice" Sample.db1
                           eq_refl eq_refl))
             Hc Sample.booking1 Hin eq_refl).
  - apply (proj2 (proj2 (getBookingById_access Sample.bookingId1 "u-badr" Sample.db1
                           eq_refl eq_refl))).
    intros bk [<- | []]. reflexivity.
Defined.
Lemma first_error_none_numbered db vs :
  first_error db vs = None ->
  map Some (map seatNumber (flat_map seat_row vs)) = map val_seatNumber vs
  /\ map passengerName (flat_map seat_row vs) = map val_passengerName vs.
Proof.
  intros H. pose proof (proj1 (first_error_none db vs) H) as Hall. clear H.
  rename Hall into H.
  induction vs as [| v vs IH]; [split; reflexivity |].
  destruct (H v (or_introl eq_refl)) as (_ & Hnull & _).
  destruct IH as [IH1 IH2]; [intros x Hx; apply H; now right |].
  cbn [flat_map map]. unfold seat_row at 1 3. unfold seat_null_error in Hnull.
  destruct (val_seatNumber v) as [n |]; [| discriminate Hnull].
  cbn. rewrite IH1, IH2. split; reflexivity.
Qed.



Lemma filter_none {A} (f : A -> bool) (l : list A) :
  forallb (fun x => negb (f x)) l = true -> filter f l = [].
Proof.
  induction l as [| a l IH]; [reflexivity |]. cbn.
  intros H. apply andb_true_iff in H. destruct H as [Ha Hl].
  apply negb_true_iff in Ha. now rewrite Ha, IH.
Qed.

Lemma createBooking_returns env data seats db db' booking :
  createBooking env data (SeatsArray seats) db = (db', Returns booking) ->
  insert_booking (generatedId env) (bookingValues data (bookingReferenceOf env)) db
  = (set_bookings (fun t => t ++ [booking]) db, Returns booking)
  /\ db' = set_bookedSeats
             (fun t => t ++ flat_map seat_row (map (seatValues booking data) seats))
             (set_bookings (fun t => t ++ [booking]) db)
  /\ map Some (map seatNumber (flat_map seat_row (map (seatValues booking data) seats)))
     = map sel_seatNumber seats
  /\ map passengerName (flat_map seat_row (map (seatValues booking data) seats))
     = map sel_passengerName seats.
Proof.
  unfold createBooking, bind. intros H.
  destruct (insert_booking _ _ db) as [db1 [row | e]] eqn:Hins; [| discriminate H].
  pose proof (insert_booking_returns _ _ _ _ _ Hins) as [-> _].
  destruct seats as [| s l].
  - cbn in H. unfold ret in H. pair_eq H.
    split; [reflexivity |].
    split; [| split; reflexivity].
    destruct db. unfold set_bookedSeats, set_bookings. cbn. now rewrite app_nil_r.
  - cbn [List.length Nat.ltb Nat.leb] in H. unfold insert_bookedSeats in H.
    destruct (first_error _ _) eqn:Herr; [discriminate H |].
    unfold ret in H. pair_eq H.
    destruct (first_error_none_numbered _ _ Herr) as [H1 H2].
    split; [reflexivity | split; [reflexivity | split]].
    + rewrite H1, map_map. reflexivity.
    + rewrite H2, map_map. reflexivity.
Qed.
Lemma insert_booking_row id v db db1 row :
  insert_booking id v db = (db1, Returns row) ->
  row = {| booking_id := id;
           bookingReference := ins_bookingReference v;
           booking_userId := ins_userId v;
           booking_tripId := ins_tripId v;
           totalAmount := ins_totalAmount v;
           discountAmount := or_default (Some 0) (ins_discountAmount v);
           finalAmount := ins_finalAmount v;
           promotionId := ins_promotionId v;
           booking_status := or_default (Some "pending") (ins_status v);
           paymentGatewayId := ins_paymentGatewayId v;
           paymentMethod := ins_paymentMethod v |}.
Proof.
  unfold insert_booking. intros H. repeat break_if; try discriminate H. now pair_eq H.
Qed.



(** ** Confirming a payment twice *)




(** ** Searching trips *)

Lemma tripsWithDetails_In params db t r b :
  In (t, r, b) (tripsWithDetails params db)
  <-> In t (trips db) /\ In r (routes db) /\ In b (buses db)
      /\ routeId t = route_id r /\ busId t = bus_id b
      /\ originCity r = param_originCity params
      /\ destinationCity r = param_destinationCity params
      /\ param_date params <= departureTime t <= param_nextDay params
      /\ trip_status t = Some "scheduled".
Proof.
  unfold tripsWithDetails. rewrite in_flat_map. split.
  - intros [t' [Ht H]]. apply in_flat_map in H. destruct H as [r' [Hr H]].
    apply in_flat_map in H. destruct H as [b' [Hb H]].
    break_if; [| destruct H]. destruct H as [H | []]. pair_eq H.
    split_andb. rewrite !String.eqb_eq, ?Z.leb_le in *.
    destruct (trip_status t) as [st |]; [| discriminate].
    cbn [eqb_opt] in *. rewrite String.eqb_eq in *. subst st. tauto.
  - intros (Ht & Hr & Hb & E1 & E2 & E3 & E4 & [E5 E6] & E7).
    exists t. split; [assumption |]. apply in_flat_map. exists r. split; [assumption |].
    apply in_flat_map. exists b. split; [assumption |].
    apply Z.leb_le in E5, E6.
    rewrite E1, E2, E3, E4, E5, E6, E7, !String.eqb_refl. cbn. now left.
Qed.

Lemma searchTrips_In params db s :
  In s (searchTrips params db)
  <-> In (summary_trip s, summary_route s, summary_bus s) (tripsWithDetails params db)
      /\ availableSeats s
         = capacity (summary_bus s) - bookedCount db (trip_id (summary_trip s)).
Proof.
  unfold searchTrips. rewrite in_map_iff. split.
  - intros [[[t r] b] [<- Hin]]. cbn. now split.
  - intros [Hin Hav]. exists (summary_trip s, summary_route s, summary_bus s).
    split; [| assumption]. destruct s. cbn in *. now rewrite Hav.
Qed.

Lemma joined_trip db t :
  Integrity.consistent db = true -> In t (trips db) ->
  exists r b, In r (routes db) /\ In b (buses db)
              /\ routeId t = route_id r /\ busId t = bus_id b.
Proof.
  intros Hc Ht. consistent_parts Hc.
  match goal with
  | Htr : forallb _ (trips db) = true |- _ =>
      rewrite forallb_forall in Htr; specialize (Htr t Ht)
  end.
  split_andb.
  match goal with
  | Hk : has_key (routeId t) _ = true |- _ =>
      apply has_key_In, in_map_iff in Hk; destruct Hk as [r [Hr Hrin]]
  end.
  match goal with
  | Hk : has_key (busId t) _ = true |- _ =>
      apply has_key_In, in_map_iff in Hk; destruct Hk as [b [Hb Hbin]]
  end.
  exists r, b. repeat split; congruence.
Qed.

(** X8.  [searchTrips] returns only stored trips that are scheduled, run on
    a route with the origin and destination asked for, and depart from the
    given instant up to and including the same local time on the next
    calendar day; with each trip it returns the route and the bus the trip
    refers to.  In a well-formed store it returns every such trip.  Both
    ends of the window are included, so a trip departing exactly at the end
    of one day's window is found by the search for that day and by the
    search for the next. *)
Theorem searchTrips_results (params : SearchParams) (db : Database) :
  (forall s, In s (searchTrips params db) ->
             In (summary_trip s) (trips db)
             /\ In (summary_route s) (routes db)
             /\ In (summary_bus s) (buses db)
             /\ route_id (summary_route s) = routeId (summary_trip s)
             /\ bus_id (summary_bus s) = busId (summary_trip s)
             /\ trip_status (summary_trip s) = Some "scheduled"
             /\ originCity (summary_route s) = param_originCity params
             /\ destinationCity (summary_route s) = param_destinationCity params
             /\ param_date params <= departureTime (summary_trip s)
                <= param_nextDay params)
  /\ (Integrity.consistent db = true ->
      forall t r,
        In t (trips db) -> In r (routes db) -> routeId t = route_id r ->
        trip_status t = Some "scheduled" ->
        originCity r = param_originCity params ->
        destinationCity r = param_destinationCity params ->
        (param_date params <= departureTime t <= param_nextDay params
         -> exists s, In s (searchTrips params db) /\ summary_trip s = t)
        /\ (departureTime t = param_nextDay params
            -> param_date params <= param_nextDay params
            -> (exists s, In s (searchTrips params db) /\ summary_trip s = t)
               /\ forall next,
                    param_nextDay params <= next ->
                    exists s', In s' (searchTrips
                                        {| param_originCity := param_originCity params;
                                           param_destinationCity :=
                                             param_destinationCity params;
                                           param_date := param_nextDay params;
                                           param_nextDay := next |} db)
                               /\ summary_trip s' = t)).
Proof.
  split.
  - intros s Hs. apply searchTrips_In in Hs. destruct Hs as [Hin _].
    apply tripsWithDetails_In in Hin. intuition congruence.
  - intros Hc t r Ht Hr Hroute Hst Ho Hd.
    destruct (joined_trip db t Hc Ht) as (r' & b & Hr' & Hb & Hr'id & Hbid).
    assert (r' = r).
    { consistent_parts Hc.
      apply (distinct_same_key route_id (routes db)); try assumption. congruence. }
    subst r'.
    assert (Hfind : forall p,
               param_originCity p = param_originCity params ->
               param_destinationCity p = param_destinationCity params ->
               param_date p <= departureTime t <= param_nextDay p ->
               exists s, In s (searchTrips p db) /\ summary_trip s = t).
    { intros p Hpo Hpd Hwin.
      exists {| summary_trip := t; summary_route := r; summary_bus := b;
                availableSeats := capacity b - bookedCount db (trip_id t) |}.
      split; [| reflexivity]. apply searchTrips_In. cbn. split; [| reflexivity].
      apply tripsWithDetails_In. rewrite Hpo, Hpd. tauto. }
    split.
    + intros Hwin. now apply Hfind.
    + intros Hdep Hle. split.
      * apply Hfind; try reflexivity. lia.
      * intros next Hnext.
        apply Hfind;
          cbn [param_originCity param_destinationCity param_date param_nextDay];
          try reflexivity. lia.
Qed.

Lemma searchTrips_results_witness :
  Integrity.consistent Sample.db0 = true
  /\ exists s, In s (searchTrips Sample.searchMorning Sample.db0)
               /\ summary_trip s = Sample.morning.
Proof.
  assert (Hc : Integrity.consistent Sample.db0 = true) by reflexivity.
  split; [exact Hc |].
  destruct (proj2 (searchTrips_results Sample.searchMorning Sample.db0) Hc
              Sample.morning Sample.riyadh_jeddah
              (or_introl eq_refl) (or_introl eq_refl) eq_refl eq_refl eq_refl eq_refl)
    as [Hfound _].
  apply Hfound.
  change (1755907200000 <= 1755936000000 <= 1755993600000). lia.
Defined.
(** ** Booking and availability *)

Lemma new_seat_row_trip row data s tripId :
  filter (fun x => String.eqb (seat_tripId x) tripId) (seat_row (seatValues row data s))
  = if String.eqb (ins_tripId data) tripId then seat_row (seatValues row data s) else [].
Proof.
  unfold seat_row, seatValues. cbn [val_seatNumber val_tripId].
  destruct (sel_seatNumber s); cbn; destruct (String.eqb (ins_tripId data) tripId);
    reflexivity.
Qed.

Lemma new_seat_rows_trip row data seats tripId :
  filter (fun s => String.eqb (seat_tripId s) tripId)
         (flat_map seat_row (map (seatValues row data) seats))
  = if String.eqb (ins_tripId data) tripId
    then flat_map seat_row (map (seatValues row data) seats)
    else [].
Proof.
  induction seats as [| s seats IH].
  - cbn. now destruct (String.eqb _ _).
  - cbn [map flat_map]. rewrite filter_app, IH, new_seat_row_trip.
    destruct (String.eqb (ins_tripId data) tripId); reflexivity.
Qed.



(** ** Promotions, users, routes and buses: insert, then look up *)

Lemma filter_key_absent {A} (key : A -> string) (g : A -> bool) (k : string) (l : list A) :
  has_key k (map key l) = false ->
  filter (fun x => (String.eqb (key x) k && g x)%bool) l = [].
Proof.
  rewrite has_key_false. intros Hk. apply filter_none. apply forallb_forall.
  intros x Hx. apply negb_true_iff.
  destruct (String.eqb (key x) k) eqn:E; [| reflexivity].
  apply String.eqb_eq in E. exfalso. apply Hk. rewrite <- E. now apply in_map.
Qed.

(** X10.  A promotion that [createPromotion] returns is the one
    [validatePromoCode] finds under its code at every instant of its window,
    provided it is active (it is when [isActive] was left out); outside the
    window, or inactive, the code validates to [null].  A second promotion
    with a code already stored is refused and the store is unchanged. *)
Theorem createPromotion_then_validate id promotionData db db' promotion :
  createPromotion id promotionData db = (db', Returns promotion) ->
  promoCode promotion = ip_promoCode promotionData
  /\ promotion_isActive promotion = or_default (Some true) (ip_isActive promotionData)
  /\ (forall now,
         validatePromoCode (ip_promoCode promotionData) now db'
         = if (match promotion_isActive promotion with Some true => true | _ => false end
               && (ip_startDate promotionData <=? now)
               && (now <=? ip_endDate promotionData))%bool
           then Some promotion else None)
  /\ (forall id2 again,
         ip_promoCode again = ip_promoCode promotionData ->
         exists e, createPromotion id2 again db' = (db', Throws e)).
Proof.
  unfold createPromotion, insert_promotion. intros H.
  repeat break_if; try discriminate H. pair_eq H.
  cbn [promoCode promotion_isActive].
  split; [reflexivity | split; [reflexivity | split]].
  - intros now. unfold validatePromoCode. cbn [promotions set_promotions].
    rewrite filter_app.
    match goal with
    | |- context [filter ?f (promotions db)] =>
        replace (filter f (promotions db)) with (@nil Promotion)
    end.
    2:{ symmetry.
        erewrite filter_ext;
          [apply (filter_key_absent promoCode
                    (fun p => (match promotion_isActive p with Some true => true | _ => false end
                               && (startDate p <=? now) && (now <=? endDate p))%bool)
                    (ip_promoCode promotionData)); assumption |].
        intros p. cbn. now rewrite !andb_assoc. }
    cbn [app filter promoCode promotion_isActive startDate endDate].
    rewrite String.eqb_refl. cbn [andb].
    destruct (match or_default (Some true) (ip_isActive promotionData) with
              | Some true => true | _ => false end
              && (ip_startDate promotionData <=? now)
              && (now <=? ip_endDate promotionData))%bool; reflexivity.
  - intros id2 again Hcode. cbn [promotions set_promotions].
    match goal with
    | |- context [has_key (ip_promoCode again) ?l] =>
        assert (Hdup : has_key (ip_promoCode again) l = true)
    end.
    { rewrite map_app, has_key_app. cbn [map promoCode]. rewrite Hcode.
      replace (has_key (ip_promoCode promotionData) [ip_promoCode promotionData]) with true
        by (cbn; now rewrite String.eqb_refl).
      apply orb_true_r. }
    repeat break_if; try (eexists; reflexivity); congruence.
Qed.

Lemma createPromotion_then_validate_witness :
  exists promotion db',
    createPromotion Sample.promotion9 Sample.surchargeData Sample.db0 = (db', Returns promotion)
    /\ validatePromoCode "MINUS9" Sample.now db' = Some promotion.
Proof.
  destruct (createPromotion Sample.promotion9 Sample.surchargeData Sample.db0)
    as [db' r] eqn:Hcall.
  assert (Hr : exists p, r = Returns p).
  { vm_compute in Hcall. pair_eq Hcall. eexists. reflexivity. }
  destruct Hr as [p ->]. exists p, db'. split; [reflexivity |].
  destruct (createPromotion_then_validate _ _ _ _ _ Hcall) as (_ & Hact & Hval & _).
  change (validatePromoCode (ip_promoCode Sample.surchargeData) Sample.now db' = Some p).
  rewrite (Hval Sample.now), Hact. reflexivity.
Defined.
Lemma find_filter {A} (f : A -> bool) (l : list A) :
  find f l = hd_error (filter f l).
Proof.
  induction l as [| a l IH]; [reflexivity |]. cbn. destruct (f a); [reflexivity | exact IH].
Qed.

Lemma find_app {A} (f : A -> bool) (l1 l2 : list A) :
  find f (l1 ++ l2) = match find f l1 with Some x => Some x | None => find f l2 end.
Proof.
  induction l1 as [| a l IH]; [reflexivity |]. cbn. destruct (f a); [reflexivity | exact IH].
Qed.

Lemma find_map {A} (f : A -> bool) (g : A -> A) (l : list A) :
  (forall x, f (g x) = f x) ->
  find f (map g l) = option_map g (find f l).
Proof.
  intros Hfg. induction l as [| a l IH]; [reflexivity |]. cbn.
  rewrite Hfg. destruct (f a); [reflexivity | exact IH].
Qed.

Lemma find_absent (id : string) (l : list User) :
  has_key id (map user_id l) = false ->
  find (fun u => String.eqb (user_id u) id) l = None.
Proof.
  intros H. induction l as [| a l IH]; [reflexivity |]. cbn in *.
  rewrite String.eqb_sym. destruct (String.eqb id (user_id a)); [discriminate H |].
  now apply IH.
Qed.

(** X11.  A user that [upsertUser] returns is the one [getUser] finds under
    that id afterwards.  For an id not yet stored, a property given a value
    has that value and a property left out or given as null is NULL.  For a
    stored id, each property given replaces the stored value, a null
    included, and each property left out keeps it.  No other user's record
    changes. *)
Theorem upsertUser_then_getUser userData db db' u :
  upsertUser userData db = (db', Returns u) ->
  getUser (up_id userData) db' = Some u
  /\ user_id u = up_id userData
  /\ (getUser (up_id userData) db = None ->
      email u = or_default None (up_email userData)
      /\ firstName u = or_default None (up_firstName userData)
      /\ lastName u = or_default None (up_lastName userData))
  /\ (forall old, getUser (up_id userData) db = Some old ->
                  email u = or_default (email old) (up_email userData)
                  /\ firstName u = or_default (firstName old) (up_firstName userData)
                  /\ lastName u = or_default (lastName old) (up_lastName userData))
  /\ (forall id, id <> up_id userData -> getUser id db' = getUser id db).
Proof.
  unfold upsertUser, upsert_user, getUser. intros H.
  destruct (has_nul (up_id userData)); [discriminate H |].
  destruct (opt_has_nul (or_default None (up_email userData))); [discriminate H |].
  destruct (opt_has_nul (or_default None (up_firstName userData))); [discriminate H |].
  destruct (opt_has_nul (or_default None (up_lastName userData))); [discriminate H |].
  destruct (has_key (up_id userData) (map user_id (users db))) eqn:Hkey.
  - set (merge := fun u0 : User => if String.eqb (user_id u0) (up_id userData) then _ else u0) in *.
    assert (Hid : forall x, user_id (merge x) = user_id x).
    { intros x. unfold merge. destruct (String.eqb (user_id x) (up_id userData)); reflexivity. }
    destruct (email_taken _ _ db); [discriminate H |].
    destruct (filter _ (map merge (users db))) as [| u0 rest] eqn:Hf; [discriminate H |].
    pair_eq H. cbn [users set_users].
    assert (Hfind : find (fun u0 => String.eqb (user_id u0) (up_id userData))
                         (map merge (users db)) = Some u).
    { rewrite find_filter, Hf. reflexivity. }
    rewrite find_map in Hfind by (intros x; now rewrite Hid).
    split; [| split; [| split; [| split]]].
    + rewrite find_map by (intros x; now rewrite Hid). exact Hfind.
    + destruct (find _ (users db)) as [old |] eqn:Hold; [| discriminate Hfind].
      injection Hfind as <-. rewrite Hid.
      apply find_some in Hold. destruct Hold as [_ Hold]. now apply String.eqb_eq in Hold.
    + intros Hnone. rewrite Hnone in Hfind. discriminate Hfind.
    + intros old Hold. rewrite Hold in Hfind. injection Hfind as <-.
      apply find_some in Hold. destruct Hold as [_ Hold].
      unfold merge. rewrite Hold. repeat split; reflexivity.
    + intros id Hne. rewrite find_map by (intros x; now rewrite Hid).
      destruct (find (fun u0 => String.eqb (user_id u0) id) (users db)) as [x |] eqn:Hx;
        [| reflexivity].
      apply find_some in Hx. destruct Hx as [_ Hx]. apply String.eqb_eq in Hx.
      cbn. unfold merge.
      destruct (String.eqb (user_id x) (up_id userData)) eqn:E; [| reflexivity].
      apply String.eqb_eq in E. congruence.
  - destruct (email_taken _ _ db); [discriminate H |]. pair_eq H. cbn [users set_users].
    pose proof (find_absent _ _ Hkey) as Habs.
    split; [| split; [| split; [| split]]].
    + rewrite find_app, Habs. cbn. now rewrite String.eqb_refl.
    + reflexivity.
    + intros _. repeat split; reflexivity.
    + intros old Hold. rewrite Habs in Hold. discriminate Hold.
    + intros id Hne. rewrite find_app.
      destruct (find (fun u0 => String.eqb (user_id u0) id) (users db)); [reflexivity |]. cbn.
      destruct (String.eqb (up_id userData) id) eqn:E; [| reflexivity].
      apply String.eqb_eq in E. congruence.
Qed.

Lemma upsertUser_then_getUser_witness :
  exists u db',
    upsertUser {| up_id := "u-alice"; up_email := None;
                  up_firstName := Some None; up_lastName := Some (Some "Saleh") |}
               Sample.db0
    = (db', Returns u)
    /\ getUser "u-alice" db' = Some u
    /\ email u = Some "alice@example.com"
    /\ firstName u = None
    /\ lastName u = Some "Saleh".
Proof.
  destruct (upsertUser {| up_id := "u-alice"; up_email := None;
                          up_firstName := Some None; up_lastName := Some (Some "Saleh") |}
                       Sample.db0)
    as [db' r] eqn:Hcall.
  assert (Hr : exists p, r = Returns p).
  { vm_compute in Hcall. pair_eq Hcall. eexists. reflexivity. }
  destruct Hr as [u ->]. exists u, db'. split; [reflexivity |].
  destruct (upsertUser_then_getUser _ _ _ _ Hcall) as (Hget & _ & _ & Hold & _).
  split; [exact Hget |].
  destruct (Hold Sample.alice eq_refl) as (He & Hf & Hl).
  split; [exact He | split; [exact Hf | exact Hl]].
Defined.



(** X13.  [getRoutes] lists exactly the stored routes whose [isActive] is
    true.  A route that [createRoute] returns is active when [isActive] was
    left out, and is listed afterwards exactly when it is active; the routes
    listed before stay listed. *)
Theorem createRoute_then_getRoutes id routeData db db' route :
  createRoute id routeData db = (db', Returns route) ->
  route_isActive route = or_default (Some true) (ir_isActive routeData)
  /\ (In route (getRoutes db') <-> route_isActive route = Some true)
  /\ (forall r, In r (getRoutes db') <-> In r (routes db') /\ route_isActive r = Some true)
  /\ (forall r, In r (getRoutes db) -> In r (getRoutes db')).
Proof.
  unfold createRoute, insert_route. intros H.
  repeat break_if; try discriminate H. pair_eq H.
  assert (Hlist : forall d r, In r (getRoutes d) <-> In r (routes d) /\ route_isActive r = Some true).
  { intros d r. unfold getRoutes. rewrite filter_In.
    destruct (route_isActive r) as [[] |]; intuition congruence. }
  cbn [route_isActive].
  split; [reflexivity | split; [| split]].
  - rewrite Hlist. cbn [routes set_routes route_isActive]. split; [tauto |].
    intros Hact. split; [| exact Hact]. apply in_or_app. right. now left.
  - intros r. apply Hlist.
  - intros r Hr. apply Hlist in Hr. apply Hlist. cbn [routes set_routes].
    split; [apply in_or_app; left |]; tauto.
Qed.

Lemma createRoute_then_getRoutes_witness :
  exists route db',
    createRoute Sample.bookingId9
      {| ir_originCity := "makkah"; ir_destinationCity := "madinah";
         ir_estimatedDurationMinutes := Some 240; ir_isActive := None |} Sample.db0
    = (db', Returns route)
    /\ In route (getRoutes db').
Proof.
  destruct (createRoute Sample.bookingId9
              {| ir_originCity := "makkah"; ir_destinationCity := "madinah";
                 ir_estimatedDurationMinutes := Some 240; ir_isActive := None |} Sample.db0)
    as [db' res] eqn:Hcall.
  assert (Hr : exists t, res = Returns t).
  { vm_compute in Hcall. pair_eq Hcall. eexists. reflexivity. }
  destruct Hr as [route ->]. exists route, db'. split; [reflexivity |].
  destruct (createRoute_then_getRoutes _ _ _ _ _ Hcall) as (Hact & Hin & _).
  apply Hin. rewrite Hact. reflexivity.
Defined.
(** ** The routes *)

Lemma matches_test (ps qs : list (ascii -> bool)) (s : string) :
  Forall2 (fun p q => forall c, p c = true -> q c = true) ps qs ->
  Reference.matches ps s = true -> Routes.test qs s = true.
Proof.
  intros H. revert s. induction H as [| p q ps qs Hpq _ IH]; intros s Hs.
  - destruct s; [reflexivity | discriminate Hs].
  - destruct s as [| c s]; [discriminate Hs |]. cbn in *.
    apply andb_true_iff in Hs. destruct Hs as [Hc Hs].
    now rewrite (Hpq c Hc), (IH s Hs).
Qed.

Lemma lower_hex_is_hex (c : ascii) : Js.is_lower_hex c = true -> Routes.is_hex c = true.
Proof. unfold Routes.is_hex. now intros ->. Qed.

Lemma four_is_hex (c : ascii) : Reference.is_four c = true -> Routes.is_hex c = true.
Proof.
  unfold Reference.is_four. intros H. apply Ascii.eqb_eq in H. now subst.
Qed.

Lemma variant_is_hex (c : ascii) : Reference.is_variant c = true -> Routes.is_hex c = true.
Proof.
  unfold Reference.is_variant. rewrite !orb_true_iff, !Ascii.eqb_eq.
  intros [[[-> | ->] | ->] | ->]; reflexivity.
Qed.

Lemma dash_is_hyphen (c : ascii) : Reference.is_dash c = true -> Routes.is_hyphen c = true.
Proof. intros H. exact H. Qed.

(** A random UUID has the form that the schema asks of an identifier. *)
Lemma random_uuid_passes (s : string) :
  Reference.is_random_uuid s = true -> Routes.test Routes.uuidRegex s = true.
Proof.
  apply matches_test. unfold Reference.random_uuid_pattern, Routes.uuidRegex.
  cbn [repeat app].
  repeat (constructor;
          [first [ exact lower_hex_is_hex | exact four_is_hex | exact variant_is_hex
                 | exact dash_is_hyphen ] |]).
  constructor.
Qed.

(** X14.  [POST /api/bookings] answers 400, and writes nothing, when the
    body lacks one of [bookingReference], [tripId], [totalAmount],
    [finalAmount], or its [tripId] or [promotionId] does not have the form
    of a UUID; it does not answer 400 when the four are present and the
    identifiers are random UUIDs, as the database generates them.  For a
    body whose [tripId] is an identifier as the database prints it, a
    booking the route answers with is stored, belongs to the authenticated
    user, is on the trip named in the body, carries the generated reference,
    not the one in the body, and is confirmed. *)
Theorem post_api_bookings_responses env userId body db :
  (Routes.body_bookingReference body = None \/ Routes.body_tripId body = None
   \/ Routes.body_totalAmount body = None \/ Routes.body_finalAmount body = None
   \/ (exists t, Routes.body_tripId body = Some t
                 /\ Routes.test Routes.uuidRegex t = false)
   \/ (exists p, Routes.body_promotionId body = Some p
                 /\ Routes.test Routes.uuidRegex p = false)
   -> Routes.post_api_bookings env userId body db
      = (db, Routes.Status 400 "Invalid booking data"))
  /\ (forall reference t total final,
         Routes.body_bookingReference body = Some reference ->
         Routes.body_tripId body = Some t ->
         Routes.body_totalAmount body = Some total ->
         Routes.body_finalAmount body = Some final ->
         Reference.is_random_uuid t = true ->
         Reference.opt_is_random_uuid (Routes.body_promotionId body) = true ->
         forall m, snd (Routes.post_api_bookings env userId body db)
                   <> Routes.Status 400 m)
  /\ (forall m, snd (Routes.post_api_bookings env userId body db) = Routes.Status 400 m ->
                fst (Routes.post_api_bookings env userId body db) = db)
  /\ (forall t booking,
         Routes.body_tripId body = Some t ->
         Reference.is_uuid t = true ->
         snd (Routes.post_api_bookings env userId body db) = Routes.Json booking ->
         In booking (bookings (fst (Routes.post_api_bookings env userId body db)))
         /\ booking_userId booking = userId
         /\ booking_tripId booking = t
         /\ bookingReference booking = bookingReferenceOf env
         /\ booking_status booking = Some "confirmed").
Proof.
  unfold Routes.post_api_bookings.
  destruct (Routes.insertBookingSchema_parse body userId) as [data |] eqn:Hparse.
  - assert (Hfields : exists reference t total final,
               Routes.body_bookingReference body = Some reference
               /\ Routes.body_tripId body = Some t
               /\ Routes.body_totalAmount body = Some total
               /\ Routes.body_finalAmount body = Some final
               /\ Routes.test Routes.uuidRegex t = true
               /\ Routes.opt_test Routes.uuidRegex (Routes.body_promotionId body) = true
               /\ ins_userId data = userId /\ ins_tripId data = t).
    { unfold Routes.insertBookingSchema_parse in Hparse.
      destruct (Routes.body_bookingReference body) as [reference |]; [| discriminate Hparse].
      destruct (Routes.body_tripId body) as [t |]; [| discriminate Hparse].
      destruct (Routes.body_totalAmount body) as [total |]; [| discriminate Hparse].
      destruct (Routes.body_finalAmount body) as [final |]; [| discriminate Hparse].
      destruct (Routes.test Routes.uuidRegex t) eqn:Ht; [| discriminate Hparse].
      destruct (Routes.opt_test Routes.uuidRegex (Routes.body_promotionId body)) eqn:Hp;
        [| discriminate Hparse].
      cbn [andb] in Hparse. injection Hparse as <-.
      exists reference, t, total, final. repeat split; try reflexivity; assumption. }
    destruct Hfields as (reference & t0 & total & final & Hr & Ht & Hto & Hf & Htest & Hptest
                         & Huser & Htrip).
    destruct (createBooking env data (Routes.body_selectedSeats body) db)
      as [db' [b | e]] eqn:Hcall; cbn [fst snd].
    + split; [| split; [intros; discriminate | split; [intros; discriminate |]]].
      { intros [H | [H | [H | [H | [[t [Hbt Hbad]] | [q [Hq Hbad]]]]]]]; try congruence.
        rewrite Hq in Hptest. cbn [Routes.opt_test] in Hptest. congruence. }
      intros t booking Hbt _ Hb. injection Hb as <-.
      assert (t = t0) by congruence. subst t0.
      destruct (createBooking_inv _ _ _ _ _ _ Hcall) as [[_ [e He]] | [row [Hins Hrest]]];
        [discriminate He |].
      pose proof (insert_booking_row _ _ _ _ _ Hins) as Hrow. cbn in Hrow.
      assert (Hb : b = row /\ In row (bookings db')).
      { destruct Hrest as [[-> [[e He] | [Hrr _]]] | [l (_ & Hrr & ->)]].
        - discriminate He.
        - injection Hrr as ->. split; [reflexivity |]. cbn. apply in_or_app. right. now left.
        - injection Hrr as ->. split; [reflexivity |]. cbn. apply in_or_app. right. now left. }
      destruct Hb as [-> Hin]. split; [exact Hin |]. rewrite Hrow. cbn.
      repeat split; first [assumption | reflexivity | congruence].
    + split; [| split; [intros; discriminate | split; [intros; discriminate |]]].
      { intros [H | [H | [H | [H | [[t [Hbt Hbad]] | [q [Hq Hbad]]]]]]]; try congruence.
        rewrite Hq in Hptest. cbn [Routes.opt_test] in Hptest. congruence. }
      intros t booking _ _ Hb. discriminate Hb.
  - cbn [fst snd]. split; [reflexivity |].
    split; [| split; [reflexivity | intros t booking _ _ Hb; discriminate Hb]].
    intros reference t total final Hr Ht Hto Hf Huuid Hpromo m _.
    unfold Routes.insertBookingSchema_parse in Hparse.
    rewrite Hr, Ht, Hto, Hf, (random_uuid_passes t Huuid) in Hparse.
    destruct (Routes.body_promotionId body) as [q |];
      cbn [Reference.opt_is_random_uuid Routes.opt_test andb] in Hpromo, Hparse.
    + rewrite (random_uuid_passes q Hpromo) in Hparse. discriminate Hparse.
    + discriminate Hparse.
Qed.

Lemma post_api_bookings_responses_witness :
  snd (Routes.post_api_bookings Sample.env1 "u-alice" Sample.bodyA1 Sample.db0)
  = Routes.Json Sample.booking1
  /\ booking_userId Sample.booking1 = "u-alice"
  /\ booking_tripId Sample.booking1 = Sample.trip1
  /\ bookingReference Sample.booking1 = bookingReferenceOf Sample.env1.
Proof.
  assert (H : snd (Routes.post_api_bookings Sample.env1 "u-alice" Sample.bodyA1 Sample.db0)
              = Routes.Json Sample.booking1) by reflexivity.
  split; [exact H |].
  destruct (proj2 (proj2 (proj2 (post_api_bookings_responses Sample.env1 "u-alice"
                                   Sample.bodyA1 Sample.db0)))
              Sample.trip1 Sample.booking1 eq_refl eq_refl H)
    as (_ & Hu & Ht & Href & _).
  split; [exact Hu | split; [exact Ht | exact Href]].
Defined.

(** X15.  [POST /api/confirm-payment] writes only for a payment intent that
    Stripe reports as succeeded: with any other status it answers 400 and
    the store is as before.  Whatever it answers, the seat rows and the
    bookings of every other user are as before; and when it answers 500 the
    whole store is as before. *)
Theorem post_api_confirm_payment_guard userId bookingId paymentIntentId status db :
  (status <> "succeeded" ->
   Routes.post_api_confirm_payment userId bookingId paymentIntentId status db
   = (db, Routes.Status 400 "Payment not successful"))
  /\ bookedSeats (fst (Routes.post_api_confirm_payment userId bookingId paymentIntentId
                         status db))
     = bookedSeats db
  /\ (forall b, In b (bookings db) -> booking_userId b <> userId ->
                In b (bookings (fst (Routes.post_api_confirm_payment userId bookingId
                                       paymentIntentId status db))))
  /\ (forall m, snd (Routes.post_api_confirm_payment userId bookingId paymentIntentId
                       status db) = Routes.Status 500 m ->
                fst (Routes.post_api_confirm_payment userId bookingId paymentIntentId
                       status db) = db).
Proof.
  unfold Routes.post_api_confirm_payment.
  destruct (String.eqb status "succeeded") eqn:Hst.
  - pose proof (confirmBookingPayment_store bookingId userId paymentIntentId db) as Hstore.
    destruct (confirmBookingPayment bookingId userId paymentIntentId db) as [db' [r | e]] eqn:Hcall;
      cbn [fst snd] in *.
    + subst db'.
      split; [intros Hne; apply String.eqb_eq in Hst; contradiction |].
      destruct (update_payment_store bookingId userId paymentIntentId db)
        as [-> | (_ & _ & ->)].
      { split; [reflexivity |]. split; [intros b Hb _; exact Hb | discriminate]. }
      cbn [bookings bookedSeats set_bookings].
      split; [reflexivity |]. split; [| discriminate].
      intros b Hb Hu. apply in_map_iff. exists b. split; [| exact Hb].
      unfold owned_by. apply String.eqb_neq in Hu. now rewrite Hu, andb_false_r.
    + clear Hstore. assert (Hsame : db' = db).
      { unfold confirmBookingPayment, bind, update_payment, select, ret, throw in Hcall.
        destruct (has_nul paymentIntentId); [now pair_eq Hcall |].
        destruct (has_nul userId); [now pair_eq Hcall |].
        destruct (filter (owned_by bookingId userId) (bookings db)) eqn:Hf;
          cbn [map] in Hcall; [| discriminate Hcall].
        pair_eq Hcall. apply set_bookings_same. intros b Hb.
        now rewrite (filter_nil_none _ _ Hf b Hb). }
      subst db'.
      split; [intros Hne; apply String.eqb_eq in Hst; contradiction |].
      split; [reflexivity |]. split; [intros b Hb _; exact Hb | intros; reflexivity].
  - cbn [fst snd]. split; [reflexivity |]. split; [reflexivity |].
    split; [intros b Hb _; exact Hb | intros; reflexivity].
Qed.

Lemma post_api_confirm_payment_guard_witness :
  Routes.post_api_confirm_payment "u-alice" Sample.bookingId1 "pi_1" "requires_payment_method"
    Sample.db1
  = (Sample.db1, Routes.Status 400 "Payment not successful").
Proof.
  apply (proj1 (post_api_confirm_payment_guard "u-alice" Sample.bookingId1 "pi_1"
                  "requires_payment_method" Sample.db1)).
  discriminate.
Defined.
(** ** The seat map *)

Lemma rowsFrom_length (first count : nat) :
  List.length (SeatMap.rowsFrom first count) = (4 * count)%nat.
Proof.
  revert first. induction count as [| k IH]; intros first; [reflexivity |].
  cbn [SeatMap.rowsFrom]. rewrite length_app, IH. cbn. lia.
Qed.

Lemma well_laid_up_to_104 (capacity : Z) :
  0 <= capacity <= 104 -> SeatMap.well_laid capacity = true.
Proof.
  apply (range_check SeatMap.well_laid). vm_compute. reflexivity.
Qed.

Lemma generateSeatLayout_nonpositive (capacity : Z) :
  capacity <= 0 -> SeatMap.generateSeatLayout capacity = [].
Proof.
  intros H. unfold SeatMap.generateSeatLayout, SeatMap.ceil_quarter.
  assert (Hrows : - (- capacity / 4) <= 0).
  { assert (0 <= - capacity / 4) by (apply Z.div_pos; lia). lia. }
  replace (Z.to_nat (- (- capacity / 4))) with 0%nat by lia.
  cbn [SeatMap.rowsFrom]. unfold SeatMap.slice0. destruct (capacity <? 0); apply firstn_nil.
Qed.

(** The seat count holds for every capacity. *)
Lemma generateSeatLayout_length (capacity : Z) :
  List.length (SeatMap.generateSeatLayout capacity) = Z.to_nat capacity.
Proof.
  destruct (Z_le_gt_dec capacity 0) as [Hneg | Hpos].
  - rewrite generateSeatLayout_nonpositive by assumption. cbn. lia.
  - unfold SeatMap.generateSeatLayout, SeatMap.slice0.
    destruct (capacity <? 0) eqn:E; [lia |].
    rewrite length_firstn, rowsFrom_length. unfold SeatMap.ceil_quarter.
    pose proof (Z.div_mod (- capacity) 4 ltac:(lia)) as Hdm.
    pose proof (Z.mod_pos_bound (- capacity) 4 ltac:(lia)) as Hb.
    lia.
Qed.

(** X16.  The seat map of a bus.  [generateSeatLayout] lists exactly
    [capacity] seats whatever the capacity (none for a capacity of zero or
    less); up to 104 seats, the seat at index [i] is labelled with the row
    letter [A + i / 4] and the place [1 + i mod 4], so that the labels are
    pairwise distinct and each is a letter from A to Z followed by a digit from
    1 to 4.  With 105 seats the row letter runs past Z. *)
Theorem generateSeatLayout_seats (capacity : Z) :
  List.length (SeatMap.generateSeatLayout capacity) = Z.to_nat capacity
  /\ (capacity <= 104 ->
      SeatMap.generateSeatLayout capacity
      = map SeatMap.seatAt (seq 0 (Z.to_nat capacity))
      /\ NoDup (SeatMap.generateSeatLayout capacity)
      /\ Forall (fun s => SeatMap.is_seat_label s = true)
                (SeatMap.generateSeatLayout capacity))
  /\ forallb SeatMap.is_seat_label (SeatMap.generateSeatLayout 105) = false.
Proof.
  split; [apply generateSeatLayout_length |].
  split; [| vm_compute; reflexivity].
  intros Hcap.
  assert (Heq : SeatMap.generateSeatLayout capacity
                = map SeatMap.seatAt (seq 0 (Z.to_nat capacity))
                /\ Integrity.distinct (SeatMap.generateSeatLayout capacity) = true
                /\ forallb SeatMap.is_seat_label (SeatMap.generateSeatLayout capacity) = true).
  { destruct (Z_le_gt_dec capacity 0) as [Hneg | Hpos].
    - rewrite generateSeatLayout_nonpositive by assumption.
      replace (Z.to_nat capacity) with 0%nat by lia. repeat split.
    - assert (Hok : SeatMap.well_laid capacity = true) by (apply well_laid_up_to_104; lia).
      unfold SeatMap.well_laid in Hok. split_andb.
      repeat split; try assumption.
      destruct (list_eq_dec string_dec _ _) as [E | _]; [exact E | discriminate]. }
  destruct Heq as [Hlist [Hdistinct Hlabels]].
  split; [exact Hlist | split].
  - apply distinct_NoDup. exact Hdistinct.
  - apply Forall_forall. apply forallb_forall. exact Hlabels.
Qed.

Lemma generateSeatLayout_seats_witness :
  SeatMap.generateSeatLayout 6 = ["A1"; "A2"; "A3"; "A4"; "B1"; "B2"]
  /\ NoDup (SeatMap.generateSeatLayout 6).
Proof.
  assert (Hcap : 6 <= 104) by lia.
  destruct (generateSeatLayout_seats 6) as [_ [Hseats _]].
  destruct (Hseats Hcap) as [Hlist [Hnodup _]].
  split; [rewrite Hlist; reflexivity | exact Hnodup].
Defined.


(** ** The seat-selection form *)

Section SeatForm.

Import SeatSelection.

Lemma includes_In (l : list string) (s : string) : includes l s = true <-> In s l.
Proof.
  unfold includes. rewrite existsb_exists. split.
  - intros [x [Hin Heq]]. apply String.eqb_eq in Heq. now subst.
  - intros H. exists s. split; [exact H | apply String.eqb_refl].
Qed.

Lemma includes_not_In (l : list string) (s : string) : includes l s = false <-> ~ In s l.
Proof.
  rewrite <- includes_In. destruct (includes l s); split; intros H; congruence.
Qed.

Lemma react_form trip e st occ :
  occupied st = occ /\ (forall s, In s (selectedSeats st) -> ~ In s occ) ->
  occupied (react trip e st) = occ
  /\ (forall s, In s (selectedSeats (react trip e st)) -> ~ In s occ).
Proof.
  intros [Hocc Hsel]. destruct e as [seat | p]; cbn [react].
  - unfold handleSeatClick. destruct (includes (occupied st) seat) eqn:Ho.
    + split; assumption.
    + apply includes_not_In in Ho. rewrite Hocc in Ho.
      destruct (includes (selectedSeats st) seat); cbn [selectedSeats occupied].
      * split; [exact Hocc |]. intros s Hs. apply filter_In in Hs. apply Hsel, Hs.
      * split; [exact Hocc |]. intros s [<- | []]. exact Ho.
  - cbn [onPromoSuccess selectedSeats occupied]. split; assumption.
Qed.

Lemma after_form trip events :
  forall st occ,
    occupied st = occ /\ (forall s, In s (selectedSeats st) -> ~ In s occ) ->
    occupied (after trip events st) = occ
    /\ (forall s, In s (selectedSeats (after trip events st)) -> ~ In s occ).
Proof.
  induction events as [| e r IH]; intros st occ H; cbn [after]; [exact H |].
  apply IH. now apply react_form.
Qed.

Lemma form_of_initial trip events occ :
  occupied (after trip events (initial occ)) = occ
  /\ (forall s, In s (selectedSeats (after trip events (initial occ))) -> ~ In s occ)
  /\ (List.length (selectedSeats (after trip events (initial occ))) <= 1)%nat.
Proof.
  destruct (after_form trip events (initial occ) occ) as [H1 H2].
  { split; [reflexivity |]. intros s []. }
  split; [exact H1 | split; [exact H2 |]].
  apply after_selectedSeats. cbn. lia.
Qed.

Lemma filter_out_of_single (l : list string) (s : string) :
  (List.length l <= 1)%nat -> In s l ->
  filter (fun x => negb (String.eqb x s)) l = [].
Proof.
  intros Hlen Hin. destruct l as [| a [| b l]]; [destruct Hin | | cbn in Hlen; lia].
  destruct Hin as [-> | []]. cbn. now rewrite String.eqb_refl.
Qed.

(** X17.  The seat map of the form, in every state that seat clicks and promo
    codes lead to from the form as loaded with the occupied seats [occ]: the
    occupied seats stay as loaded; a seat shows as occupied exactly when it is
    among them and as selected exactly when it is the selected seat, and no
    occupied seat is ever selected; a click on an occupied seat changes
    nothing; a click on any other seat selects it alone, or clears the
    selection if it was the selected seat. *)
Theorem seat_form_invariants (trip : Trip) (occ : list string) (events : list Event) :
  occupied (after trip events (initial occ)) = occ
  /\ (forall s, In s (selectedSeats (after trip events (initial occ))) -> ~ In s occ)
  /\ (forall s, SeatMap.getSeatStatus (after trip events (initial occ)) s = "occupied"
                <-> In s occ)
  /\ (forall s, SeatMap.getSeatStatus (after trip events (initial occ)) s = "selected"
                <-> In s (selectedSeats (after trip events (initial occ))))
  /\ (forall s, In s occ ->
                handleSeatClick s (after trip events (initial occ))
                = after trip events (initial occ))
  /\ (forall s, ~ In s occ ->
                selectedSeats (handleSeatClick s (after trip events (initial occ)))
                = if includes (selectedSeats (after trip events (initial occ))) s
                  then [] else [s]).
Proof.
  destruct (form_of_initial trip events occ) as [Hocc [Hfree Hlen]].
  remember (after trip events (initial occ)) as st eqn:Hst. clear Hst.
  split; [exact Hocc |]. split; [exact Hfree |].
  split; [| split; [| split]].
  - intros s. unfold SeatMap.getSeatStatus. rewrite Hocc.
    destruct (includes occ s) eqn:Ho.
    + apply includes_In in Ho. split; [intros _; exact Ho | reflexivity].
    + apply includes_not_In in Ho.
      split; [| intros H; contradiction].
      destruct (includes (selectedSeats st) s); discriminate.
  - intros s. unfold SeatMap.getSeatStatus. rewrite Hocc.
    destruct (includes occ s) eqn:Ho.
    + apply includes_In in Ho. split; [discriminate |].
      intros H. exfalso. exact (Hfree s H Ho).
    + destruct (includes (selectedSeats st) s) eqn:Hs.
      * apply includes_In in Hs. split; [intros _; exact Hs | reflexivity].
      * apply includes_not_In in Hs. split; [discriminate | intros H; contradiction].
  - intros s Hs. unfold handleSeatClick. rewrite Hocc.
    apply includes_In in Hs. now rewrite Hs.
  - intros s Hs. unfold handleSeatClick. rewrite Hocc.
    apply includes_not_In in Hs. rewrite Hs.
    destruct (includes (selectedSeats st) s) eqn:Hsel; cbn [selectedSeats]; [| reflexivity].
    apply filter_out_of_single; [exact Hlen | now apply includes_In].
Qed.

(** X18.  A seat booked on the server is refused by every form loaded
    afterwards.  Once [createBooking] has returned for a request with seat
    [seat] on a trip, a form for that trip that fetches the occupied seats
    from the store, then or after any further storage calls, shows the seat
    as occupied, never selects it whatever is clicked, and never sends a
    booking for it. *)
Theorem booked_seat_refused_by_form
        (env : Ambient) (data : InsertBooking) (seats : list Schema.SeatSelection)
        (db db' : Database) (booking : Booking) (calls : list Call)
        (trip : Trip) (seat : string) (events : list Event) :
  createBooking env data (SeatsArray seats) db = (db', Returns booking) ->
  In (Some seat) (map sel_seatNumber seats) ->
  trip_id trip = ins_tripId data ->
  SeatMap.getSeatStatus (after trip events (SeatMap.loaded trip (run calls db'))) seat
  = "occupied"
  /\ ~ In seat (selectedSeats (after trip events (SeatMap.loaded trip (run calls db'))))
  /\ (forall bd,
         handleBooking trip (after trip events (SeatMap.loaded trip (run calls db')))
         = Some bd ->
         ~ In (Some seat) (map sel_seatNumber (data_selectedSeats bd))).
Proof.
  intros Hcreate Hseat Htrip.
  assert (Hocc : In seat (SeatMap.fetchBookedSeats (trip_id trip) (run calls db'))).
  { unfold SeatMap.fetchBookedSeats, Routes.get_api_trip_seats, getTripSeats.
    destruct (run_bookedSeats calls db') as [added ->].
    destruct (createBooking_returns _ _ _ _ _ _ Hcreate) as (_ & -> & Hnums & _).
    cbn [bookedSeats set_bookedSeats set_bookings].
    rewrite !filter_app, !map_app, new_seat_rows_trip, Htrip, String.eqb_refl.
    apply in_or_app. left. apply in_or_app. right.
    rewrite <- Hnums in Hseat. apply in_map_iff in Hseat.
    destruct Hseat as [x [Hx Hin]]. now injection Hx as ->. }
  unfold SeatMap.loaded.
  pose proof (form_of_initial trip events
                (SeatMap.fetchBookedSeats (trip_id trip) (run calls db')))
    as [Hkeep [Hfree _]].
  remember (after trip events _) as st eqn:Hst. clear Hst.
  assert (Hnot : ~ In seat (selectedSeats st)).
  { intros Hin. exact (Hfree seat Hin Hocc). }
  split; [| split; [exact Hnot |]].
  - unfold SeatMap.getSeatStatus. rewrite Hkeep.
    apply includes_In in Hocc. now rewrite Hocc.
  - intros bd Hbd Hin. unfold handleBooking in Hbd.
    destruct (List.length (selectedSeats st) =? 0)%nat; [discriminate |].
    injection Hbd as <-. cbn [data_selectedSeats] in Hin.
    rewrite map_map in Hin. cbn [sel_seatNumber] in Hin.
    apply in_map_iff in Hin. destruct Hin as [x [Hx Hin]].
    injection Hx as ->. exact (Hnot Hin).
Qed.

Lemma booked_seat_refused_by_form_witness :
  SeatMap.getSeatStatus
    (after Sample.morning [SeatClick "A1"] (SeatMap.loaded Sample.morning Sample.db1)) "A1"
  = "occupied"
  /\ ~ In "A1" (selectedSeats
                  (after Sample.morning [SeatClick "A1"]
                         (SeatMap.loaded Sample.morning Sample.db1))).
Proof.
  assert (Hcreate : createBooking Sample.env1 (Sample.bookingFor "u-alice" 11000)
                                  (SeatsArray [Sample.seatA1]) Sample.db0
                    = (Sample.db1, Returns Sample.booking1)) by reflexivity.
  assert (Hseat : In (Some "A1") (map sel_seatNumber [Sample.seatA1])) by (left; reflexivity).
  assert (Htrip : trip_id Sample.morning = ins_tripId (Sample.bookingFor "u-alice" 11000))
    by reflexivity.
  destruct (booked_seat_refused_by_form _ _ _ _ _ _ [] Sample.morning "A1" [SeatClick "A1"]
                                        Hcreate Hseat Htrip) as [Hstatus [Hnot _]].
  split; [exact Hstatus | exact Hnot].
Defined.

(** X19.  The amounts the form sends after a fixed-amount promotion.  With a
    promotion that is not of type percentage applied, [handleBooking] sends
    nothing when no seat is selected; otherwise it sends the trip's price
    plus the service fee of 10.00 as the total, the smaller of the
    promotion's value and the trip's price as the discount, and exactly
    their difference as the final amount: rounding to two decimals changes
    none of the three. *)
Theorem handleBooking_fixed_amount (trip : Trip) (promotion : Promotion) (st : State) :
  String.eqb (discountType promotion) "percentage" = false ->
  match handleBooking trip (onPromoSuccess trip promotion st) with
  | None => selectedSeats st = []
  | Some bd =>
      selectedSeats st <> []
      /\ data_tripId bd = trip_id trip
      /\ data_totalAmount bd = price trip + 1000
      /\ data_discountAmount bd = Z.min (discountValue promotion) (price trip)
      /\ data_finalAmount bd = data_totalAmount bd - data_discountAmount bd
      /\ map sel_seatNumber (data_selectedSeats bd) = map Some (selectedSeats st)
  end.
Proof.
  intros Hfixed. unfold handleBooking. cbn [onPromoSuccess selectedSeats].
  destruct (selectedSeats st) as [| s l] eqn:Hsel; [reflexivity |].
  cbn [List.length Nat.eqb data_tripId data_totalAmount data_discountAmount
       data_finalAmount data_selectedSeats].
  assert (Hdisc : (discount (onPromoSuccess trip promotion st)
                   == inject_Z (Z.min (discountValue promotion) (price trip)) / 100)%Q).
  { cbn [onPromoSuccess discount]. unfold discountAmountOf. rewrite Hfixed.
    unfold parseFloat.
    destruct (Z.min_spec (discountValue promotion) (price trip)) as [[Hlt ->] | [Hle ->]].
    - apply Q.min_l. unfold Qle, Qdiv, Qmult, Qinv, inject_Z. cbn. lia.
    - apply Q.min_r. unfold Qle, Qdiv, Qmult, Qinv, inject_Z. cbn. lia. }
  assert (Htotal : toFixed2 (totalAmountOf trip) = price trip + 1000).
  { apply toFixed2_hundredths, totalAmountOf_hundredths. }
  assert (Hd : toFixed2 (discount (onPromoSuccess trip promotion st))
               = Z.min (discountValue promotion) (price trip)).
  { apply toFixed2_hundredths. exact Hdisc. }
  assert (Hfinal : toFixed2 (finalAmountOf trip (onPromoSuccess trip promotion st))
                   = price trip + 1000 - Z.min (discountValue promotion) (price trip)).
  { apply toFixed2_hundredths. unfold finalAmountOf.
    rewrite Hdisc, totalAmountOf_hundredths.
    rewrite <- Z.add_opp_r, !inject_Z_plus, inject_Z_opp. field. }
  rewrite Htotal, Hfinal, Hd.
  repeat split; try reflexivity; try discriminate.
  rewrite map_map. reflexivity.
Qed.

Lemma handleBooking_fixed_amount_witness :
  option_map (fun bd => (data_totalAmount bd, data_discountAmount bd, data_finalAmount bd))
             (handleBooking Sample.morning
                (onPromoSuccess Sample.morning Sample.spring
                   (handleSeatClick "A1" (initial []))))
  = Some (11000, 1500, 9500).
Proof.
  assert (Hfixed : String.eqb (discountType Sample.spring) "percentage" = false)
    by reflexivity.
  pose proof (handleBooking_fixed_amount Sample.morning Sample.spring
                (handleSeatClick "A1" (initial [])) Hfixed) as H.
  destruct (handleBooking Sample.morning _) as [bd |].
  - destruct H as (_ & _ & Ht & Hd & Hf & _). cbn [option_map].
    rewrite Hf, Ht, Hd. reflexivity.
  - discriminate H.
Defined.

End SeatForm.

(** ** The search results list *)

(** X20.  Which trips the search results offer.  For a trip that
    [searchTrips] returns, the select button is disabled as sold out exactly
    when the trip has as many seat rows as the bus has seats.  A trip with
    more seat rows than seats, which [createBooking] does not prevent, is not
    sold out: its seat count shows in red and the button stays enabled. *)
Theorem searchTrips_soldOut (params : SearchParams) (db : Database) (s : TripSummary) :
  In s (searchTrips params db) ->
  (SearchResults.soldOut s = true
   <-> Z.of_nat (List.length (getTripSeats (trip_id (summary_trip s)) db))
       = capacity (summary_bus s))
  /\ (capacity (summary_bus s)
      < Z.of_nat (List.length (getTripSeats (trip_id (summary_trip s)) db)) ->
      SearchResults.soldOut s = false
      /\ SearchResults.seatsClass s = "text-red-600").
Proof.
  unfold searchTrips. intros Hin. apply in_map_iff in Hin.
  destruct Hin as [[[t r] b] [<- _]].
  unfold SearchResults.soldOut, SearchResults.seatsClass.
  cbn [availableSeats summary_trip summary_bus]. unfold bookedCount, getTripSeats.
  remember (Z.of_nat (List.length _)) as n eqn:Hn. clear Hn.
  split.
  - rewrite Z.eqb_eq. lia.
  - intros Hover.
    destruct (Z.eqb_spec (capacity b - n) 0) as [E | _]; [lia |].
    destruct (Z.ltb_spec 10 (capacity b - n)) as [E | _]; [lia |].
    destruct (Z.ltb_spec 5 (capacity b - n)) as [E | _]; [lia |].
    split; reflexivity.
Qed.

Lemma searchTrips_soldOut_witness :
  map SearchResults.soldOut (searchTrips Sample.searchMorning Sample.db1) = [true]
  /\ map SearchResults.soldOut
         (searchTrips Sample.searchMorning (run Sample.twoBookings Sample.db0))
     = [false].
Proof.
  split; [reflexivity |].
  destruct (searchTrips Sample.searchMorning (run Sample.twoBookings Sample.db0))
    as [| s l] eqn:Hs; [discriminate Hs |].
  assert (Hin : In s (searchTrips Sample.searchMorning (run Sample.twoBookings Sample.db0)))
    by (rewrite Hs; left; reflexivity).
  destruct (searchTrips_soldOut _ _ _ Hin) as [_ Hover].
  assert (Hl : l = []) by (injection Hs as _ <-; reflexivity).
  assert (Hcount : capacity (summary_bus s)
                   < Z.of_nat (List.length
                       (getTripSeats (trip_id (summary_trip s))
                                     (run Sample.twoBookings Sample.db0)))).
  { injection Hs as <- _. vm_compute. reflexivity. }
  destruct (Hover Hcount) as [Hsold _]. cbn [map]. rewrite Hsold, Hl. reflexivity.
Defined.

(** ** The booking lists *)

Section Ordering.

Context {A : Type} (key : A -> Z).

Lemma insertDesc_perm (x : A) (l : list A) :
  Permutation (x :: l) (Queries.insertDesc key x l).
Proof.
  induction l as [| y r IH]; cbn [Queries.insertDesc]; [reflexivity |].
  destruct (key y <=? key x); [reflexivity |].
  rewrite perm_swap. now apply perm_skip.
Qed.

Lemma orderByDesc_perm (l : list A) : Permutation l (Queries.orderByDesc key l).
Proof.
  induction l as [| x l IH]; [reflexivity |].
  cbn [Queries.orderByDesc fold_right].
  rewrite <- insertDesc_perm. now apply perm_skip.
Qed.

Lemma insertDesc_sorted (x : A) (l : list A) :
  StronglySorted (fun a b => key b <= key a) l ->
  StronglySorted (fun a b => key b <= key a) (Queries.insertDesc key x l).
Proof.
  induction l as [| y r IH]; intros Hs; cbn [Queries.insertDesc].
  - repeat constructor.
  - inversion Hs as [| ? ? Hr Hall]; subst.
    destruct (Z.leb_spec (key y) (key x)) as [Hle | Hgt].
    + constructor; [exact Hs |]. constructor; [exact Hle |].
      rewrite Forall_forall in *. intros z Hz. specialize (Hall z Hz). lia.
    + constructor; [now apply IH |].
      rewrite Forall_forall in *. intros z Hz.
      apply (Permutation_in _ (Permutation_sym (insertDesc_perm x r))) in Hz.
      destruct Hz as [<- | Hz]; [lia | now apply Hall].
Qed.

Lemma orderByDesc_sorted (l : list A) :
  StronglySorted (fun a b => key b <= key a) (Queries.orderByDesc key l).
Proof.
  induction l as [| x l IH]; [constructor |].
  cbn [Queries.orderByDesc fold_right]. now apply insertDesc_sorted.
Qed.

End Ordering.

Lemma StronglySorted_snoc {A} (R : A -> A -> Prop) (l : list A) (x : A) :
  StronglySorted R l -> (forall a, In a l -> R a x) -> StronglySorted R (l ++ [x]).
Proof.
  induction l as [| a l IH]; intros Hs Hx; cbn.
  - repeat constructor.
  - inversion Hs as [| ? ? Hl Hall]; subst. constructor.
    + apply IH; [exact Hl |]. intros b Hb. apply Hx. now right.
    + apply Forall_app. split; [exact Hall |]. constructor; [| constructor].
      apply Hx. now left.
Qed.

Lemma StronglySorted_snoc_inv {A} (R : A -> A -> Prop) (l : list A) (x : A) :
  StronglySorted R (l ++ [x]) -> StronglySorted R l /\ (forall a, In a l -> R a x).
Proof.
  induction l as [| a l IH]; cbn; intros Hs.
  - split; [constructor | intros a []].
  - inversion Hs as [| ? ? Hl Hall]; subst. destruct (IH Hl) as [IH1 IH2].
    apply Forall_app in Hall. destruct Hall as [Hall Hx].
    split; [now constructor |].
    intros b [<- | Hb]; [now inversion Hx | now apply IH2].
Qed.

Lemma StronglySorted_map {A B} (f : A -> B) (R : B -> B -> Prop) (l : list A) :
  StronglySorted (fun a b => R (f a) (f b)) l <-> StronglySorted R (map f l).
Proof.
  induction l as [| a l IH]; cbn; split; intros H; try constructor;
    inversion H as [| ? ? Hl Hall]; subst.
  - now apply IH.
  - rewrite Forall_forall in *. intros y Hy. apply in_map_iff in Hy.
    destruct Hy as [z [<- Hz]]. now apply Hall.
  - now apply IH.
  - rewrite Forall_forall in *. intros y Hy. apply Hall. now apply in_map.
Qed.

Section Grouping.

Import Queries.

Lemma rowsSeats_app k rows1 rows2 :
  rowsSeats k (rows1 ++ rows2) = rowsSeats k rows1 ++ rowsSeats k rows2.
Proof. unfold rowsSeats. apply flat_map_app. Qed.

Lemma rowsSeats_absent k rows :
  ~ In k (map (fun row => booking_id (row_booking row)) rows) -> rowsSeats k rows = [].
Proof.
  induction rows as [| r rows IH]; intros Hk; [reflexivity |].
  cbn in Hk. unfold rowsSeats. cbn [flat_map]. fold (rowsSeats k rows).
  rewrite IH by tauto.
  destruct (String.eqb_spec (booking_id (row_booking r)) k) as [E | _]; [tauto | reflexivity].
Qed.

Lemma pushSeat_keys m k s : map fst (pushSeat m k s) = map fst m.
Proof.
  unfold pushSeat. rewrite map_map. apply map_ext. intros [k' e]. cbn.
  now destruct (String.eqb k' k).
Qed.

Lemma pushSeat_In m k s k' e :
  In (k', e) (pushSeat m k s) ->
  exists e0, In (k', e0) m
             /\ details_booking e = details_booking e0
             /\ details_trip e = details_trip e0
             /\ details_route e = details_route e0
             /\ details_bus e = details_bus e0
             /\ details_bookedSeats e
                = details_bookedSeats e0 ++ (if String.eqb k' k then [s] else []).
Proof.
  unfold pushSeat. intros H. apply in_map_iff in H. destruct H as [[k0 e0] [Heq Hin]].
  cbn [fst snd] in Heq. destruct (String.eqb k0 k) eqn:E.
  - pair_eq Heq. exists e0. rewrite E. cbn. repeat split; try reflexivity. exact Hin.
  - pair_eq Heq. exists e. rewrite E, app_nil_r. repeat split; try reflexivity. exact Hin.
Qed.

(** What the map holds once [forEach] has gone through [rows]. *)
Lemma bookingsMap_invariant (rows : list UserBookingRow) :
  NoDup (map fst (fold_left groupRow rows []))
  /\ (forall k, In k (map fst (fold_left groupRow rows []))
                <-> In k (map (fun row => booking_id (row_booking row)) rows))
  /\ (forall k e,
         In (k, e) (fold_left groupRow rows []) ->
         booking_id (details_booking e) = k
         /\ details_bookedSeats e = rowsSeats k rows
         /\ exists row, In row rows
                        /\ details_booking e = row_booking row
                        /\ details_trip e = row_trip row
                        /\ details_route e = row_route row
                        /\ details_bus e = row_bus row).
Proof.
  induction rows as [| r rows IH] using rev_ind.
  - cbn. split; [constructor |]. split; [tauto | intros k e []].
  - rewrite fold_left_app. cbn [fold_left].
    destruct IH as (Hnd & Hkeys & Hentries).
    remember (fold_left groupRow rows []) as m eqn:Hm. clear Hm.
    set (k0 := booking_id (row_booking r)).
    set (m1 := if negb (Map_has m k0)
               then Map_set m k0
                            {| details_booking := row_booking r;
                               details_trip := row_trip r;
                               details_route := row_route r;
                               details_bus := row_bus r;
                               details_bookedSeats := [] |}
               else m).
    assert (H1 : NoDup (map fst m1)
                 /\ (forall k, In k (map fst m1)
                               <-> In k (map (fun row => booking_id (row_booking row))
                                             (rows ++ [r])))
                 /\ (forall k e,
                        In (k, e) m1 ->
                        booking_id (details_booking e) = k
                        /\ details_bookedSeats e = rowsSeats k rows
                        /\ exists row, In row (rows ++ [r])
                                       /\ details_booking e = row_booking row
                                       /\ details_trip e = row_trip row
                                       /\ details_route e = row_route row
                                       /\ details_bus e = row_bus row)).
    { subst m1. unfold Map_has, Map_set.
      destruct (has_key k0 (map fst m)) eqn:Hhas; cbn [negb].
      - apply has_key_In in Hhas. split; [exact Hnd |]. split.
        + intros k. rewrite map_app, in_app_iff, <- Hkeys. cbn. split; [tauto |].
          intros [H | [<- | []]]; [exact H | exact Hhas].
        + intros k e Hin. destruct (Hentries k e Hin) as (E1 & E2 & row & Hrow & Hrest).
          split; [exact E1 |]. split; [exact E2 |].
          exists row. split; [apply in_or_app; now left | exact Hrest].
      - apply has_key_false in Hhas. split; [| split].
        + rewrite map_app. apply NoDup_app; [exact Hnd | repeat constructor; easy |].
          intros x Hx [<- | []]. contradiction.
        + intros k. rewrite !map_app, !in_app_iff, <- Hkeys. cbn. tauto.
        + intros k e Hin. apply in_app_or in Hin. destruct Hin as [Hin | [Hin | []]].
          * destruct (Hentries k e Hin) as (E1 & E2 & row & Hrow & Hrest).
            split; [exact E1 |]. split; [exact E2 |].
            exists row. split; [apply in_or_app; now left | exact Hrest].
          * pair_eq Hin. cbn. split; [reflexivity |]. split.
            -- symmetry. apply rowsSeats_absent. now rewrite <- Hkeys.
            -- exists r. split; [apply in_or_app; right; now left |]. repeat split. }
    unfold groupRow. fold k0. fold m1.
    destruct H1 as (Hnd1 & Hkeys1 & Hentries1).
    assert (Hlast : forall k, rowsSeats k (rows ++ [r])
                              = rowsSeats k rows
                                ++ (if String.eqb k k0
                                    then match row_seats r with
                                         | Some seat => [seat]
                                         | None => []
                                         end
                                    else [])).
    { intros k. rewrite rowsSeats_app. f_equal. unfold rowsSeats. cbn [flat_map].
      fold k0. rewrite app_nil_r, (String.eqb_sym k0 k). reflexivity. }
    destruct (row_seats r) as [seat |] eqn:Hseat.
    + rewrite pushSeat_keys. split; [exact Hnd1 |]. split; [exact Hkeys1 |].
      intros k e Hin. apply pushSeat_In in Hin.
      destruct Hin as (e0 & Hin & Eb & Et & Er & Eu & Es).
      destruct (Hentries1 k e0 Hin) as (E1 & E2 & row & Hrow & R1 & R2 & R3 & R4).
      split; [congruence |]. split; [rewrite Hlast, Es, E2; reflexivity |].
      exists row. split; [exact Hrow |]. repeat split; congruence.
    + split; [exact Hnd1 |]. split; [exact Hkeys1 |].
      intros k e Hin. destruct (Hentries1 k e Hin) as (E1 & E2 & Hrow).
      split; [exact E1 |]. split; [| exact Hrow].
      rewrite Hlast, E2. destruct (String.eqb k k0); now rewrite app_nil_r.
Qed.

Lemma groupRow_keys m r :
  map fst (groupRow m r) = map fst m
  \/ (map fst (groupRow m r) = map fst m ++ [booking_id (row_booking r)]).
Proof.
  unfold groupRow.
  destruct (row_seats r); rewrite ?pushSeat_keys;
    destruct (negb (Map_has m _)); unfold Map_set; rewrite ?map_app; cbn; tauto.
Qed.

Lemma bookingsMap_sorted (createdAt : CreatedAt) (rows : list UserBookingRow) :
  StronglySorted (fun a b => createdAt (booking_id (row_booking b))
                             <= createdAt (booking_id (row_booking a))) rows ->
  StronglySorted (fun a b => createdAt b <= createdAt a)
                 (map fst (fold_left groupRow rows [])).
Proof.
  induction rows as [| r rows IH] using rev_ind; intros Hs; [constructor |].
  apply StronglySorted_snoc_inv in Hs. destruct Hs as [Hs Hlast].
  rewrite fold_left_app. cbn [fold_left].
  destruct (groupRow_keys (fold_left groupRow rows []) r) as [-> | ->]; [now apply IH |].
  apply StronglySorted_snoc; [now apply IH |].
  intros k Hk. apply (proj1 (proj2 (bookingsMap_invariant rows))) in Hk.
  apply in_map_iff in Hk. destruct Hk as [row [<- Hrow]]. now apply Hlast.
Qed.

End Grouping.

Section UserBookings.

Import Queries.

Lemma flat_map_nil {A B} (f : A -> list B) (l : list A) :
  (forall x, In x l -> f x = []) -> flat_map f l = [].
Proof.
  induction l as [| a l IH]; intros H; [reflexivity |].
  cbn. rewrite (H a) by now left. apply IH. intros x Hx. apply H. now right.
Qed.

Lemma flat_map_single {A B} (key : A -> string) (f : A -> list B) (l : list A) (x : A) :
  NoDup (map key l) -> In x l ->
  (forall y, In y l -> key y <> key x -> f y = []) ->
  flat_map f l = f x.
Proof.
  induction l as [| a l IH]; intros Hnd Hx Hf; [destruct Hx |].
  cbn in Hnd. inversion Hnd as [| ? ? Hnotin Hnd']; subst. cbn [flat_map].
  destruct Hx as [-> | Hx].
  - rewrite flat_map_nil; [apply app_nil_r |].
    intros y Hy. apply Hf; [now right |].
    intros E. apply Hnotin. rewrite <- E. now apply in_map.
  - rewrite (Hf a); [| now left |].
    + cbn. apply IH; [exact Hnd' | exact Hx |]. intros y Hy. apply Hf. now right.
    + intros E. apply Hnotin. rewrite E. now apply in_map.
Qed.

Lemma flat_map_flat_map {A B C} (f : A -> list B) (g : B -> list C) (l : list A) :
  flat_map g (flat_map f l) = flat_map (fun x => flat_map g (f x)) l.
Proof.
  induction l as [| a l IH]; [reflexivity |].
  cbn. now rewrite flat_map_app, IH.
Qed.

Lemma leftJoinSeats_In db bk t r b row :
  In row (leftJoinSeats db bk t r b) ->
  row_booking row = bk /\ row_trip row = t /\ row_route row = r /\ row_bus row = b.
Proof.
  unfold leftJoinSeats. destruct (filter _ _) as [| s l].
  - intros [<- | []]. repeat split.
  - intros H. apply in_map_iff in H. destruct H as [s' [<- _]]. repeat split.
Qed.

Lemma leftJoinSeats_nonempty db bk t r b :
  exists row, In row (leftJoinSeats db bk t r b).
Proof.
  unfold leftJoinSeats. destruct (filter _ _) as [| s l]; eexists; left; reflexivity.
Qed.

Lemma rowsSeats_leftJoin db bk t r b :
  rowsSeats (booking_id bk) (leftJoinSeats db bk t r b)
  = filter (fun s => String.eqb (booking_id bk) (seat_bookingId s)) (bookedSeats db).
Proof.
  unfold leftJoinSeats. destruct (filter _ _) as [| s l].
  - unfold rowsSeats. cbn. now rewrite String.eqb_refl.
  - generalize (s :: l). intros seats. induction seats as [| x seats IH]; [reflexivity |].
    unfold rowsSeats in *. cbn [map flat_map row_booking row_seats].
    rewrite String.eqb_refl, IH. reflexivity.
Qed.

Lemma joinedRows_In userId db bk row :
  In row (joinedRows userId db bk) ->
  row_booking row = bk
  /\ In (row_trip row) (trips db) /\ In (row_route row) (routes db)
  /\ In (row_bus row) (buses db)
  /\ booking_tripId bk = trip_id (row_trip row)
  /\ routeId (row_trip row) = route_id (row_route row)
  /\ busId (row_trip row) = bus_id (row_bus row)
  /\ booking_userId bk = userId.
Proof.
  unfold joinedRows. intros H.
  apply in_flat_map in H. destruct H as [t [Ht H]].
  apply in_flat_map in H. destruct H as [r [Hr H]].
  apply in_flat_map in H. destruct H as [b [Hb H]].
  break_if; [| destruct H]. apply leftJoinSeats_In in H.
  destruct H as (-> & -> & -> & ->).
  split_andb. rewrite !String.eqb_eq in *. tauto.
Qed.

(** In a well-formed store, the inner joins find one row for a booking of
    the user. *)
Lemma joinedRows_of userId db bk :
  Integrity.consistent db = true ->
  In bk (bookings db) -> booking_userId bk = userId ->
  exists t r b, joinedRows userId db bk = leftJoinSeats db bk t r b.
Proof.
  intros Hc Hbk Hu. pose proof Hc as Hc'. consistent_parts Hc'.
  assert (Htrip : exists t, In t (trips db) /\ trip_id t = booking_tripId bk).
  { match goal with
    | Hb : forallb _ (bookings db) = true |- _ =>
        rewrite forallb_forall in Hb; specialize (Hb bk Hbk)
    end.
    split_andb.
    match goal with
    | Hk : has_key (booking_tripId bk) _ = true |- _ =>
        apply has_key_In, in_map_iff in Hk; destruct Hk as [t [Ht Hin]]
    end.
    exists t. now split. }
  destruct Htrip as [t [Ht Htid]].
  destruct (joined_trip db t Hc Ht) as (r & b & Hr & Hb & Er & Eb).
  exists t, r, b. unfold joinedRows.
  rewrite (flat_map_single trip_id _ (trips db) t); [| now apply distinct_NoDup | exact Ht |].
  - rewrite (flat_map_single route_id _ (routes db) r);
      [| now apply distinct_NoDup | exact Hr |].
    + rewrite (flat_map_single bus_id _ (buses db) b);
        [| now apply distinct_NoDup | exact Hb |].
      * now rewrite Htid, Er, Eb, Hu, !String.eqb_refl.
      * intros b' _ Hne. rewrite Eb.
        destruct (String.eqb_spec (bus_id b) (bus_id b')) as [E | _]; [congruence |].
        now rewrite !andb_false_r.
    + intros r' _ Hne. apply flat_map_nil. intros b' _. rewrite Er.
      destruct (String.eqb_spec (route_id r) (route_id r')) as [E | _]; [congruence |].
      now rewrite !andb_false_r.
  - intros t' _ Hne. apply flat_map_nil. intros r' _. apply flat_map_nil. intros b' _.
    rewrite <- Htid.
    destruct (String.eqb_spec (trip_id t) (trip_id t')) as [E | _]; [congruence |].
    reflexivity.
Qed.

Lemma userBookingRows_In userId db row :
  In row (userBookingRows userId db) ->
  In (row_booking row) (bookings db)
  /\ In (row_trip row) (trips db)
  /\ booking_userId (row_booking row) = userId
  /\ booking_tripId (row_booking row) = trip_id (row_trip row)
  /\ routeId (row_trip row) = route_id (row_route row)
  /\ busId (row_trip row) = bus_id (row_bus row).
Proof.
  unfold userBookingRows. intros H. apply in_flat_map in H. destruct H as [bk [Hbk H]].
  apply joinedRows_In in H. destruct H as (-> & H). tauto.
Qed.

Lemma userBookingRows_seats userId db bk :
  Integrity.consistent db = true ->
  In bk (bookings db) -> booking_userId bk = userId ->
  rowsSeats (booking_id bk) (userBookingRows userId db)
  = filter (fun s => String.eqb (booking_id bk) (seat_bookingId s)) (bookedSeats db).
Proof.
  intros Hc Hbk Hu. unfold userBookingRows, rowsSeats at 1.
  rewrite flat_map_flat_map.
  pose proof Hc as Hc'. consistent_parts Hc'.
  rewrite (flat_map_single booking_id _ (bookings db) bk);
    [| now apply distinct_NoDup | exact Hbk |].
  - destruct (joinedRows_of userId db bk Hc Hbk Hu) as (t & r & b & ->).
    apply rowsSeats_leftJoin.
  - intros bk' _ Hne. apply flat_map_nil. intros row Hrow.
    apply joinedRows_In in Hrow. destruct Hrow as [-> _].
    destruct (String.eqb_spec (booking_id bk') (booking_id bk)) as [E | _];
      [contradiction | reflexivity].
Qed.

(** X21.  [getUserBookings] groups the rows of its query by booking.  The
    list has one entry per booking id, newest first; every entry is a stored
    booking of the user, with the trip, route and bus the booking refers to.
    In a well-formed store, every booking of the user is listed, and each
    entry carries exactly the seat rows of its booking. *)
Theorem getUserBookings_groups (createdAt : CreatedAt) (userId : string) (db : Database) :
  NoDup (map (fun e => booking_id (details_booking e))
             (getUserBookings createdAt userId db))
  /\ StronglySorted (fun a b => createdAt (booking_id (details_booking b))
                                <= createdAt (booking_id (details_booking a)))
                    (getUserBookings createdAt userId db)
  /\ (forall e,
         In e (getUserBookings createdAt userId db) ->
         In (details_booking e) (bookings db)
         /\ booking_userId (details_booking e) = userId
         /\ In (details_trip e) (trips db)
         /\ trip_id (details_trip e) = booking_tripId (details_booking e)
         /\ route_id (details_route e) = routeId (details_trip e)
         /\ bus_id (details_bus e) = busId (details_trip e))
  /\ (Integrity.consistent db = true ->
      (forall bk,
          In bk (bookings db) -> booking_userId bk = userId ->
          exists e, In e (getUserBookings createdAt userId db) /\ details_booking e = bk)
      /\ (forall e,
             In e (getUserBookings createdAt userId db) ->
             Permutation (details_bookedSeats e)
                         (filter (fun s => String.eqb (seat_bookingId s)
                                                      (booking_id (details_booking e)))
                                 (bookedSeats db)))).
Proof.
  unfold getUserBookings.
  set (key := fun row => createdAt (booking_id (row_booking row))).
  pose proof (orderByDesc_perm key (userBookingRows userId db)) as Hperm.
  pose proof (orderByDesc_sorted key (userBookingRows userId db)) as Hsorted.
  remember (orderByDesc key (userBookingRows userId db)) as rows eqn:Hrows. clear Hrows.
  destruct (bookingsMap_invariant rows) as (Hnd & Hkeys & Hentries).
  pose proof (bookingsMap_sorted createdAt rows Hsorted) as Hms.
  remember (fold_left groupRow rows []) as m eqn:Hm. clear Hm.
  assert (Hids : map (fun e => booking_id (details_booking e)) (map snd m) = map fst m).
  { rewrite map_map. apply map_ext_in. intros [k e] Hin. cbn. now apply Hentries. }
  assert (Hentry : forall e, In e (map snd m) ->
                             exists row, In row (userBookingRows userId db)
                                         /\ In (booking_id (details_booking e), e) m
                                         /\ details_booking e = row_booking row
                                         /\ details_trip e = row_trip row
                                         /\ details_route e = row_route row
                                         /\ details_bus e = row_bus row).
  { intros e He. apply in_map_iff in He. destruct He as [[k e'] [<- Hin]]. cbn [snd].
    destruct (Hentries k e' Hin) as (Ek & _ & row & Hrow & Hrest).
    exists row. split; [eapply Permutation_in; [symmetry; exact Hperm | exact Hrow] |].
    split; [now rewrite Ek | exact Hrest]. }
  split; [now rewrite Hids |]. split; [| split].
  - apply (StronglySorted_map (fun e => booking_id (details_booking e))
                              (fun a b => createdAt b <= createdAt a)).
    now rewrite Hids.
  - intros e He. destruct (Hentry e He) as (row & Hrow & _ & -> & -> & -> & ->).
    apply userBookingRows_In in Hrow. intuition congruence.
  - intros Hc. split.
    + intros bk Hbk Hu.
      destruct (joinedRows_of userId db bk Hc Hbk Hu) as (t & r & b & Hjoin).
      destruct (leftJoinSeats_nonempty db bk t r b) as [row Hrow].
      assert (Hin : In row (userBookingRows userId db)).
      { unfold userBookingRows. apply in_flat_map. exists bk. split; [exact Hbk |].
        now rewrite Hjoin. }
      apply leftJoinSeats_In in Hrow. destruct Hrow as [Hrb _].
      assert (Hk : In (booking_id bk) (map fst m)).
      { apply Hkeys. apply in_map_iff. exists row.
        split; [now rewrite Hrb | eapply Permutation_in; [exact Hperm | exact Hin]]. }
      apply in_map_iff in Hk. destruct Hk as [[k e] [Ek Hke]]. cbn [fst] in Ek. subst k.
      exists e. split; [apply in_map_iff; exists (booking_id bk, e); now split |].
      destruct (Hentries _ _ Hke) as (Eid & _ & row' & Hrow' & Eb & _).
      apply (Permutation_in _ (Permutation_sym Hperm)) in Hrow'.
      apply userBookingRows_In in Hrow'. destruct Hrow' as [Hbk' _].
      rewrite <- Eb in Hbk'.
      pose proof Hc as Hc'. consistent_parts Hc'.
      apply (distinct_same_key booking_id (bookings db)); assumption.
    + intros e He. destruct (Hentry e He) as (row & Hrow & Hin & Eb & _).
      destruct (Hentries _ _ Hin) as (_ & -> & _).
      apply userBookingRows_In in Hrow. destruct Hrow as (Hbk & _ & Hu & _).
      rewrite <- Eb in Hbk, Hu.
      rewrite (filter_ext _ (fun s => String.eqb (booking_id (details_booking e))
                                                 (seat_bookingId s)))
        by (intros s; apply String.eqb_sym).
      rewrite <- (userBookingRows_seats userId db _ Hc Hbk Hu).
      unfold rowsSeats. apply Permutation_flat_map. now symmetry.
Qed.

End UserBookings.
Lemma getUserBookings_groups_witness :
  Integrity.consistent (run Sample.twoBookings Sample.db0) = true
  /\ exists e,
       In e (Queries.getUserBookings (fun _ => Sample.now) "u-alice"
                                     (run Sample.twoBookings Sample.db0))
       /\ details_booking e = Sample.booking1.
Proof.
  assert (Hc : Integrity.consistent (run Sample.twoBookings Sample.db0) = true)
    by (vm_compute; reflexivity).
  split; [exact Hc |].
  destruct (getUserBookings_groups (fun _ => Sample.now) "u-alice"
              (run Sample.twoBookings Sample.db0)) as (_ & _ & _ & Hall).
  destruct (Hall Hc) as [Hlisted _].
  apply Hlisted; [left; reflexivity | reflexivity].
Defined.

Section AllBookings.

Import Queries.

Lemma allBookingRows_In db bk t r u :
  In (bk, t, r, u) (allBookingRows db)
  <-> In bk (bookings db) /\ In t (trips db) /\ In r (routes db) /\ In u (users db)
      /\ booking_tripId bk = trip_id t /\ routeId t = route_id r
      /\ booking_userId bk = user_id u.
Proof.
  unfold allBookingRows. rewrite in_flat_map. split.
  - intros [bk' [Hbk H]]. apply in_flat_map in H. destruct H as [t' [Ht H]].
    apply in_flat_map in H. destruct H as [r' [Hr H]].
    apply in_flat_map in H. destruct H as [u' [Hu H]].
    break_if; [| destruct H]. destruct H as [H | []]. pair_eq H.
    split_andb. rewrite !String.eqb_eq in *. tauto.
  - intros (Hbk & Ht & Hr & Hu & E1 & E2 & E3).
    exists bk. split; [assumption |]. apply in_flat_map. exists t. split; [assumption |].
    apply in_flat_map. exists r. split; [assumption |].
    apply in_flat_map. exists u. split; [assumption |].
    rewrite E1, E2, E3, !String.eqb_refl. now left.
Qed.

Lemma map_flat_map_single {A B C} (f : A -> list B) (g : B -> C) (h : A -> C) (l : list A) :
  (forall x, In x l -> exists y, f x = [y] /\ g y = h x) ->
  map g (flat_map f l) = map h l.
Proof.
  induction l as [| a l IH]; intros H; [reflexivity |].
  cbn [flat_map map]. destruct (H a) as [y [-> <-]]; [now left |].
  cbn. f_equal. apply IH. intros x Hx. apply H. now right.
Qed.

(** In a well-formed store the joins of [getAllBookings] find one row for
    every booking. *)
Lemma allBookingRows_ids db :
  Integrity.consistent db = true ->
  map (fun row => booking_id (fst (fst (fst row)))) (allBookingRows db)
  = map booking_id (bookings db).
Proof.
  intros Hc. unfold allBookingRows. apply map_flat_map_single. intros bk Hbk.
  pose proof Hc as Hc'. consistent_parts Hc'.
  assert (Hrefs : exists t u, In t (trips db) /\ trip_id t = booking_tripId bk
                              /\ In u (users db) /\ user_id u = booking_userId bk).
  { match goal with
    | Hb : forallb _ (bookings db) = true |- _ =>
        rewrite forallb_forall in Hb; specialize (Hb bk Hbk)
    end.
    split_andb.
    match goal with
    | Hk : has_key (booking_tripId bk) _ = true |- _ =>
        apply has_key_In, in_map_iff in Hk; destruct Hk as [t [Ht Hin]]
    end.
    match goal with
    | Hk : has_key (booking_userId bk) _ = true |- _ =>
        apply has_key_In, in_map_iff in Hk; destruct Hk as [u [Hu Huin]]
    end.
    exists t, u. tauto. }
  destruct Hrefs as (t & u & Ht & Et & Hu & Eu).
  destruct (joined_trip db t Hc Ht) as (r & _ & Hr & _ & Er & _).
  exists (bk, t, r, u). split; [| reflexivity].
  rewrite (flat_map_single trip_id _ (trips db) t); [| now apply distinct_NoDup | exact Ht |].
  - rewrite (flat_map_single route_id _ (routes db) r);
      [| now apply distinct_NoDup | exact Hr |].
    + rewrite (flat_map_single user_id _ (users db) u);
        [| now apply distinct_NoDup | exact Hu |].
      * now rewrite Et, Er, Eu, !String.eqb_refl.
      * intros u' _ Hne. rewrite <- Eu.
        destruct (String.eqb_spec (user_id u) (user_id u')) as [E | _]; [congruence |].
        now rewrite !andb_false_r.
    + intros r' _ Hne. apply flat_map_nil. intros u' _. rewrite Er.
      destruct (String.eqb_spec (route_id r) (route_id r')) as [E | _]; [congruence |].
      now rewrite !andb_false_r.
  - intros t' _ Hne. apply flat_map_nil. intros r' _. apply flat_map_nil. intros u' _.
    rewrite <- Et.
    destruct (String.eqb_spec (trip_id t) (trip_id t')) as [E | _]; [congruence |].
    reflexivity.
Qed.

Lemma firstn_incl {A} (n : nat) (l : list A) (x : A) : In x (firstn n l) -> In x l.
Proof.
  intros H. rewrite <- (firstn_skipn n l). apply in_or_app. now left.
Qed.

Lemma StronglySorted_app_inv {A} (R : A -> A -> Prop) (l1 l2 : list A) :
  StronglySorted R (l1 ++ l2) -> forall a b, In a l1 -> In b l2 -> R a b.
Proof.
  induction l1 as [| x l1 IH]; cbn; intros Hs a b Ha Hb; [destruct Ha |].
  inversion Hs as [| ? ? Hl Hall]; subst. destruct Ha as [<- | Ha].
  - rewrite Forall_forall in Hall. apply Hall. apply in_or_app. now right.
  - now apply IH.
Qed.

(** X22.  [getAllBookings] lists at most 50 bookings.  Every line is a stored
    booking with its reference, final amount and status, the cities of its
    route, and the name of its user.  In a well-formed store the list has
    one line for each booking up to 50, no booking twice, and the bookings
    left out are not newer than any booking listed. *)
Theorem getAllBookings_lines (createdAt : CreatedAt) (db : Database) :
  (List.length (getAllBookings createdAt db) <= 50)%nat
  /\ (forall line,
         In line (getAllBookings createdAt db) ->
         exists bk t r u,
           In bk (bookings db) /\ In t (trips db) /\ In r (routes db) /\ In u (users db)
           /\ booking_tripId bk = trip_id t /\ routeId t = route_id r
           /\ booking_userId bk = user_id u
           /\ line_id line = booking_id bk
           /\ line_bookingReference line = bookingReference bk
           /\ line_amount line = finalAmount bk
           /\ line_status line = booking_status bk
           /\ line_originCity line = originCity r
           /\ line_destinationCity line = destinationCity r
           /\ line_passengerName line = passengerNameOf u)
  /\ (Integrity.consistent db = true ->
      List.length (getAllBookings createdAt db) = Nat.min 50 (List.length (bookings db))
      /\ NoDup (map line_id (getAllBookings createdAt db))
      /\ (forall bk line,
             In bk (bookings db) ->
             ~ In (booking_id bk) (map line_id (getAllBookings createdAt db)) ->
             In line (getAllBookings createdAt db) ->
             createdAt (booking_id bk) <= createdAt (line_id line))).
Proof.
  unfold getAllBookings, allBookings.
  set (key := fun row : Booking * Trip * Route * User =>
                createdAt (booking_id (fst (fst (fst row))))).
  pose proof (orderByDesc_perm key (allBookingRows db)) as Hperm.
  pose proof (orderByDesc_sorted key (allBookingRows db)) as Hsorted.
  remember (orderByDesc key (allBookingRows db)) as rows eqn:Hrows. clear Hrows.
  assert (Hline : forall row, line_id (bookingLine row) = booking_id (fst (fst (fst row)))).
  { intros [[[bk t] r] u]. reflexivity. }
  split; [| split].
  - rewrite length_map, length_firstn. lia.
  - intros line Hin. apply in_map_iff in Hin. destruct Hin as [[[[bk t] r] u] [<- Hin]].
    apply firstn_incl in Hin. apply (Permutation_in _ (Permutation_sym Hperm)) in Hin.
    apply allBookingRows_In in Hin.
    exists bk, t, r, u. cbn. intuition.
  - intros Hc.
    assert (Hids : Permutation (map (fun row => booking_id (fst (fst (fst row)))) rows)
                               (map booking_id (bookings db))).
    { rewrite <- (allBookingRows_ids db Hc). apply Permutation_map. now symmetry. }
    assert (Hnd : NoDup (map (fun row => booking_id (fst (fst (fst row)))) rows)).
    { eapply Permutation_NoDup; [symmetry; exact Hids |].
      apply distinct_NoDup. consistent_parts Hc. assumption. }
    assert (Hmap : map line_id (map bookingLine (firstn 50 rows))
                   = firstn 50 (map (fun row => booking_id (fst (fst (fst row)))) rows)).
    { rewrite map_map, firstn_map. apply map_ext. exact Hline. }
    split; [| split].
    + rewrite length_map, length_firstn.
      rewrite <- (length_map booking_id (bookings db)).
      rewrite <- (Permutation_length Hids), length_map. reflexivity.
    + rewrite Hmap. rewrite <- (firstn_skipn 50 (map _ rows)) in Hnd.
      apply NoDup_app_remove_r in Hnd. exact Hnd.
    + intros bk line Hbk Hnot Hin. rewrite Hmap in Hnot.
      apply in_map_iff in Hin. destruct Hin as [row [<- Hrow]]. rewrite Hline.
      assert (Hk : In (booking_id bk) (map (fun row => booking_id (fst (fst (fst row)))) rows)).
      { eapply Permutation_in; [symmetry; exact Hids | now apply in_map]. }
      apply in_map_iff in Hk. destruct Hk as [row' [Eid Hrow']].
      rewrite <- (firstn_skipn 50 rows) in Hrow', Hsorted.
      apply in_app_or in Hrow'. destruct Hrow' as [Hfirst | Hrest].
      * exfalso. apply Hnot. rewrite <- Eid, firstn_map.
        apply (in_map (fun r0 : Booking * Trip * Route * User => booking_id (fst (fst (fst r0))))).
        exact Hfirst.
      * pose proof (StronglySorted_app_inv _ _ _ Hsorted row row' Hrow Hrest) as Hle.
        unfold key in Hle. now rewrite Eid in Hle.
Qed.

Lemma getAllBookings_lines_witness :
  map line_id (getAllBookings (fun _ => Sample.now) (run Sample.twoBookings Sample.db0))
  = [Sample.bookingId1; Sample.bookingId2]
  /\ NoDup (map line_id
                (getAllBookings (fun _ => Sample.now) (run Sample.twoBookings Sample.db0))).
Proof.
  assert (Hc : Integrity.consistent (run Sample.twoBookings Sample.db0) = true)
    by (vm_compute; reflexivity).
  destruct (getAllBookings_lines (fun _ => Sample.now) (run Sample.twoBookings Sample.db0))
    as (_ & _ & Hall).
  destruct (Hall Hc) as (_ & Hnd & _).
  split; [vm_compute; reflexivity | exact Hnd].
Defined.

End AllBookings.

Section AdminStats.

Import Queries.

Lemma exec_bookings_confirmed c db :
  forallb (fun bk => eqb_opt (booking_status bk) "confirmed") (bookings db) = true ->
  forallb (fun bk => eqb_opt (booking_status bk) "confirmed") (bookings (exec c db)) = true.
Proof.
  intros H. destruct c; cbn [exec]; try exact H.
  - unfold upsertUser, upsert_user. repeat break_if; cbn [fst]; try exact H.
    destruct (filter _ _); cbn [fst]; exact H.
  - unfold createRoute, insert_route. repeat break_if; cbn [fst]; exact H.
  - unfold createBus, insert_bus. repeat break_if; cbn [fst]; exact H.
  - unfold createTrip, insert_trip. repeat break_if; cbn [fst]; exact H.
  - destruct (createBooking env bookingData selectedSeats db) as [db' r] eqn:Hcall.
    cbn [fst].
    destruct (createBooking_inv _ _ _ _ _ _ Hcall) as [[-> _] | [row [Hins Hrest]]];
      [exact H |].
    apply insert_booking_returns in Hins. destruct Hins as (_ & _ & _ & _ & Hst & _).
    cbn in Hst.
    assert (Hnew : forallb (fun bk => eqb_opt (booking_status bk) "confirmed")
                           (bookings db ++ [row]) = true).
    { rewrite forallb_app, H. cbn. now rewrite Hst. }
    destruct Hrest as [[-> _] | [l (_ & _ & ->)]]; exact Hnew.
  - rewrite confirmBookingPayment_store.
    destruct (update_payment_store bookingId userId paymentGatewayId_ db)
      as [-> | (_ & _ & ->)]; [exact H |].
    cbn [bookings set_bookings].
    rewrite forallb_forall in *. intros bk Hbk. apply in_map_iff in Hbk.
    destruct Hbk as [bk0 [<- Hbk0]].
    destruct (owned_by bookingId userId bk0); [reflexivity | now apply H].
  - unfold createPromotion, insert_promotion. repeat break_if; cbn [fst]; exact H.
Qed.

Lemma run_bookings_confirmed calls :
  forall db,
    forallb (fun bk => eqb_opt (booking_status bk) "confirmed") (bookings db) = true ->
    forallb (fun bk => eqb_opt (booking_status bk) "confirmed")
            (bookings (run calls db)) = true.
Proof.
  induction calls as [| c rest IH]; intros db H; cbn [run]; [exact H |].
  apply IH. now apply exec_bookings_confirmed.
Qed.

(** X23.  The revenue of the day counts bookings that were never paid.
    Starting from a store whose bookings are all confirmed (an empty one,
    say), every booking that any sequence of storage calls leaves in the
    store is confirmed, whether a payment was confirmed for it or not, and
    so [getAdminStats] reports as the revenue of the day the sum of the
    final amounts of all bookings created from [today] to [tomorrow].  Both
    midnights are included: a confirmed booking created exactly at
    [tomorrow] counts for this day and for the next. *)
Theorem revenueToday_counts_unpaid_bookings
        (createdAt : CreatedAt) (today tomorrow : Z) (calls : list Call) (db : Database) :
  forallb (fun bk => eqb_opt (booking_status bk) "confirmed") (bookings db) = true ->
  (forall bk, In bk (bookings (run calls db)) -> booking_status bk = Some "confirmed")
  /\ revenueToday (getAdminStats createdAt today tomorrow (run calls db))
     = sumFinalAmount
         (filter (fun bk => ((today <=? createdAt (booking_id bk))
                             && (createdAt (booking_id bk) <=? tomorrow))%bool)
                 (bookings (run calls db)))
  /\ (forall bk next,
         In bk (bookings (run calls db)) ->
         createdAt (booking_id bk) = tomorrow -> today <= tomorrow -> tomorrow <= next ->
         countsToday createdAt today tomorrow bk = true
         /\ countsToday createdAt tomorrow next bk = true).
Proof.
  intros H. apply (run_bookings_confirmed calls) in H.
  rewrite forallb_forall in H.
  assert (Hst : forall bk, In bk (bookings (run calls db)) ->
                           booking_status bk = Some "confirmed").
  { intros bk Hbk. specialize (H bk Hbk).
    destruct (booking_status bk) as [st |]; [| discriminate H].
    cbn in H. apply String.eqb_eq in H. now subst. }
  split; [exact Hst |]. split.
  - cbn [getAdminStats revenueToday]. f_equal. apply filter_ext_in.
    intros bk Hbk. unfold countsToday. rewrite (H bk Hbk). apply andb_true_r.
  - intros bk next Hbk Hat Hle1 Hle2. unfold countsToday.
    rewrite (H bk Hbk), Hat, !andb_true_r.
    split; apply andb_true_iff; split; apply Z.leb_le; lia.
Qed.

Lemma revenueToday_counts_unpaid_bookings_witness :
  revenueToday (getAdminStats (fun _ => Sample.now) 1755896400000 1755982800000
                              (run Sample.twoBookings Sample.db0))
  = 22000
  /\ forall bk, In bk (bookings (run Sample.twoBookings Sample.db0)) ->
                paymentGatewayId bk = None /\ booking_status bk = Some "confirmed".
Proof.
  assert (H0 : forallb (fun bk => eqb_opt (booking_status bk) "confirmed")
                       (bookings Sample.db0) = true) by reflexivity.
  destruct (revenueToday_counts_unpaid_bookings
              (fun _ => Sample.now) 1755896400000 1755982800000 Sample.twoBookings
              Sample.db0 H0) as (Hst & Hrev & _).
  split; [rewrite Hrev; vm_compute; reflexivity |].
  intros bk Hbk. split; [| now apply Hst].
  vm_compute in Hbk. destruct Hbk as [<- | [<- | []]]; reflexivity.
Defined.

End AdminStats.
